(** * Automation Helper: a shallow embedding of
    [custom_components/automation_helper/__init__.py]

    Python text is modelled as Rocq strings holding the UTF-8 encoding of the
    text, one [ascii] per byte.  ASCII characters are one byte each; the few
    non-ASCII characters that Python's [str.strip], [str.lower] and the [\s]
    class of [re] treat specially are recognised by their byte sequences. *)

From Stdlib Require Import Ascii String NArith ZArith Lia List Bool DecimalString.
From stdpp Require Import base option list gmap strings.

Set Warnings "-register-all".
Local Open Scope N_scope.

(** ** Characters *)

Definition code (c : ascii) : N := N_of_ascii c.

Definition between (lo hi : N) (c : ascii) : bool :=
  (lo <=? code c) && (code c <=? hi).

Definition is_byte (n : N) (c : ascii) : bool := code c =? n.

Definition is_lower_az (c : ascii) : bool := between 97 122 c.
Definition is_upper_az (c : ascii) : bool := between 65 90 c.
Definition is_digit (c : ascii) : bool := between 48 57 c.

(** [str.isspace] on the ASCII range: TAB LF VT FF CR, FS GS RS US, SPACE. *)
Definition is_ascii_space (c : ascii) : bool :=
  between 9 13 c || between 28 32 c.

(** Byte length of the white-space character at the head of [s], 0 when [s]
    does not start with one.  The non-ASCII white space of Python is U+0085,
    U+00A0, U+1680, U+2000..U+200A, U+2028, U+2029, U+202F, U+205F, U+3000. *)
Definition space_len (s : string) : nat :=
  match s with
  | EmptyString => 0%nat
  | String c r =>
      if is_ascii_space c then 1%nat
      else match r with
           | String d r' =>
               if is_byte 194 c && (is_byte 133 d || is_byte 160 d) then 2%nat
               else match r' with
                    | String e _ =>
                        if is_byte 225 c && is_byte 154 d && is_byte 128 e then 3%nat
                        else if is_byte 226 c && is_byte 128 d
                                && (between 128 138 e || is_byte 168 e
                                    || is_byte 169 e || is_byte 175 e) then 3%nat
                        else if is_byte 226 c && is_byte 129 d && is_byte 159 e then 3%nat
                        else if is_byte 227 c && is_byte 128 d && is_byte 128 e then 3%nat
                        else 0%nat
                    | EmptyString => 0%nat
                    end
           | EmptyString => 0%nat
           end
  end.

(** The same test on a reversed string, whose head is the last byte. *)
Definition space_len_rev (s : string) : nat :=
  match s with
  | EmptyString => 0%nat
  | String e r =>
      if is_ascii_space e then 1%nat
      else match r with
           | String d r' =>
               if is_byte 194 d && (is_byte 133 e || is_byte 160 e) then 2%nat
               else match r' with
                    | String c _ =>
                        if is_byte 225 c && is_byte 154 d && is_byte 128 e then 3%nat
                        else if is_byte 226 c && is_byte 128 d
                                && (between 128 138 e || is_byte 168 e
                                    || is_byte 169 e || is_byte 175 e) then 3%nat
                        else if is_byte 226 c && is_byte 129 d && is_byte 159 e then 3%nat
                        else if is_byte 227 c && is_byte 128 d && is_byte 128 e then 3%nat
                        else 0%nat
                    | EmptyString => 0%nat
                    end
           | EmptyString => 0%nat
           end
  end.

(** ** [str] methods *)

(** Drops leading characters while [len] finds one at the head; [skip] counts
    the bytes of the current character that are still to be dropped. *)
Fixpoint drop_while (len : string -> nat) (skip : nat) (s : string) : string :=
  match s with
  | EmptyString => EmptyString
  | String _ r =>
      match skip with
      | S k => drop_while len k r
      | O => match len s with
             | O => s
             | S k => drop_while len k r
             end
      end
  end.

Definition lstrip (s : string) : string := drop_while space_len 0 s.

Definition rstrip (s : string) : string :=
  String.rev (drop_while space_len_rev 0 (String.rev s)).

(** [str.strip()] *)
Definition strip (s : string) : string := rstrip (lstrip s).

Definition lower_byte (c : ascii) : ascii :=
  if is_upper_az c then ascii_of_N (code c + 32) else c.

Definition upper_byte (c : ascii) : ascii :=
  if is_lower_az c then ascii_of_N (code c - 32) else c.

(** [str.lower()].  ASCII capitals are lowered.  Two non-ASCII characters
    have an ASCII letter in their lower case: U+212A (Kelvin sign, bytes
    E2 84 AA) becomes [k], and U+0130 (bytes C4 B0) becomes [i] followed by
    U+0307 (bytes CC 87).  Python maps every other non-ASCII letter to a
    non-ASCII letter; their bytes are left as they are here, which
    [slugify] cannot tell apart since it deletes every non-ASCII byte right
    after lowering. *)
Fixpoint lower_from (skip : nat) (s : string) : string :=
  match s with
  | EmptyString => EmptyString
  | String c r =>
      match skip with
      | S k => lower_from k r
      | O =>
          match r with
          | String d (String e _) =>
              if is_byte 226 c && is_byte 132 d && is_byte 170 e
              then String "k" (lower_from 2 r)
              else if is_byte 196 c && is_byte 176 d
              then String "i" (String (ascii_of_N 204) (String (ascii_of_N 135) (lower_from 1 r)))
              else String (lower_byte c) (lower_from 0 r)
          | String d EmptyString =>
              if is_byte 196 c && is_byte 176 d
              then String "i" (String (ascii_of_N 204) (String (ascii_of_N 135) (lower_from 1 r)))
              else String (lower_byte c) (lower_from 0 r)
          | EmptyString => String (lower_byte c) EmptyString
          end
      end
  end.

Definition lower (s : string) : string := lower_from 0 s.

(** [str.title()] on ASCII letters: a letter that follows a cased letter is
    lowered, any other letter is capitalised.  Non-ASCII bytes are copied and
    count as uncased. *)
Fixpoint title_from (prev_cased : bool) (s : string) : string :=
  match s with
  | EmptyString => EmptyString
  | String c r =>
      String (if prev_cased then lower_byte c else upper_byte c)
             (title_from (is_lower_az c || is_upper_az c) r)
  end.

Definition title (s : string) : string := title_from false s.

Fixpoint starts_with (p s : string) : bool :=
  match p with
  | EmptyString => true
  | String a p' =>
      match s with
      | EmptyString => false
      | String b s' => if Ascii.eqb a b then starts_with p' s' else false
      end
  end.

(** [s.replace(old, new)]: the occurrences of [old] are found from left to
    right and do not overlap. *)
Fixpoint replace_from (skip : nat) (old new s : string) : string :=
  match s with
  | EmptyString =>
      match old with EmptyString => new | _ => EmptyString end
  | String c r =>
      match skip with
      | S k => replace_from k old new r
      | O =>
          if starts_with old s
          then new +:+ match old with
                       | EmptyString => String c (replace_from 0 old new r)
                       | String _ o => replace_from (String.length o) old new r
                       end
          else String c (replace_from 0 old new r)
      end
  end.

Definition replace (old new s : string) : string := replace_from 0 old new s.

(** ["sep".join(parts)] *)
Fixpoint join (sep : string) (parts : list string) : string :=
  match parts with
  | [] => EmptyString
  | [x] => x
  | x :: rest => x +:+ sep +:+ join sep rest
  end.

(** ** The regular expressions of the module *)

Fixpoint filter_bytes (keep : ascii -> bool) (s : string) : string :=
  match s with
  | EmptyString => EmptyString
  | String c r =>
      if keep c then String c (filter_bytes keep r) else filter_bytes keep r
  end.

(** Replaces every maximal run of characters recognised by [len] by [rep]:
    [re.sub(r"[...]+", rep, s)]. *)
Fixpoint sub_runs (len : string -> nat) (rep : string) (skip : nat)
    (in_run : bool) (s : string) : string :=
  match s with
  | EmptyString => EmptyString
  | String c r =>
      match skip with
      | S k => sub_runs len rep k in_run r
      | O => match len s with
             | O => String c (sub_runs len rep 0 false r)
             | S k => (if in_run then EmptyString else rep)
                        +:+ sub_runs len rep k true r
             end
      end
  end.

(** The class [[a-z0-9_\- ]]; its complement is deleted by [slugify]. *)
Definition slug_keep (c : ascii) : bool :=
  is_lower_az c || is_digit c || is_byte 95 c || is_byte 45 c || is_byte 32 c.

(** The class [[\s\-]]. *)
Definition space_or_hyphen_len (s : string) : nat :=
  match s with
  | EmptyString => 0%nat
  | String c _ => if is_byte 45 c then 1%nat else space_len s
  end.

(** The class [[_\-]]. *)
Definition underscore_or_hyphen_len (s : string) : nat :=
  match s with
  | EmptyString => 0%nat
  | String c _ => if is_byte 95 c || is_byte 45 c then 1%nat else 0%nat
  end.

(** [x or default] on strings: the empty string is falsy. *)
Definition str_or (x default : string) : string :=
  match x with EmptyString => default | _ => x end.

(** ** [slugify] and [humanize] *)

Definition slugify (value : string) : string :=
  let value := lower (strip value) in
  let value := filter_bytes slug_keep value in
  let value := sub_runs space_or_hyphen_len "_" 0 false value in
  str_or value "automation".

Definition humanize (value : string) : string :=
  let cleaned := strip (sub_runs underscore_or_hyphen_len " " 0 false value) in
  match cleaned with
  | EmptyString => "Automation"
  | _ => title cleaned
  end.

Definition TAB : string := String (ascii_of_N 9) EmptyString.
Definition KELVIN : string :=
  String (ascii_of_N 226) (String (ascii_of_N 132) (String (ascii_of_N 170) EmptyString)).
Definition NBSP : string := String (ascii_of_N 194) (String (ascii_of_N 160) EmptyString).

(** ** Python values *)

(** The values that travel through service data and into the serializer.
    A [dict] keeps its insertion order: it is an association list. *)
Inductive pyval : Type :=
  | PNone
  | PBool (b : bool)
  | PInt (z : Z)
  | PStr (s : string)
  | PList (items : list pyval)
  | PDict (entries : list (string * pyval)).

Definition pydict : Type := list (string * pyval).

(** [d[k] = v]: an existing key keeps its position. *)
Fixpoint dict_set {V} (k : string) (v : V) (d : list (string * V)) : list (string * V) :=
  match d with
  | [] => [(k, v)]
  | (k', v') :: rest =>
      if String.eqb k k' then (k, v) :: rest else (k', v') :: dict_set k v rest
  end.

(** [d.get(k)] *)
Fixpoint dict_get {V} (k : string) (d : list (string * V)) : option V :=
  match d with
  | [] => None
  | (k', v) :: rest => if String.eqb k k' then Some v else dict_get k rest
  end.

Definition dict_keys {V} (d : list (string * V)) : list string := map fst d.

(** ** Regular expressions for the YAML resolver *)

Inductive regex : Type :=
  | Void
  | Eps
  | Chr (p : ascii -> bool)
  | Cat (r1 r2 : regex)
  | Alt (r1 r2 : regex)
  | Star (r : regex).

Fixpoint nullable (r : regex) : bool :=
  match r with
  | Void => false
  | Eps => true
  | Chr _ => false
  | Cat r1 r2 => nullable r1 && nullable r2
  | Alt r1 r2 => nullable r1 || nullable r2
  | Star _ => true
  end.

Fixpoint deriv (c : ascii) (r : regex) : regex :=
  match r with
  | Void => Void
  | Eps => Void
  | Chr p => if p c then Eps else Void
  | Cat r1 r2 =>
      if nullable r1 then Alt (Cat (deriv c r1) r2) (deriv c r2)
      else Cat (deriv c r1) r2
  | Alt r1 r2 => Alt (deriv c r1) (deriv c r2)
  | Star r1 => Cat (deriv c r1) (Star r1)
  end.

(** [re.fullmatch] *)
Fixpoint fullmatch (r : regex) (s : string) : bool :=
  match s with
  | EmptyString => nullable r
  | String c s' => fullmatch (deriv c r) s'
  end.

Fixpoint mem_byte (c : ascii) (set : string) : bool :=
  match set with
  | EmptyString => false
  | String a rest => Ascii.eqb a c || mem_byte c rest
  end.

Definition one_of (set : string) : regex := Chr (fun c => mem_byte c set).
Definition opt (r : regex) : regex := Alt Eps r.
Definition plus (r : regex) : regex := Cat r (Star r).

Fixpoint lit (s : string) : regex :=
  match s with
  | EmptyString => Eps
  | String c s' => Cat (Chr (Ascii.eqb c)) (lit s')
  end.

Fixpoint alts (rs : list regex) : regex :=
  match rs with
  | [] => Void
  | r :: rest => Alt r (alts rest)
  end.

Fixpoint cats (rs : list regex) : regex :=
  match rs with
  | [] => Eps
  | r :: rest => Cat r (cats rest)
  end.

Definition re_digit : regex := Chr is_digit.
Definition re_sign : regex := opt (one_of "-+").
Definition re_digit_us : regex := Chr (fun c => is_digit c || is_byte 95 c).
Definition re_sexagesimal : regex :=
  plus (cats [lit ":"; opt (one_of "012345"); re_digit]).
Definition re_exponent : regex :=
  opt (cats [one_of "eE"; one_of "-+"; plus re_digit]).

(** The implicit resolvers of YAML 1.1 as PyYAML declares them. *)
Definition yaml_bool : regex :=
  alts (map lit ["yes"; "Yes"; "YES"; "no"; "No"; "NO";
                 "true"; "True"; "TRUE"; "false"; "False"; "FALSE";
                 "on"; "On"; "ON"; "off"; "Off"; "OFF"]).

Definition yaml_null : regex :=
  alts (map lit ["~"; "null"; "Null"; "NULL"; EmptyString]).

Definition yaml_int : regex :=
  alts [ cats [re_sign; lit "0b"; plus (one_of "01_")];
         cats [re_sign; lit "0"; plus (one_of "01234567_")];
         cats [re_sign; Alt (lit "0") (Cat (one_of "123456789") (Star re_digit_us))];
         cats [re_sign; lit "0x"; plus (one_of "0123456789abcdefABCDEF_")];
         cats [re_sign; one_of "123456789"; Star re_digit_us; re_sexagesimal] ].

Definition yaml_float : regex :=
  alts [ cats [re_sign; re_digit; Star re_digit_us; lit "."; Star re_digit_us; re_exponent];
         cats [lit "."; re_digit; Star re_digit_us; re_exponent];
         cats [re_sign; re_digit; Star re_digit_us; re_sexagesimal; lit "."; Star re_digit_us];
         cats [re_sign; lit "."; alts (map lit ["inf"; "Inf"; "INF"])];
         cats [lit "."; alts (map lit ["nan"; "NaN"; "NAN"])] ].

Definition re_blank : regex := Chr (fun c => is_byte 32 c || is_byte 9 c).

Definition yaml_timestamp : regex :=
  alts [ cats [re_digit; re_digit; re_digit; re_digit; lit "-";
               re_digit; re_digit; lit "-"; re_digit; re_digit];
         cats [re_digit; re_digit; re_digit; re_digit;
               lit "-"; re_digit; opt re_digit;
               lit "-"; re_digit; opt re_digit;
               Alt (one_of "Tt") (plus re_blank);
               re_digit; opt re_digit;
               lit ":"; re_digit; re_digit;
               lit ":"; re_digit; re_digit;
               opt (Cat (lit ".") (Star re_digit));
               opt (Cat (Star re_blank)
                        (Alt (lit "Z")
                             (cats [one_of "-+"; re_digit; opt re_digit;
                                    opt (cats [lit ":"; re_digit; re_digit])])))] ].

(** A plain scalar with this text would not be read back as a string. *)
Definition resolves_to_other (s : string) : bool :=
  fullmatch yaml_bool s || fullmatch yaml_null s || fullmatch yaml_int s
  || fullmatch yaml_float s || fullmatch yaml_timestamp s
  || String.eqb s "<<" || String.eqb s "=".

(** ** The YAML serializer

    [yaml.safe_dump(data, sort_keys=False, indent=2, default_flow_style=False,
    allow_unicode=True)] for a mapping [data]: block style, keys in insertion
    order, nested mappings indented by two columns, sequences inside a mapping
    at the column of their key, empty collections in flow form.  A string is
    written plain when PyYAML's scalar analysis allows it and the resolver
    would read it back as a string, single-quoted when it is printable, and
    double-quoted with escapes otherwise.  Keys here are strings and are
    written as simple keys; values are trees, so the dump has no anchors.
    The model writes every scalar on one line: PyYAML's folding of long
    scalars at 80 columns is left out, and text with line breaks, which
    PyYAML spreads over several quoted lines, is written double-quoted. *)

Definition NL : string := String (ascii_of_N 10) EmptyString.
Definition DQUOTE : string := String (ascii_of_N 34) EmptyString.
Definition BACKSLASH : string := String (ascii_of_N 92) EmptyString.

Definition hex_digit (n : N) : ascii :=
  if n <? 10 then ascii_of_N (48 + n) else ascii_of_N (55 + n).

Definition hex2 (c : ascii) : string :=
  String (hex_digit (code c / 16)) (String (hex_digit (code c mod 16)) EmptyString).

(** Byte length of the character at the head of [s] when it is a line break
    or not printable, 0 otherwise. *)
Definition unprintable_len (s : string) : nat :=
  match s with
  | EmptyString => 0%nat
  | String c r =>
      if (code c <? 32) || is_byte 127 c then 1%nat
      else match r with
           | String d r' =>
               if is_byte 194 c && between 128 159 d then 2%nat
               else match r' with
                    | String e _ =>
                        if is_byte 226 c && is_byte 128 d && (is_byte 168 e || is_byte 169 e)
                        then 3%nat
                        else if is_byte 239 c && is_byte 187 d && is_byte 191 e then 3%nat
                        else if is_byte 239 c && is_byte 191 d && (is_byte 190 e || is_byte 191 e)
                        then 3%nat
                        else 0%nat
                    | EmptyString => 0%nat
                    end
           | EmptyString => 0%nat
           end
  end.

Fixpoint all_printable (s : string) : bool :=
  match s with
  | EmptyString => true
  | String _ r =>
      match unprintable_len s with
      | O => all_printable r
      | S _ => false
      end
  end.

(** The white space that PyYAML's analysis looks for around indicators. *)
Definition is_yaml_space (c : ascii) : bool :=
  is_byte 0 c || is_byte 32 c || is_byte 9 c || is_byte 13 c || is_byte 10 c.

Definition followed_by_space (rest : string) : bool :=
  match rest with
  | EmptyString => true
  | String c _ => is_yaml_space c
  end.

(** No [:] before white space and no [#] after white space inside the text. *)
Fixpoint inner_indicators (prev : ascii) (s : string) : bool :=
  match s with
  | EmptyString => false
  | String c r =>
      (is_byte 58 c && followed_by_space r)
      || (is_byte 35 c && is_yaml_space prev)
      || inner_indicators c r
  end.

Definition leading_indicator (s : string) : bool :=
  match s with
  | EmptyString => false
  | String c r =>
      mem_byte c ("#,[]{}&*!|>'%@`" +:+ DQUOTE)
      || ((is_byte 63 c || is_byte 58 c || is_byte 45 c) && followed_by_space r)
      || inner_indicators c r
  end.

Fixpoint last_byte (s : string) : option ascii :=
  match s with
  | EmptyString => None
  | String c EmptyString => Some c
  | String _ r => last_byte r
  end.

Definition space_at_end (s : string) : bool :=
  match s, last_byte s with
  | String c _, Some e => is_byte 32 c || is_byte 32 e
  | _, _ => false
  end.

Definition plain_allowed (s : string) : bool :=
  match s with
  | EmptyString => false
  | _ =>
      negb (starts_with "---" s) && negb (starts_with "..." s)
      && negb (leading_indicator s) && negb (space_at_end s)
      && all_printable s
  end.

Fixpoint single_quoted_body (s : string) : string :=
  match s with
  | EmptyString => EmptyString
  | String c r =>
      if is_byte 39 c then "''" +:+ single_quoted_body r
      else String c (single_quoted_body r)
  end.

Definition escape_control (c : ascii) : string :=
  BACKSLASH +:+
  (if is_byte 0 c then "0" else if is_byte 7 c then "a" else if is_byte 8 c then "b"
   else if is_byte 9 c then "t" else if is_byte 10 c then "n" else if is_byte 11 c then "v"
   else if is_byte 12 c then "f" else if is_byte 13 c then "r" else if is_byte 27 c then "e"
   else "x" +:+ hex2 c).

Definition escape_wide (c d e : ascii) : string :=
  BACKSLASH +:+
  (if is_byte 194 c then (if is_byte 133 d then "N" else "x" +:+ hex2 d)
   else if is_byte 226 c then (if is_byte 168 e then "L" else "P")
   else if is_byte 187 d then "uFEFF"
   else if is_byte 190 e then "uFFFE" else "uFFFF").

Fixpoint double_quoted_body (skip : nat) (s : string) : string :=
  match s with
  | EmptyString => EmptyString
  | String c r =>
      match skip with
      | S k => double_quoted_body k r
      | O =>
          match unprintable_len s with
          | O =>
              if is_byte 34 c || is_byte 92 c
              then BACKSLASH +:+ String c (double_quoted_body 0 r)
              else String c (double_quoted_body 0 r)
          | S O => escape_control c +:+ double_quoted_body 0 r
          | S k =>
              match r with
              | String d (String e _) => escape_wide c d e +:+ double_quoted_body k r
              | String d EmptyString => escape_wide c d d +:+ double_quoted_body k r
              | EmptyString => EmptyString
              end
          end
      end
  end.

(** A string scalar as the emitter writes it. *)
Definition represent_str (s : string) : string :=
  if plain_allowed s && negb (resolves_to_other s) then s
  else if all_printable s then "'" +:+ single_quoted_body s +:+ "'"
  else DQUOTE +:+ double_quoted_body 0 s +:+ DQUOTE.

Definition represent_int (z : Z) : string :=
  NilZero.string_of_int (Z.to_int z).

(** Scalars and empty collections go on the line of their key or dash. *)
Definition inline (v : pyval) : option string :=
  match v with
  | PNone => Some "null"
  | PBool b => Some (if b then "true" else "false")
  | PInt z => Some (represent_int z)
  | PStr s => Some (represent_str s)
  | PList [] => Some "[]"
  | PDict [] => Some "{}"
  | _ => None
  end.

Definition is_sequence (v : pyval) : bool :=
  match v with PList _ => true | _ => false end.

Definition indent_line (l : string) : string := "  " +:+ l.

(** A sequence item: the dash takes the place of the item's indentation. *)
Definition dash_lines (ls : list string) : list string :=
  match ls with
  | [] => []
  | l :: rest => ("- " +:+ l) :: map indent_line rest
  end.

(** The lines of one sequence item and of one mapping entry, given the
    lines [block] of a nested collection. *)
Definition item_lines (block : pyval -> list string) (x : pyval) : list string :=
  match inline x with
  | Some t => ["- " +:+ t]
  | None => dash_lines (block x)
  end.

Definition entry_lines (block : pyval -> list string) (kx : string * pyval)
    : list string :=
  match inline (snd kx) with
  | Some t => [represent_str (fst kx) +:+ ": " +:+ t]
  | None =>
      (represent_str (fst kx) +:+ ":")
        :: (if is_sequence (snd kx) then block (snd kx)
            else map indent_line (block (snd kx)))
  end.

(** The lines of a non-empty collection, relative to its own column. *)
Fixpoint block_lines (v : pyval) : list string :=
  match v with
  | PList items => flat_map (item_lines block_lines) items
  | PDict entries => flat_map (entry_lines block_lines) entries
  | _ => []
  end.

Fixpoint unlines (ls : list string) : string :=
  match ls with
  | [] => EmptyString
  | l :: rest => l +:+ NL +:+ unlines rest
  end.

Definition safe_dump (data : pydict) : string :=
  match data with
  | [] => "{}" +:+ NL
  | _ => unlines (block_lines (PDict data))
  end.

Definition sample_step : pyval :=
  PDict [("platform", PStr "state"); ("entity_id", PStr "!input target_entity");
         ("to", PStr "on"); ("for", PDict [("minutes", PInt 5)]);
         ("tags", PList [PStr "a b"; PList [PInt (-1); PNone]; PDict []]);
         ("note", PStr "it's: #1 – ok")].

(** ** Truthiness *)

(** [x or default] for an optional string: [None] and the empty string are falsy. *)
Definition opt_str_or (x : option string) (default : string) : string :=
  match x with
  | Some (String c r) => String c r
  | _ => default
  end.

(** [x or default] for a list: the empty list is falsy. *)
Definition list_or {A} (x default : list A) : list A :=
  match x with [] => default | _ => x end.

Definition truthy_str (x : option string) : bool :=
  match x with Some (String _ _) => true | _ => false end.

Definition truthy_list {A} (x : option (list A)) : bool :=
  match x with Some (_ :: _) => true | _ => false end.

(** ** [AutomationDefinition] *)

Record AutomationDefinition : Type := {
  alias : string;
  description : option string;
  mode : string;
  trigger : list pyval;
  condition : option (list pyval);
  action : list pyval
}.

(** The mapping that [to_yaml] hands to the serializer. *)
Definition automation_dict (self : AutomationDefinition) : pydict :=
  let automation :=
    [("alias", PStr (alias self));
     ("mode", PStr (mode self));
     ("trigger", PList (list_or (trigger self) []));
     ("action", PList (list_or (action self) []))] in
  let automation :=
    match description self with
    | Some (String c r) => dict_set "description" (PStr (String c r)) automation
    | _ => automation
    end in
  let automation :=
    match condition self with
    | Some (x :: rest) => dict_set "condition" (PList (x :: rest)) automation
    | _ => automation
    end in
  automation.

Definition to_yaml (self : AutomationDefinition) : string :=
  safe_dump (automation_dict self).

(** ** Template builders *)

Definition build_automation_package_yaml
    (name : string) (description : option string) (include_example : bool) : string :=
  let header := "# Automations for the " +:+ name +:+ " package" +:+ NL in
  let automation :=
    if include_example then
      [PDict
         [("alias", PStr (name +:+ " – example"));
          ("description",
           PStr (opt_str_or description
                   "Replace the trigger and actions with your real automation logic."));
          ("trigger",
           PList [PDict [("platform", PStr "state");
                         ("entity_id", PStr "binary_sensor.example");
                         ("to", PStr "on")]]);
          ("condition", PList []);
          ("action",
           PList [PDict [("service", PStr "logbook.log");
                         ("data",
                          PDict [("name", PStr name);
                                 ("message", PStr "Replace this with useful actions.")])]]);
          ("mode", PStr "single")]]
    else [] in
  let body := [("automation", PList automation)] in
  header +:+ safe_dump body.

Definition build_scripts_package_yaml (name : string) (include_example : bool) : string :=
  let header := "# Scripts for the " +:+ name +:+ " package" +:+ NL in
  let script :=
    if include_example then
      dict_set (slugify (name +:+ " helper"))
        (PDict
           [("alias", PStr (name +:+ " helper"));
            ("sequence",
             PList [PDict [("service", PStr "logbook.log");
                           ("data",
                            PDict [("name", PStr name);
                                   ("message",
                                    PStr "Replace this script with your real sequence.")])]])])
        []
    else [] in
  let body := [("script", PDict script)] in
  header +:+ safe_dump body.

Definition build_scenes_package_yaml (name : string) (include_example : bool) : string :=
  let header := "# Scenes for the " +:+ name +:+ " package" +:+ NL in
  let scene :=
    if include_example then
      [PDict
         [("name", PStr (name +:+ " scene"));
          ("icon", PStr "mdi:palette");
          ("entities",
           PDict [("light.example",
                   PDict [("state", PStr "on"); ("brightness", PInt 200)])])]]
    else [] in
  let body := [("scene", PList scene)] in
  header +:+ safe_dump body.

Definition build_package_readme
    (name : string) (description : option string)
    (include_scripts include_scenes include_blueprint : bool) : string :=
  let lines := ["# " +:+ name +:+ " package"; EmptyString] in
  let lines :=
    match description with
    | Some (String c r) => lines ++ [String c r]
    | _ => lines ++ ["Describe the goal of this automation package."]
    end in
  let lines := lines ++ [EmptyString; "## Contents"; EmptyString; "- `automations.yaml`"] in
  let lines := if include_scripts then lines ++ ["- `scripts.yaml`"] else lines in
  let lines := if include_scenes then lines ++ ["- `scenes.yaml`"] else lines in
  let lines :=
    if include_blueprint
    then lines ++ ["- `blueprints/` automation or script blueprint"]
    else lines in
  let lines :=
    lines ++ [EmptyString; "## Getting started"; EmptyString;
              "1. Adjust the example entries to match your devices.";
              "2. Load the package by enabling `packages:` in `configuration.yaml`.";
              "3. Restart Home Assistant and verify the automations appear as expected."] in
  join NL lines +:+ NL.

Definition INPUT_TOKEN : string := "!input target_entity".

(** The mapping that [build_blueprint_yaml] hands to the serializer. *)
Definition blueprint_dict (name : string) (description : option string) (domain : string)
    : pydict :=
  let inner :=
    [("name", PStr (name +:+ " helper blueprint"));
     ("description",
      PStr (opt_str_or description
              "Adapt this blueprint to create reusable automations or scripts."));
     ("domain", PStr domain);
     ("input",
      PDict [("target_entity",
              PDict [("name", PStr "Target entity");
                     ("description", PStr "Entity that should receive the action.");
                     ("selector", PDict [("entity", PDict [])])])]);
     ("source_url", PStr "https://github.com/404GamerNotFound/ha_automation_helper")] in
  let inner :=
    if String.eqb domain "automation" then
      let inner :=
        dict_set "trigger"
          (PList [PDict [("platform", PStr "state");
                         ("entity_id", PStr INPUT_TOKEN);
                         ("to", PStr "on")]])
          inner in
      dict_set "action"
        (PList [PDict [("service", PStr "logbook.log");
                       ("data",
                        PDict [("name", PStr name);
                               ("message",
                                PStr "Blueprint triggered – replace with useful actions.")])]])
        inner
    else
      dict_set "sequence"
        (PList [PDict [("service", PStr "logbook.log");
                       ("data",
                        PDict [("name", PStr name);
                               ("message",
                                PStr "Blueprint executed – replace with useful steps.")])]])
        inner in
  [("blueprint", PDict inner)].

Definition build_blueprint_yaml (name : string) (description : option string)
    (domain : string) : string :=
  let yaml_body := safe_dump (blueprint_dict name description domain) in
  let yaml_body := replace ("'" +:+ INPUT_TOKEN +:+ "'") INPUT_TOKEN yaml_body in
  let yaml_body := replace (DQUOTE +:+ INPUT_TOKEN +:+ DQUOTE) INPUT_TOKEN yaml_body in
  yaml_body.

(** ** Exceptions and results *)

Inductive exn : Type :=
  | HomeAssistantError (msg : string)
  | Invalid (msg : string)
  | FileExistsError (arg0 : string)
  | FileNotFoundError
  | NotADirectoryError
  | IsADirectoryError.

Inductive result (A : Type) : Type :=
  | Ok (a : A)
  | Raise (e : exn).
Arguments Ok {A} a.
Arguments Raise {A} e.

Definition result_bind {A B} (r : result A) (k : A -> result B) : result B :=
  match r with
  | Ok a => k a
  | Raise e => Raise e
  end.

(** ** The file system

    A tree of directories and regular files; a path is the list of its
    components below the root. *)

Definition path : Type := list string.

Inductive node : Type :=
  | File (content : string)
  | Dir (entries : gmap string node).

Fixpoint lookup_path (p : path) (n : node) : option node :=
  match p with
  | [] => Some n
  | x :: p' =>
      match n with
      | Dir m => match m !! x with
                 | Some child => lookup_path p' child
                 | None => None
                 end
      | File _ => None
      end
  end.

(** [Path.mkdir(parents=True, exist_ok=True)] on the tree: the missing
    directories along [p] are created.  A regular file at [p] makes
    [os.mkdir] fail with errno 17, a [FileExistsError] whose [args[0]] is 17;
    a regular file above [p] gives [NotADirectoryError].  A failure leaves
    the tree as it was. *)
Fixpoint make_dirs (p : path) (n : node) : result node :=
  match n with
  | File _ =>
      match p with
      | [] => Raise (FileExistsError "17")
      | _ :: _ => Raise NotADirectoryError
      end
  | Dir m =>
      match p with
      | [] => Ok n
      | x :: p' =>
          match make_dirs p' (default (Dir ∅) (m !! x)) with
          | Ok child => Ok (Dir (<[x := child]> m))
          | Raise e => Raise e
          end
      end
  end.

(** [open(p, "w").write(content)]: the parent must be a directory and [p]
    must not be one.  (The root of a file system is a directory; the case of
    a regular file as root is there for totality only.) *)
Fixpoint write_file (p : path) (content : string) (n : node) : result node :=
  match n with
  | File _ =>
      match p with
      | [] => Ok (File content)
      | _ :: _ => Raise NotADirectoryError
      end
  | Dir m =>
      match p with
      | [] => Raise IsADirectoryError
      | [x] =>
          match m !! x with
          | Some (Dir _) => Raise IsADirectoryError
          | _ => Ok (Dir (<[x := File content]> m))
          end
      | x :: p' =>
          match m !! x with
          | Some child =>
              match write_file p' content child with
              | Ok child' => Ok (Dir (<[x := child']> m))
              | Raise e => Raise e
              end
          | None => Raise FileNotFoundError
          end
      end
  end.

(** ** Paths *)

Fixpoint split_on (sep : ascii) (cur : string) (s : string) : list string :=
  match s with
  | EmptyString => [String.rev cur]
  | String c r =>
      if Ascii.eqb c sep then String.rev cur :: split_on sep EmptyString r
      else split_on sep (String c cur) r
  end.

(** The components of a path written with slashes; empty components and
    [.] are dropped, as [pathlib] does.  A component [..] is kept, as
    [pathlib] keeps it, and is a name like any other for the tree, whereas
    the operating system resolves it: what is stated below about the files
    of paths given by a caller is stated for paths without it. *)
Definition path_parts (s : string) : path :=
  filter (fun x => x ≠ EmptyString ∧ x ≠ ".") (split_on "/" EmptyString s).

(** [base / s] *)
Definition path_join (base : path) (s : string) : path :=
  if starts_with "/" s then path_parts s else base ++ path_parts s.

(** [path.parent] *)
Definition parent (p : path) : path := removelast p.

(** [str(path)] *)
Definition path_str (p : path) : string :=
  match p with
  | [] => "/"
  | _ => String.concat EmptyString (map (fun x => "/" +:+ x) p)
  end.

(** ** Effects: the file system and the trace of calls made on it *)

Inductive fs_call : Type :=
  | CallExists (p : path)
  | CallMkdir (p : path)
  | CallIterdir (p : path)
  | CallWriteText (p : path) (content : string).

Record world : Type := { fs : node; calls : list fs_call }.

(** A computation runs from a world to a value or an exception, and the
    world it leaves. *)
Definition M (A : Type) : Type := world -> result A * world.

Definition ret {A} (a : A) : M A := fun w => (Ok a, w).
Definition raise {A} (e : exn) : M A := fun w => (Raise e, w).
Definition bind {A B} (m : M A) (k : A -> M B) : M B :=
  fun w => match m w with
           | (Ok a, w') => k a w'
           | (Raise e, w') => (Raise e, w')
           end.

Declare Scope py_scope.
Notation "'let*' x ':=' m 'in' k" := (bind m (fun x => k))
  (at level 10, x name, m at level 100, k at level 200) : py_scope.
Notation "m ;; k" := (bind m (fun _ => k))
  (at level 100, k at level 200, right associativity) : py_scope.
Local Open Scope py_scope.

Definition record_call (c : fs_call) (w : world) : world :=
  {| fs := fs w; calls := calls w ++ [c] |}.

(** [path.exists()] *)
Definition path_exists (p : path) : M bool :=
  fun w => (Ok (bool_decide (is_Some (lookup_path p (fs w)))),
            record_call (CallExists p) w).

(** [path.mkdir(parents=True, exist_ok=True)] *)
Definition path_mkdir (p : path) : M unit :=
  fun w => match make_dirs p (fs w) with
           | Ok n => (Ok tt, {| fs := n; calls := calls w ++ [CallMkdir p] |})
           | Raise e => (Raise e, record_call (CallMkdir p) w)
           end.

(** [any(path.iterdir())] *)
Definition path_iterdir_any (p : path) : M bool :=
  fun w => (match lookup_path p (fs w) with
            | Some (Dir m) => Ok (bool_decide (m ≠ ∅))
            | Some (File _) => Raise NotADirectoryError
            | None => Raise FileNotFoundError
            end, record_call (CallIterdir p) w).

(** [path.write_text(content, encoding="utf-8")] *)
Definition path_write_text (p : path) (content : string) : M unit :=
  fun w => match write_file p content (fs w) with
           | Ok n => (Ok tt, {| fs := n; calls := calls w ++ [CallWriteText p content] |})
           | Raise e => (Raise e, record_call (CallWriteText p content) w)
           end.

(** [try: m except FileExistsError as err: handler(err.args[0])] *)
Definition except_FileExistsError {A} (m : M A) (handler : string -> M A) : M A :=
  fun w => match m w with
           | (Raise (FileExistsError arg0), w') => handler arg0 w'
           | other => other
           end.

Fixpoint for_each {A} (l : list A) (body : A -> M unit) : M unit :=
  match l with
  | [] => ret tt
  | x :: rest => body x ;; for_each rest body
  end.

(** ** The guarded file writer *)

Record HomeAssistant : Type := { config_dir : path }.

(** [hass.config.path(name)] *)
Definition config_path (hass : HomeAssistant) (name : string) : path :=
  config_dir hass ++ [name].

Definition _write (p : path) (content : string) (overwrite : bool) : M unit :=
  let* present := path_exists p in
  if present && negb overwrite then raise (FileExistsError (path_str p))
  else path_mkdir (parent p) ;; path_write_text p content.

Definition _async_write_file (hass : HomeAssistant) (p : path) (content : string)
    (overwrite : bool) : M unit :=
  except_FileExistsError (_write p content overwrite)
    (fun arg0 => raise (HomeAssistantError ("Automation Helper refused to overwrite " +:+ arg0))).

(** ** Service data and its validation *)

(** Validated data of [generate_automation] ([call.data]). *)
Record GenerateData : Type := {
  data_alias : string;
  data_description : option string;
  data_mode : string;
  data_filename : option string;
  data_overwrite : bool;
  data_trigger : list pyval;
  data_condition : option (list pyval);
  data_action : list pyval
}.

(** Validated data of [generate_package]. *)
Record PackageData : Type := {
  pkg_name : string;
  pkg_description : option string;
  pkg_overwrite : bool;
  pkg_include_example : bool;
  pkg_include_scripts : bool;
  pkg_include_scenes : bool;
  pkg_include_readme : bool;
  pkg_blueprint_domain : string;
  pkg_include_blueprint : bool
}.

(** [cv.string]: coerces to a string, except [None] and collections. *)
Definition cv_string (value : pyval) : result string :=
  match value with
  | PNone => Raise (Invalid "string value is None")
  | PStr s => Ok s
  | PList _ | PDict _ => Raise (Invalid "value should be a string")
  | PInt z => Ok (represent_int z)
  | PBool b => Ok (if b then "True" else "False")
  end.

Definition mem_string (s : string) (l : list string) : bool :=
  existsb (String.eqb s) l.

(** [cv.boolean] *)
Definition cv_boolean (value : pyval) : result bool :=
  match value with
  | PBool b => Ok b
  | PStr s =>
      let s := strip (lower s) in
      if mem_string s ["1"; "true"; "yes"; "on"; "enable"] then Ok true
      else if mem_string s ["0"; "false"; "no"; "off"; "disable"] then Ok false
      else Raise (Invalid "invalid boolean value")
  | PInt z => Ok (negb (Z.eqb z 0))
  | _ => Raise (Invalid "invalid boolean value")
  end.

(** [cv.ensure_list] *)
Definition cv_ensure_list (value : pyval) : list pyval :=
  match value with
  | PNone => []
  | PList l => l
  | _ => [value]
  end.

(** A list schema [[validator]]: every element must validate; the empty
    list has no element to reject. *)
Fixpoint validate_each (validator : pyval -> result pyval) (l : list pyval)
    : result (list pyval) :=
  match l with
  | [] => Ok []
  | x :: rest =>
      result_bind (validator x) (fun x' =>
      result_bind (validate_each validator rest) (fun rest' => Ok (x' :: rest')))
  end.

(** [vol.In(container)] on strings. *)
Definition vol_In (container : list string) (value : pyval) : result string :=
  match value with
  | PStr s => if mem_string s container then Ok s
              else Raise (Invalid "value must be one of ['automation', 'script']")
  | _ => Raise (Invalid "value must be one of ['automation', 'script']")
  end.

(** [vol.Required(key): validator] *)
Definition required {A} (key : string) (validator : pyval -> result A) (data : pydict)
    : result A :=
  match dict_get key data with
  | Some v => validator v
  | None => Raise (Invalid ("required key not provided @ data['" +:+ key +:+ "']"))
  end.

(** [vol.Optional(key): validator] *)
Definition optional {A} (key : string) (validator : pyval -> result A) (data : pydict)
    : result (option A) :=
  match dict_get key data with
  | Some v => result_bind (validator v) (fun a => Ok (Some a))
  | None => Ok None
  end.

(** [vol.Optional(key, default=d): validator]: the default is validated
    like a given value. *)
Definition optional_default {A} (key : string) (d : pyval)
    (validator : pyval -> result A) (data : pydict) : result A :=
  validator (default d (dict_get key data)).

(** A mapping schema rejects keys it does not declare. *)
Definition no_extra_keys (declared : list string) (data : pydict) : result unit :=
  if forallb (fun k => mem_string k declared) (dict_keys data) then Ok tt
  else Raise (Invalid "extra keys not allowed").

Section Schemas.

(** [cv.SCRIPT_SCHEMA] belongs to Home Assistant; any validator will do. *)
Variable SCRIPT_SCHEMA : pyval -> result pyval.

Definition script_list (value : pyval) : result (list pyval) :=
  validate_each SCRIPT_SCHEMA (cv_ensure_list value).

(** Of several failures the first in the order of the schema is reported. *)
Definition SERVICE_SCHEMA (data : pydict) : result GenerateData :=
  result_bind (no_extra_keys ["alias"; "description"; "mode"; "filename"; "overwrite";
                              "trigger"; "condition"; "action"] data) (fun _ =>
  result_bind (required "alias" cv_string data) (fun alias =>
  result_bind (optional "description" cv_string data) (fun description =>
  result_bind (optional_default "mode" (PStr "single") cv_string data) (fun mode =>
  result_bind (optional "filename" cv_string data) (fun filename =>
  result_bind (optional_default "overwrite" (PBool false) cv_boolean data) (fun overwrite =>
  result_bind (required "trigger" script_list data) (fun trigger =>
  result_bind (optional "condition" script_list data) (fun condition =>
  result_bind (required "action" script_list data) (fun action =>
  Ok {| data_alias := alias; data_description := description; data_mode := mode;
        data_filename := filename; data_overwrite := overwrite;
        data_trigger := trigger; data_condition := condition;
        data_action := action |}))))))))).

End Schemas.

Definition PACKAGE_SERVICE_SCHEMA (data : pydict) : result PackageData :=
  result_bind (no_extra_keys ["name"; "description"; "overwrite"; "include_example";
                              "include_scripts"; "include_scenes"; "include_readme";
                              "blueprint_domain"; "include_blueprint"] data) (fun _ =>
  result_bind (required "name" cv_string data) (fun name =>
  result_bind (optional "description" cv_string data) (fun description =>
  result_bind (optional_default "overwrite" (PBool false) cv_boolean data) (fun overwrite =>
  result_bind (optional_default "include_example" (PBool true) cv_boolean data) (fun example =>
  result_bind (optional_default "include_scripts" (PBool true) cv_boolean data) (fun scripts =>
  result_bind (optional_default "include_scenes" (PBool false) cv_boolean data) (fun scenes =>
  result_bind (optional_default "include_readme" (PBool true) cv_boolean data) (fun readme =>
  result_bind (optional_default "blueprint_domain" (PStr "automation")
                 (vol_In ["automation"; "script"]) data) (fun domain =>
  result_bind (optional_default "include_blueprint" (PBool false) cv_boolean data)
    (fun blueprint =>
  Ok {| pkg_name := name; pkg_description := description; pkg_overwrite := overwrite;
        pkg_include_example := example; pkg_include_scripts := scripts;
        pkg_include_scenes := scenes; pkg_include_readme := readme;
        pkg_blueprint_domain := domain; pkg_include_blueprint := blueprint |})))))))))).

(** ** The service handlers *)

Definition handle_generate (hass : HomeAssistant) (call : GenerateData) : M unit :=
  let definition :=
    {| alias := data_alias call;
       description := data_description call;
       mode := data_mode call;
       trigger := data_trigger call;
       condition := data_condition call;
       action := data_action call |} in
  let filename :=
    opt_str_or (data_filename call) (slugify (alias definition) +:+ ".yaml") in
  let overwrite := data_overwrite call in
  let output_dir := config_path hass "automation_helper" in
  path_mkdir output_dir ;;
  let output_file := path_join output_dir filename in
  let* present := path_exists output_file in
  if present && negb overwrite then
    raise (HomeAssistantError
             ("Automation Helper refused to overwrite existing file: "
              +:+ path_str output_file))
  else
    let yaml_data := to_yaml definition in
    _async_write_file hass output_file yaml_data overwrite.

Definition handle_generate_package (hass : HomeAssistant) (call : PackageData) : M unit :=
  let package_name := strip (pkg_name call) in
  let description := pkg_description call in
  let overwrite := pkg_overwrite call in
  let include_example := pkg_include_example call in
  let include_scripts := pkg_include_scripts call in
  let include_scenes := pkg_include_scenes call in
  let include_readme := pkg_include_readme call in
  let include_blueprint := pkg_include_blueprint call in
  let blueprint_domain := pkg_blueprint_domain call in
  match package_name with
  | EmptyString => raise (HomeAssistantError "Package name cannot be empty")
  | _ =>
    let slug := slugify package_name in
    let human_title := humanize package_name in
    let packages_root := config_path hass "packages" in
    path_mkdir packages_root ;;
    let package_dir := path_join packages_root slug in
    let* present := path_exists package_dir in
    let* occupied :=
      (if present && negb overwrite then path_iterdir_any package_dir else ret false) in
    if occupied then
      raise (HomeAssistantError
               ("Automation Helper refused to overwrite non-empty package directory: "
                +:+ path_str package_dir))
    else
      path_mkdir package_dir ;;
      let files : list (string * (unit -> string)) :=
        [("automations.yaml",
          fun _ => build_automation_package_yaml human_title description include_example)] in
      let files :=
        if include_scripts
        then dict_set "scripts.yaml"
               (fun _ => build_scripts_package_yaml human_title include_example) files
        else files in
      let files :=
        if include_scenes
        then dict_set "scenes.yaml"
               (fun _ => build_scenes_package_yaml human_title include_example) files
        else files in
      let files :=
        if include_readme
        then dict_set "README.md"
               (fun _ => build_package_readme human_title description include_scripts
                           include_scenes include_blueprint) files
        else files in
      (if include_blueprint then
         let blueprint_dir := path_join (path_join package_dir "blueprints") blueprint_domain in
         path_mkdir blueprint_dir ;;
         let blueprint_path := path_join blueprint_dir (slug +:+ ".yaml") in
         let blueprint_content :=
           build_blueprint_yaml human_title description blueprint_domain in
         _async_write_file hass blueprint_path blueprint_content overwrite
       else ret tt) ;;
      for_each files (fun '(relative_path, builder) =>
        let output_path := path_join package_dir relative_path in
        let content := builder tt in
        _async_write_file hass output_path content overwrite)
  end.

(** A service call: the schema first, the handler on the validated data. *)
Definition call_service {D} (schema : pydict -> result D) (handler : D -> M unit)
    (data : pydict) : M unit :=
  match schema data with
  | Ok validated => handler validated
  | Raise e => raise e
  end.

Definition generate_automation (SCRIPT_SCHEMA : pyval -> result pyval)
    (hass : HomeAssistant) : pydict -> M unit :=
  call_service (SERVICE_SCHEMA SCRIPT_SCHEMA) (handle_generate hass).

Definition generate_package (hass : HomeAssistant) : pydict -> M unit :=
  call_service PACKAGE_SERVICE_SCHEMA (handle_generate_package hass).

Definition empty_world : world := {| fs := Dir ∅; calls := [] |}.
Definition demo_hass : HomeAssistant := {| config_dir := ["config"] |}.

(** * Vocabulary of the statements *)

(** ** Slugs *)

Fixpoint all_bytes (P : ascii -> bool) (s : string) : bool :=
  match s with
  | EmptyString => true
  | String c r => P c && all_bytes P r
  end.

(** The alphabet [[a-z0-9_]]. *)
Definition is_slug_char (c : ascii) : bool :=
  is_lower_az c || is_digit c || is_byte 95 c.

(** A word is a non-empty string over the slug alphabet. *)
Definition is_word (w : string) : Prop :=
  w <> EmptyString /\ all_bytes is_slug_char w = true.

(** A gap is a non-empty run of separator characters. *)
Definition is_gap (sep : ascii -> bool) (r : string) : Prop :=
  r <> EmptyString /\ all_bytes sep r = true.

(** Words with a gap before each word but the first, and the same words with
    one underscore in place of every gap. *)
Fixpoint weave (w0 : string) (rest : list (string * string)) : string :=
  match rest with
  | [] => w0
  | (r, w) :: rest' => w0 +:+ r +:+ weave w rest'
  end.

Fixpoint weave_underscores (w0 : string) (rest : list (string * string)) : string :=
  match rest with
  | [] => w0
  | (_, w) :: rest' => w0 +:+ "_" +:+ weave_underscores w rest'
  end.

(** [slugify] turns every gap between two words into one underscore, for
    gaps made of the characters [sep]. *)
Definition collapses_gaps (sep : ascii -> bool) : Prop :=
  forall w0 rest,
    is_word w0 ->
    Forall (fun rw => is_gap sep (fst rw) /\ is_word (snd rw)) rest ->
    slugify (weave w0 rest) = weave_underscores w0 rest.

(** White space or hyphen, the class [[\s\-]] on ASCII. *)
Definition is_space_or_hyphen (c : ascii) : bool :=
  is_ascii_space c || is_byte 45 c.

(** Space or hyphen only. *)
Definition is_blank_or_hyphen (c : ascii) : bool :=
  is_byte 32 c || is_byte 45 c.

(** A byte that [slugify] deletes and that starts neither of the two
    non-ASCII characters with an ASCII lower case. *)
Definition is_invalid_byte (c : ascii) : bool :=
  negb (is_lower_az c || is_upper_az c || is_digit c
        || is_byte 95 c || is_byte 45 c || is_byte 32 c)
  && negb (is_byte 196 c) && negb (is_byte 226 c).

(** ** Reading keys off a YAML text *)

Definition text_lines (text : string) : list string :=
  split_on (ascii_of_N 10) EmptyString text.

(** The text before the first colon that ends the line or is followed by a
    space. *)
Fixpoint key_before_colon (acc : string) (line : string) : option string :=
  match line with
  | EmptyString => None
  | String c r =>
      if is_byte 58 c
         && match r with EmptyString => true | String d _ => is_byte 32 d end
      then Some (String.rev acc)
      else key_before_colon (String c acc) r
  end.

(** A key of the top-level mapping starts in the first column; indented
    lines and sequence items belong to nested values. *)
Definition top_level_key (line : string) : option string :=
  if starts_with " " line || starts_with "- " line then None
  else key_before_colon EmptyString line.

Definition top_level_keys (text : string) : list string :=
  omap top_level_key (text_lines text).

(** A key at any depth: indentation and item dashes are skipped first. *)
Fixpoint skip_markers (line : string) : string :=
  match line with
  | String c r =>
      if is_byte 32 c then skip_markers r
      else match r with
           | String d r' => if is_byte 45 c && is_byte 32 d then skip_markers r' else line
           | EmptyString => line
           end
  | EmptyString => line
  end.

Definition any_key (line : string) : option string :=
  key_before_colon EmptyString (skip_markers line).

Definition all_keys (text : string) : list string :=
  omap any_key (text_lines text).

(** A key word: letters, digits and underscores, written plain by the
    serializer. *)
Definition is_key_char (c : ascii) : bool :=
  is_lower_az c || is_upper_az c || is_digit c || is_byte 95 c.

Definition plain_key (k : string) : bool :=
  all_bytes is_key_char k && String.eqb (represent_str k) k.

Definition with_description (d : option string) (self : AutomationDefinition)
    : AutomationDefinition :=
  {| alias := alias self; description := d; mode := mode self;
     trigger := trigger self; condition := condition self; action := action self |}.

Definition with_condition (c : option (list pyval)) (self : AutomationDefinition)
    : AutomationDefinition :=
  {| alias := alias self; description := description self; mode := mode self;
     trigger := trigger self; condition := c; action := action self |}.

(** ** Service calls *)

(** The reading of C5: whatever the step validator, a call whose [trigger]
    is the empty list, or whose [action] is, is turned down by validation
    with the world untouched. *)
Definition rejects_empty_steps : Prop :=
  forall SCRIPT_SCHEMA hass data w,
    dict_get "trigger" data = Some (PList [])
    \/ dict_get "action" data = Some (PList []) ->
    exists e,
      SERVICE_SCHEMA SCRIPT_SCHEMA data = Raise e
      /\ generate_automation SCRIPT_SCHEMA hass data w = (Raise e, w).

(** A step validator that turns every step down. *)
Definition reject_every_step (v : pyval) : result pyval :=
  Raise (Invalid "not a step").

Definition night_mode_call : pydict :=
  [("alias", PStr "Night Mode"); ("trigger", PList []); ("action", PList [])].

Definition night_mode_path : path := ["config"; "automation_helper"; "night_mode.yaml"].

(** ** File system states *)

(** No regular file lies at [p] or above it. *)
Fixpoint clear_for_dirs (p : path) (n : node) : bool :=
  match n with
  | File _ => false
  | Dir m =>
      match p with
      | [] => true
      | x :: p' =>
          match m !! x with
          | Some child => clear_for_dirs p' child
          | None => true
          end
      end
  end.

(** The entries of the directory at [p]; none when there is no directory. *)
Definition entries_at (p : path) (n : node) : gmap string node :=
  match lookup_path p n with
  | Some (Dir m) => m
  | _ => ∅
  end.

Definition is_dir_at (p : path) (n : node) : bool :=
  match lookup_path p n with
  | Some (Dir _) => true
  | _ => false
  end.

(** The tree [n] with the node at [d] replaced by [s]. *)
Fixpoint graft (d : path) (s : node) (n : node) : node :=
  match d with
  | [] => s
  | x :: d' =>
      match n with
      | Dir m =>
          match m !! x with
          | Some child => Dir (<[x := graft d' s child]> m)
          | None => n
          end
      | File _ => n
      end
  end.

(** The file system lets [p] be written: no regular file lies above [p], and
    [p] is not a directory. *)
Definition admits_write (p : path) (n : node) : bool :=
  clear_for_dirs (parent p) n && negb (is_dir_at p n).

(** The file that [handle_generate] writes for a call, and the definition it
    serializes. *)
Definition output_file (hass : HomeAssistant) (call : GenerateData) : path :=
  path_join (config_path hass "automation_helper")
    (opt_str_or (data_filename call) (slugify (data_alias call) +:+ ".yaml")).

Definition definition_of (call : GenerateData) : AutomationDefinition :=
  {| alias := data_alias call; description := data_description call;
     mode := data_mode call; trigger := data_trigger call;
     condition := data_condition call; action := data_action call |}.

Definition night_mode_data : GenerateData :=
  {| data_alias := "Night Mode"; data_description := None; data_mode := "single";
     data_filename := None; data_overwrite := false; data_trigger := [];
     data_condition := None; data_action := [] |}.

Definition world_after_night_mode : world :=
  snd (handle_generate demo_hass night_mode_data empty_world).

(** The calls of C7 and C8: the package [Morning Routine] with its flags at
    their defaults, but for the blueprint. *)
Definition morning_routine (description : option string) (overwrite : bool)
    (include_blueprint : bool) (blueprint_domain : string) : PackageData :=
  {| pkg_name := "Morning Routine"; pkg_description := description;
     pkg_overwrite := overwrite; pkg_include_example := true;
     pkg_include_scripts := true; pkg_include_scenes := false;
     pkg_include_readme := true; pkg_blueprint_domain := blueprint_domain;
     pkg_include_blueprint := include_blueprint |}.

Definition morning_routine_dir (hass : HomeAssistant) : path :=
  config_dir hass ++ ["packages"; "morning_routine"].

(** The target directory is missing or empty, under directories only. *)
Definition vacant (dir : path) (n : node) : Prop :=
  clear_for_dirs dir n = true /\ entries_at dir n = ∅.

(** ** The blueprint text *)

(** The two substitutions that [build_blueprint_yaml] applies, on a line. *)
Definition unquote_token (line : string) : string :=
  replace (DQUOTE +:+ INPUT_TOKEN +:+ DQUOTE) INPUT_TOKEN
    (replace ("'" +:+ INPUT_TOKEN +:+ "'") INPUT_TOKEN line).

(** ** Auxiliary notions of the proofs *)

(** The third step of [slugify], started inside or outside a run. *)
Definition underscore_runs (in_run : bool) (s : string) : string :=
  sub_runs space_or_hyphen_len "_" 0 in_run s.

Definition not_nl (c : ascii) : bool := negb (is_byte 10 c).

(** A line holds no line break. *)
Definition line_ok (l : string) : Prop := all_bytes not_nl l = true.

(** A line of a nested value: indented, or a sequence item. *)
Definition marked (l : string) : Prop :=
  starts_with " " l || starts_with "- " l = true.

(** The keys that [to_yaml] adds for a description and a condition. *)
Definition optional_keys (self : AutomationDefinition) : list string :=
  (if truthy_str (description self) then ["description"] else [])
  ++ (if truthy_list (condition self) then ["condition"] else []).

Definition bare_definition : AutomationDefinition :=
  {| alias := "Night Mode"; description := None; mode := "single";
     trigger := []; condition := None; action := [] |}.

Definition blank_package : PackageData :=
  {| pkg_name := "   "; pkg_description := None; pkg_overwrite := false;
     pkg_include_example := true; pkg_include_scripts := true;
     pkg_include_scenes := false; pkg_include_readme := true;
     pkg_blueprint_domain := "automation"; pkg_include_blueprint := false |}.

(** The file system of [w] is [n1] with [S] as the node at [d]. *)
Definition focused (d : path) (S : node) (w : world) : Prop :=
  exists n1 sub, lookup_path d n1 = Some sub /\ fs w = graft d S n1.

Definition script_blueprint_path : path :=
  ["blueprints"; "script"; "morning_routine.yaml"].

(** The entries of an automation blueprint: those common to both domains,
    then [trigger] and [action]. *)
Definition blueprint_head (name : string) (description : option string) : pydict :=
  [("name", PStr (name +:+ " helper blueprint"));
   ("description",
    PStr (opt_str_or description
            "Adapt this blueprint to create reusable automations or scripts."));
   ("domain", PStr "automation");
   ("input",
    PDict [("target_entity",
            PDict [("name", PStr "Target entity");
                   ("description", PStr "Entity that should receive the action.");
                   ("selector", PDict [("entity", PDict [])])])]);
   ("source_url", PStr "https://github.com/404GamerNotFound/ha_automation_helper")].

Definition blueprint_trigger : string * pyval :=
  ("trigger",
   PList [PDict [("platform", PStr "state"); ("entity_id", PStr INPUT_TOKEN);
                 ("to", PStr "on")]]).

Definition blueprint_action (name : string) : string * pyval :=
  ("action",
   PList [PDict [("service", PStr "logbook.log");
                 ("data",
                  PDict [("name", PStr name);
                         ("message",
                          PStr "Blueprint triggered – replace with useful actions.")])]]).

(** One step of a schema: go on when it accepts, stop when it refuses. *)
Ltac step_schema :=
  match goal with
  | |- context [result_bind ?r _] =>
      let E := fresh "E" in
      destruct r eqn:E; cbn [result_bind]; [|eexists; reflexivity]
  end.

(** * The service registry and the set-up of the integration *)

Definition DOMAIN : string := "automation_helper".
Definition SERVICE_GENERATE_AUTOMATION : string := "generate_automation".
Definition SERVICE_GENERATE_PACKAGE : string := "generate_package".

(** [hass.services] maps a domain and a service name to what a call of the
    service runs: the schema on the data, then the handler. *)
Definition service : Type := pydict -> M unit.

#[warning="-notation-for-abbreviation"] Notation registry :=
  (gmap (string * string) service) (only parsing).

Definition has_service (domain name : string) (services : registry) : bool :=
  bool_decide (is_Some (services !! (domain, name))).

(** [hass.services.async_register]: a service of the same name is replaced. *)
Definition async_register (domain name : string) (s : service) (services : registry)
    : registry :=
  <[(domain, name) := s]> services.

(** [hass.services.async_remove] *)
Definition async_remove (domain name : string) (services : registry) : registry :=
  delete (domain, name) services.

Record ConfigEntry : Type := { entry_id : string }.

Section Setup.

Variable SCRIPT_SCHEMA : pyval -> result pyval.

Definition _async_register_service (hass : HomeAssistant) (services : registry)
    : registry :=
  if has_service DOMAIN SERVICE_GENERATE_AUTOMATION services then services
  else
    let services :=
      async_register DOMAIN SERVICE_GENERATE_AUTOMATION
        (generate_automation SCRIPT_SCHEMA hass) services in
    async_register DOMAIN SERVICE_GENERATE_PACKAGE (generate_package hass) services.

Definition async_setup (hass : HomeAssistant) (config : pydict) (services : registry)
    : bool * registry :=
  (true, _async_register_service hass services).

Definition async_setup_entry (hass : HomeAssistant) (entry : ConfigEntry)
    (services : registry) : bool * registry :=
  (true, _async_register_service hass services).

End Setup.

Definition async_unload_entry (hass : HomeAssistant) (entry : ConfigEntry)
    (services : registry) : bool * registry :=
  let services :=
    if has_service DOMAIN SERVICE_GENERATE_AUTOMATION services
    then async_remove DOMAIN SERVICE_GENERATE_AUTOMATION services
    else services in
  let services :=
    if has_service DOMAIN SERVICE_GENERATE_PACKAGE services
    then async_remove DOMAIN SERVICE_GENERATE_PACKAGE services
    else services in
  (true, services).

(** * Further vocabulary *)

(** ** What [slugify] keeps and what it discards *)

(** What the first two steps of [slugify] leave of a text: its letters in
    lower case, its digits and its underscores, and its spaces and hyphens,
    of which a token has none. *)
Definition kept (w : string) : string := filter_bytes slug_keep (lower w).

Definition no_blank_or_hyphen (c : ascii) : bool := negb (is_blank_or_hyphen c).

(** A token: a text without space and hyphen of which something is kept. *)
Definition is_token (w : string) : Prop :=
  all_bytes no_blank_or_hyphen w = true /\ kept w <> EmptyString.

Definition kept_words (rest : list (string * string)) : list (string * string) :=
  map (fun rw => (fst rw, kept (snd rw))) rest.

Definition lowered_words (rest : list (string * string)) : list (string * string) :=
  map (fun rw => (fst rw, lower (snd rw))) rest.

(** A byte of a character that [slugify] deletes: any byte but those of
    ASCII letters, digits, underscore, hyphen and space. *)
Definition is_discarded_byte (c : ascii) : bool :=
  negb (is_lower_az c || is_upper_az c || is_digit c
        || is_byte 95 c || is_byte 45 c || is_byte 32 c).

(** The text starts with one of the two characters outside ASCII whose lower
    case has an ASCII letter: U+0130 (bytes C4 B0) and U+212A (bytes
    E2 84 AA). *)
Definition lowers_to_ascii (s : string) : bool :=
  match s with
  | String c (String d r) =>
      (is_byte 196 c && is_byte 176 d)
      || match r with
         | String e _ => is_byte 226 c && is_byte 132 d && is_byte 170 e
         | EmptyString => false
         end
  | _ => false
  end.

(** Neither of the two occurs in the text. *)
Fixpoint no_ascii_lowering (s : string) : bool :=
  match s with
  | EmptyString => true
  | String _ r => negb (lowers_to_ascii s) && no_ascii_lowering r
  end.

Definition not_upper (c : ascii) : bool := negb (is_upper_az c).

(** One underscore for a run of separators, nothing for no run. *)
Definition underscore_for (r : string) : string :=
  match r with EmptyString => EmptyString | _ => "_" end.

(** A text as runs of spaces and hyphens and the words between them: a run
    that may be empty, words with a gap between any two, and a run that may
    be empty. *)
Definition runs_and_words (y lead w0 : string) (rest : list (string * string))
    (trail : string) : Prop :=
  y = lead +:+ weave w0 rest +:+ trail
  /\ all_bytes is_blank_or_hyphen lead = true
  /\ all_bytes is_blank_or_hyphen trail = true
  /\ is_word w0
  /\ Forall (fun rw => is_gap is_blank_or_hyphen (fst rw) /\ is_word (snd rw)) rest.

(** ** Paths that the operating system takes as they are *)

(** The tree of the file system takes every string as the name of an entry.
    The operating system does not: it resolves [..], refuses a name that
    is longer than 255 bytes or a path that is longer than 4095, and has no
    name with a slash or a NUL byte in it.  Statements about paths that come
    from a caller are made for paths of names that mean to the operating
    system what they mean to the tree. *)
Definition os_name (s : string) : bool :=
  negb (String.eqb s EmptyString) && negb (String.eqb s ".")
  && negb (String.eqb s "..")
  && all_bytes (fun c => negb (is_byte 47 c) && negb (is_byte 0 c)) s
  && (String.length s <=? 255)%nat.

Definition os_path (p : path) : bool :=
  forallb os_name p && (String.length (path_str p) <=? 4095)%nat.




(** ** Names and titles *)

Definition not_slash (c : ascii) : bool := negb (Ascii.eqb c "/").

(** A name that is one component of a path. *)
Definition simple_name (s : string) : Prop :=
  all_bytes not_slash s = true /\ s <> EmptyString /\ s <> ".".

(** The class [[_\-]]. *)
Definition is_underscore_or_hyphen (c : ascii) : bool :=
  is_byte 95 c || is_byte 45 c.

Definition is_alnum (c : ascii) : bool :=
  is_lower_az c || is_upper_az c || is_digit c.

(** A word of a title: ASCII letters and digits, at least one. *)
Definition is_title_word (w : string) : Prop :=
  w <> EmptyString /\ all_bytes is_alnum w = true.

(** The words of a weave, each in title case, with one space for every gap. *)
Definition titled (rest : list (string * string)) : list (string * string) :=
  map (fun rw => (" ", title (snd rw))) rest.

(** The gaps of a weave, each replaced by one space. *)
Definition spaced (rest : list (string * string)) : list (string * string) :=
  map (fun rw => (" ", snd rw)) rest.

(** The first step of [humanize], started inside or outside a run. *)
Definition space_runs (in_run : bool) (s : string) : string :=
  sub_runs underscore_or_hyphen_len " " 0 in_run s.

Definition is_separator_or_space (c : ascii) : bool :=
  is_underscore_or_hyphen c || is_ascii_space c.

Definition no_separator (c : ascii) : bool := negb (is_underscore_or_hyphen c).

(** ** Calls of [generate_automation] *)

Definition day_mode_data : GenerateData :=
  {| data_alias := "Day Mode"; data_description := None; data_mode := "single";
     data_filename := None; data_overwrite := false; data_trigger := [];
     data_condition := None; data_action := [] |}.


(** ** Packages *)

Definition packages_root (hass : HomeAssistant) : path := config_path hass "packages".

(** The directory of the package of a call. *)
Definition package_dir (hass : HomeAssistant) (call : PackageData) : path :=
  packages_root hass ++ [slugify (strip (pkg_name call))].

Definition package_title (call : PackageData) : string :=
  humanize (strip (pkg_name call)).

(** The blueprint of a call, below its package directory. *)
Definition blueprint_file (call : PackageData) : path :=
  ["blueprints"; pkg_blueprint_domain call;
   slugify (strip (pkg_name call)) +:+ ".yaml"].

(** What a call puts into its package directory, by its flags. *)
Definition package_entries (call : PackageData) : gmap string node :=
  let title := package_title call in
  let description := pkg_description call in
  let example := pkg_include_example call in
  let m : gmap string node :=
    if pkg_include_blueprint call then
      {[ "blueprints" :=
           Dir {[ pkg_blueprint_domain call :=
                    Dir {[ slugify (strip (pkg_name call)) +:+ ".yaml" :=
                             File (build_blueprint_yaml title description
                                     (pkg_blueprint_domain call)) ]} ]} ]}
    else ∅ in
  let m := <["automations.yaml" :=
               File (build_automation_package_yaml title description example)]> m in
  let m :=
    if pkg_include_scripts call
    then <["scripts.yaml" := File (build_scripts_package_yaml title example)]> m
    else m in
  let m :=
    if pkg_include_scenes call
    then <["scenes.yaml" := File (build_scenes_package_yaml title example)]> m
    else m in
  if pkg_include_readme call
  then <["README.md" :=
           File (build_package_readme title description (pkg_include_scripts call)
                   (pkg_include_scenes call) (pkg_include_blueprint call))]> m
  else m.

(** The mapping from file names to builders that the handler sets up. *)
Definition package_files (call : PackageData) : list (string * (unit -> string)) :=
  let human_title := package_title call in
  let description := pkg_description call in
  let include_example := pkg_include_example call in
  let files : list (string * (unit -> string)) :=
    [("automations.yaml",
      fun _ => build_automation_package_yaml human_title description include_example)] in
  let files :=
    if pkg_include_scripts call
    then dict_set "scripts.yaml"
           (fun _ => build_scripts_package_yaml human_title include_example) files
    else files in
  let files :=
    if pkg_include_scenes call
    then dict_set "scenes.yaml"
           (fun _ => build_scenes_package_yaml human_title include_example) files
    else files in
  if pkg_include_readme call
  then dict_set "README.md"
         (fun _ => build_package_readme human_title description
                     (pkg_include_scripts call) (pkg_include_scenes call)
                     (pkg_include_blueprint call)) files
  else files.

(** The directory entries [m] with each of [files] written as a regular file. *)
Fixpoint add_files (files : list (string * (unit -> string))) (m : gmap string node)
    : gmap string node :=
  match files with
  | [] => m
  | (f, builder) :: rest => add_files rest (<[f := File (builder tt)]> m)
  end.

(** The names a package directory can hold. *)
Definition package_names : gset string :=
  {[ "automations.yaml"; "scripts.yaml"; "scenes.yaml"; "README.md"; "blueprints" ]}.

Definition with_pkg_description (d : option string) (call : PackageData) : PackageData :=
  {| pkg_name := pkg_name call; pkg_description := d;
     pkg_overwrite := pkg_overwrite call;
     pkg_include_example := pkg_include_example call;
     pkg_include_scripts := pkg_include_scripts call;
     pkg_include_scenes := pkg_include_scenes call;
     pkg_include_readme := pkg_include_readme call;
     pkg_blueprint_domain := pkg_blueprint_domain call;
     pkg_include_blueprint := pkg_include_blueprint call |}.

(** ** The README *)

Definition readme_lines (name : string) (description : option string)
    (include_scripts include_scenes include_blueprint : bool) : list string :=
  text_lines (build_package_readme name description include_scripts include_scenes
                include_blueprint).

(** The text that the README shows as the description. *)
Definition readme_description (description : option string) : string :=
  opt_str_or description "Describe the goal of this automation package.".

(** A world in which the package directory of [Morning Routine] holds a
    file already. *)
Definition occupied_world : world :=
  {| fs := Dir {[ "config" :=
                    Dir {[ "packages" :=
                             Dir {[ "morning_routine" :=
                                      Dir {[ "notes.txt" := File "mine" ]} ]} ]} ]};
     calls := [] |}.

(** ** Runs that only add to the file system *)

(** From [w] to [w'] every regular file keeps its content and every
    directory stays a directory. *)
Definition grows (w w' : world) : Prop :=
  (forall q c,
     lookup_path q (fs w) = Some (File c) -> lookup_path q (fs w') = Some (File c))
  /\ (forall q, is_dir_at q (fs w) = true -> is_dir_at q (fs w') = true).

(** A computation all of whose runs, failed ones too, only add. *)
Definition growing {A} (m : M A) : Prop :=
  forall w r w', m w = (r, w') -> grows w w'.

(** A package call with every optional file asked for. *)
Definition full_package (name : string) (domain : string) : PackageData :=
  {| pkg_name := name; pkg_description := None; pkg_overwrite := false;
     pkg_include_example := true; pkg_include_scripts := true;
     pkg_include_scenes := true; pkg_include_readme := true;
     pkg_blueprint_domain := domain; pkg_include_blueprint := true |}.

(** Looks a key up in a map built by insertions. *)
Ltac map_lookup :=
  repeat first
    [ rewrite lookup_insert_eq
    | rewrite lookup_insert_ne by discriminate
    | rewrite lookup_singleton_eq
    | rewrite lookup_singleton_ne by discriminate
    | rewrite lookup_empty ].

(** ** The YAML files of a package *)

Definition is_alnum_or_space (c : ascii) : bool := is_alnum c || is_byte 32 c.

(** A text of ASCII letters, digits and spaces that starts and ends with a
    letter or a digit and has at most [limit] bytes.  The serializer writes
    such a text as it is or in single quotes, and a line that holds it
    stays within 80 columns for the limits used below, so that it is not
    folded. *)
Definition plain_text (limit : nat) (s : string) : bool :=
  all_bytes is_alnum_or_space s
  && match s with String c _ => is_alnum c | EmptyString => false end
  && match last_byte s with Some e => is_alnum e | None => false end
  && (String.length s <=? limit)%nat.

(** No description, the empty one, or a plain text. *)
Definition plain_description (limit : nat) (description : option string) : bool :=
  match description with
  | Some (String c r) => plain_text limit (String c r)
  | _ => true
  end.

(** The description that the example automation shows. *)
Definition automation_description (description : option string) : string :=
  opt_str_or description
    "Replace the trigger and actions with your real automation logic.".

Ltac is_ground_string s :=
  lazymatch s with
  | EmptyString => idtac
  | String _ ?r => is_ground_string r
  end.

(** Works out how the serializer writes the scalars that are constants. *)
Ltac ground_scalars :=
  repeat match goal with
         | |- context [represent_str ?s] =>
             is_ground_string s;
             let v := eval vm_compute in (represent_str s) in
             replace (represent_str s) with v by (vm_compute; reflexivity)
         | |- context [represent_int ?z] =>
             let v := eval vm_compute in (represent_int z) in
             replace (represent_int z) with v by (vm_compute; reflexivity)
         end.

(** * Checks on concrete inputs *)

Example slugify_examples :
  slugify "Morning Routine" = "morning_routine" /\
  slugify " a - b " = "a_b" /\
  slugify ("a " +:+ NBSP) = "a" /\
  slugify "-a-" = "_a_" /\
  slugify "A__b--c  d" = "a__b_c_d" /\
  slugify "! !" = "_" /\
  slugify KELVIN = "k" /\
  slugify ("a" +:+ TAB +:+ "b") = "ab" /\
  slugify EmptyString = "automation" /\ slugify "!!!" = "automation".
Proof. vm_compute. repeat split. Qed.

Example humanize_examples :
  humanize "kitchen_lights" = "Kitchen Lights" /\
  humanize "Morning Routine" = "Morning Routine" /\
  humanize "a1b c" = "A1B C" /\
  humanize "ABC dEF" = "Abc Def" /\
  humanize "__" = "Automation".
Proof. vm_compute. repeat split. Qed.

Example resolver_examples :
  map resolves_to_other ["on"; "single"; "200"; "12:30"; "07:30:00"; "1e3"; "2024-01-05";
                         "mdi:palette"; "null"; "state"; "0x1F"; ".5"; "-.inf"; "<<"]
  = [true; false; true; true; false; false; true;
     false; true; false; true; true; true; true].
Proof. vm_compute. reflexivity. Qed.

Example safe_dump_example :
  safe_dump [("alias", PStr "Night Mode"); ("trigger", PList [sample_step]);
             ("action", PList [])]
  = join NL ["alias: Night Mode";
             "trigger:";
             "- platform: state";
             "  entity_id: '!input target_entity'";
             "  to: 'on'";
             "  for:";
             "    minutes: 5";
             "  tags:";
             "  - a b";
             "  - - -1";
             "    - null";
             "  - {}";
             "  note: 'it''s: #1 – ok'";
             "action: []";
             EmptyString].
Proof. vm_compute. reflexivity. Qed.

Example blueprint_automation_example :
  build_blueprint_yaml "Morning Routine" None "automation"
  = join NL
      ["blueprint:";
       "  name: Morning Routine helper blueprint";
       "  description: Adapt this blueprint to create reusable automations or scripts.";
       "  domain: automation";
       "  input:";
       "    target_entity:";
       "      name: Target entity";
       "      description: Entity that should receive the action.";
       "      selector:";
       "        entity: {}";
       "  source_url: https://github.com/404GamerNotFound/ha_automation_helper";
       "  trigger:";
       "  - platform: state";
       "    entity_id: !input target_entity";
       "    to: 'on'";
       "  action:";
       "  - service: logbook.log";
       "    data:";
       "      name: Morning Routine";
       "      message: Blueprint triggered – replace with useful actions.";
       EmptyString].
Proof. vm_compute. reflexivity. Qed.

Example readme_example :
  build_package_readme "Morning Routine" None true false false
  = join NL
      ["# Morning Routine package"; EmptyString;
       "Describe the goal of this automation package.";
       EmptyString; "## Contents"; EmptyString; "- `automations.yaml`"; "- `scripts.yaml`";
       EmptyString; "## Getting started"; EmptyString;
       "1. Adjust the example entries to match your devices.";
       "2. Load the package by enabling `packages:` in `configuration.yaml`.";
       "3. Restart Home Assistant and verify the automations appear as expected.";
       EmptyString].
Proof. vm_compute. reflexivity. Qed.

Example generate_automation_night_mode :
  let (r, w) := generate_automation reject_every_step demo_hass
                  [("alias", PStr "Night Mode");
                   ("trigger", PDict [("platform", PStr "sun")]);
                   ("action", PList [])] empty_world in
  r = Raise (Invalid "not a step") /\ w = empty_world.
Proof. vm_compute. split; reflexivity. Qed.

(** A regular file where the parent directory should be: [mkdir] fails with
    errno 17, which the writer reports as a refusal to overwrite [17]. *)
Example regular_file_as_parent :
  fst (_async_write_file demo_hass ["notes"; "a.yaml"] "x" false
         {| fs := Dir {[ "notes" := File "text" ]}; calls := [] |})
  = Raise (HomeAssistantError "Automation Helper refused to overwrite 17").
Proof. vm_compute. reflexivity. Qed.

(** A directory in place of the file, with [overwrite] set. *)
Example directory_as_target :
  fst (_async_write_file demo_hass ["notes"] "x" true
         {| fs := Dir {[ "notes" := Dir ∅ ]}; calls := [] |})
  = Raise IsADirectoryError.
Proof. vm_compute. reflexivity. Qed.

(** * Lemmas and theorems *)

(** ** Character classes *)

Lemma between_spec lo hi c :
  between lo hi c = true <-> lo <= code c /\ code c <= hi.
Proof.
  unfold between. rewrite andb_true_iff, !N.leb_le. reflexivity.
Qed.

Lemma is_byte_spec n c : is_byte n c = true <-> code c = n.
Proof. unfold is_byte. apply N.eqb_eq. Qed.

Lemma is_byte_false n c : code c <> n -> is_byte n c = false.
Proof. unfold is_byte. apply N.eqb_neq. Qed.

Lemma between_false lo hi c :
  code c < lo \/ hi < code c -> between lo hi c = false.
Proof.
  intros H. unfold between. apply andb_false_iff.
  rewrite !N.leb_gt. destruct H; [left | right]; assumption.
Qed.

Lemma slug_char_code c :
  is_slug_char c = true ->
  (97 <= code c /\ code c <= 122) \/ (48 <= code c /\ code c <= 57) \/ code c = 95.
Proof.
  unfold is_slug_char, is_lower_az, is_digit.
  rewrite !orb_true_iff, !between_spec, is_byte_spec. tauto.
Qed.

Lemma slug_keep_code c :
  slug_keep c = true ->
  (97 <= code c /\ code c <= 122) \/ (48 <= code c /\ code c <= 57)
  \/ code c = 95 \/ code c = 45 \/ code c = 32.
Proof.
  unfold slug_keep, is_lower_az, is_digit.
  rewrite !orb_true_iff, !between_spec, !is_byte_spec. tauto.
Qed.

Lemma slug_char_keep c : is_slug_char c = true -> slug_keep c = true.
Proof.
  unfold is_slug_char, slug_keep. rewrite !orb_true_iff. tauto.
Qed.

Lemma ascii_space_code c :
  is_ascii_space c = true <-> (9 <= code c /\ code c <= 13) \/ (28 <= code c /\ code c <= 32).
Proof.
  unfold is_ascii_space. rewrite orb_true_iff, !between_spec. reflexivity.
Qed.

Lemma ascii_space_false c :
  code c < 9 \/ (13 < code c /\ code c < 28) \/ 32 < code c ->
  is_ascii_space c = false.
Proof.
  intros H. destruct (is_ascii_space c) eqn:E; [|reflexivity].
  apply ascii_space_code in E. lia.
Qed.

(** An ASCII byte starts no multi-byte white space. *)
Lemma space_len_ascii c r :
  code c < 128 ->
  space_len (String c r) = if is_ascii_space c then 1%nat else 0%nat.
Proof.
  intros H. unfold space_len.
  destruct (is_ascii_space c); [reflexivity|].
  rewrite (is_byte_false 194), (is_byte_false 225), (is_byte_false 226),
    (is_byte_false 227) by lia.
  destruct r as [|d [|e r']]; reflexivity.
Qed.

(** Nor does an ASCII byte end one. *)
Lemma space_len_rev_ascii e r :
  code e < 128 ->
  space_len_rev (String e r) = if is_ascii_space e then 1%nat else 0%nat.
Proof.
  intros H. unfold space_len_rev.
  destruct (is_ascii_space e); [reflexivity|].
  rewrite (is_byte_false 133), (is_byte_false 160), (is_byte_false 128),
    (is_byte_false 159), (is_byte_false 168), (is_byte_false 169),
    (is_byte_false 175), (between_false 128 138) by lia.
  destruct r as [|d [|c r']]; cbn [orb andb];
    rewrite ?andb_false_r; reflexivity.
Qed.

Lemma space_or_hyphen_len_keep c r :
  slug_keep c = true ->
  space_or_hyphen_len (String c r)
  = if is_blank_or_hyphen c then 1%nat else 0%nat.
Proof.
  intros H. apply slug_keep_code in H.
  unfold space_or_hyphen_len, is_blank_or_hyphen.
  destruct (is_byte 45 c) eqn:E45; [rewrite orb_true_r; reflexivity|].
  rewrite orb_false_r, space_len_ascii by lia.
  destruct (is_byte 32 c) eqn:E32.
  - apply is_byte_spec in E32.
    replace (is_ascii_space c) with true; [reflexivity|].
    symmetry. apply ascii_space_code. lia.
  - assert (code c <> 32) by (intros K; apply is_byte_spec in K; congruence).
    assert (code c <> 45) by (intros K; apply is_byte_spec in K; congruence).
    rewrite ascii_space_false by lia. reflexivity.
Qed.

Lemma lower_byte_keep c : slug_keep c = true -> lower_byte c = c.
Proof.
  intros H. apply slug_keep_code in H. unfold lower_byte, is_upper_az.
  rewrite between_false by lia. reflexivity.
Qed.

(** ** Strings *)

Lemma append_cons c (a b : string) : String c a +:+ b = String c (a +:+ b).
Proof. reflexivity. Qed.

Lemma append_nil (b : string) : EmptyString +:+ b = b.
Proof. reflexivity. Qed.

Lemma append_empty_r (s : string) : s +:+ EmptyString = s.
Proof.
  induction s as [|c s IH]; [reflexivity|].
  rewrite append_cons, IH. reflexivity.
Qed.

Lemma append_assoc (a b c : string) : (a +:+ b) +:+ c = a +:+ b +:+ c.
Proof.
  induction a as [|x a IH]; [reflexivity|].
  rewrite !append_cons, IH. reflexivity.
Qed.

Lemma all_bytes_app P a b :
  all_bytes P (a +:+ b) = all_bytes P a && all_bytes P b.
Proof.
  induction a as [|c a IH]; [reflexivity|].
  rewrite append_cons. simpl. rewrite IH, andb_assoc. reflexivity.
Qed.

Lemma all_bytes_weaken (P Q : ascii -> bool) s :
  (forall c, P c = true -> Q c = true) ->
  all_bytes P s = true -> all_bytes Q s = true.
Proof.
  intros HPQ. induction s as [|c s IH]; simpl; [reflexivity|].
  rewrite !andb_true_iff. intros [Hc Hs]. auto.
Qed.

Lemma rev_app_spec (a b : string) :
  String.rev_app a b = String.rev a +:+ b.
Proof.
  unfold String.rev. revert b.
  induction a as [|c a IH]; intros b; simpl; [reflexivity|].
  rewrite IH, (IH (String c EmptyString)), append_assoc. reflexivity.
Qed.

Lemma rev_cons c (s : string) :
  String.rev (String c s) = String.rev s +:+ String c EmptyString.
Proof. unfold String.rev at 1. simpl. apply rev_app_spec. Qed.

Lemma rev_snoc (s : string) c :
  String.rev (s +:+ String c EmptyString) = String c (String.rev s).
Proof.
  induction s as [|d s IH]; [reflexivity|].
  rewrite append_cons, !rev_cons, IH. reflexivity.
Qed.

Lemma rev_involutive (s : string) : String.rev (String.rev s) = s.
Proof.
  induction s as [|c s IH]; [reflexivity|].
  rewrite rev_cons, rev_snoc, IH. reflexivity.
Qed.

Lemma all_bytes_rev P s : all_bytes P (String.rev s) = all_bytes P s.
Proof.
  induction s as [|c s IH]; [reflexivity|].
  rewrite rev_cons, all_bytes_app, IH. simpl.
  rewrite andb_true_r. apply andb_comm.
Qed.

Lemma rev_nonempty (s : string) : s <> EmptyString -> String.rev s <> EmptyString.
Proof.
  intros H K. apply H. rewrite <- (rev_involutive s), K. reflexivity.
Qed.

(** What [drop_while] returns is a suffix of its argument. *)
Lemma drop_while_suffix len k s :
  exists pre, s = pre +:+ drop_while len k s.
Proof.
  revert k. induction s as [|c s IH]; intros k; [exists EmptyString; reflexivity|].
  simpl. destruct k as [|k].
  - destruct (len (String c s)) as [|j].
    + exists EmptyString. reflexivity.
    + destruct (IH j) as [pre Hpre]. exists (String c pre).
      rewrite append_cons, <- Hpre. reflexivity.
  - destruct (IH k) as [pre Hpre]. exists (String c pre).
      rewrite append_cons, <- Hpre. reflexivity.
Qed.

Lemma all_bytes_drop_while P len k s :
  all_bytes P s = true -> all_bytes P (drop_while len k s) = true.
Proof.
  intros H. destruct (drop_while_suffix len k s) as [pre Hpre].
  rewrite Hpre, all_bytes_app in H. apply andb_true_iff in H. tauto.
Qed.

Lemma all_bytes_strip P s : all_bytes P s = true -> all_bytes P (strip s) = true.
Proof.
  intros H. unfold strip, rstrip, lstrip.
  rewrite all_bytes_rev. apply all_bytes_drop_while.
  rewrite all_bytes_rev. apply all_bytes_drop_while. exact H.
Qed.

(** Neither end of a string that begins and ends with ASCII characters
    other than white space is stripped. *)
Lemma lstrip_id c r :
  code c < 128 -> is_ascii_space c = false -> lstrip (String c r) = String c r.
Proof.
  intros Hc Hs. unfold lstrip. cbn [drop_while].
  rewrite space_len_ascii, Hs by exact Hc. reflexivity.
Qed.

Lemma rstrip_id s e :
  code e < 128 -> is_ascii_space e = false ->
  rstrip (s +:+ String e EmptyString) = s +:+ String e EmptyString.
Proof.
  intros He Hs. unfold rstrip. rewrite rev_snoc. cbn [drop_while].
  rewrite space_len_rev_ascii, Hs by exact He.
  rewrite <- rev_snoc. apply rev_involutive.
Qed.

Lemma snoc_decompose (s : string) :
  s <> EmptyString -> exists s' e, s = s' +:+ String e EmptyString.
Proof.
  induction s as [|c s IH]; [congruence|]. intros _.
  destruct s as [|d s].
  - exists EmptyString, c. reflexivity.
  - destruct IH as (s' & e & Hs); [congruence|].
    exists (String c s'), e. rewrite append_cons, <- Hs. reflexivity.
Qed.

Lemma all_bytes_last P (s : string) e :
  all_bytes P (s +:+ String e EmptyString) = true -> P e = true.
Proof.
  rewrite all_bytes_app. simpl. rewrite andb_true_r, andb_true_iff. tauto.
Qed.

Lemma slug_char_not_space c :
  is_slug_char c = true -> code c < 128 /\ is_ascii_space c = false.
Proof.
  intros H. apply slug_char_code in H.
  split; [lia|]. apply ascii_space_false. lia.
Qed.

(** [strip] leaves alone a string that starts and ends with slug
    characters, whatever lies between. *)
Lemma strip_between_slug_chars c mid e :
  is_slug_char c = true -> is_slug_char e = true ->
  strip (String c mid +:+ String e EmptyString) = String c mid +:+ String e EmptyString.
Proof.
  intros Hc He. apply slug_char_not_space in Hc, He.
  unfold strip. rewrite append_cons, lstrip_id by tauto.
  apply (rstrip_id (String c mid)); tauto.
Qed.

Lemma strip_word w : is_word w -> strip w = w.
Proof.
  intros [Hne Hall]. destruct (snoc_decompose w Hne) as (s & e & ->).
  pose proof (all_bytes_last _ _ _ Hall) as He.
  destruct s as [|c s].
  - apply slug_char_not_space in He. unfold strip.
    rewrite append_nil, lstrip_id by tauto.
    apply (rstrip_id EmptyString); tauto.
  - rewrite append_cons in Hall. simpl in Hall.
    apply andb_true_iff in Hall as [Hc _].
    apply strip_between_slug_chars; assumption.
Qed.

(** ** The steps of [slugify] *)

Lemma filter_bytes_all P s : all_bytes P (filter_bytes P s) = true.
Proof.
  induction s as [|c s IH]; [reflexivity|].
  simpl. destruct (P c) eqn:E; [|exact IH].
  simpl. rewrite E, IH. reflexivity.
Qed.

Lemma filter_bytes_id P s : all_bytes P s = true -> filter_bytes P s = s.
Proof.
  induction s as [|c s IH]; [reflexivity|].
  simpl. intros H. apply andb_true_iff in H as [Hc Hs].
  rewrite Hc, IH by exact Hs. reflexivity.
Qed.

Lemma filter_bytes_none (P Q : ascii -> bool) s :
  (forall c, Q c = true -> P c = false) ->
  all_bytes Q s = true -> filter_bytes P s = EmptyString.
Proof.
  intros HQ. induction s as [|c s IH]; [reflexivity|].
  simpl. intros H. apply andb_true_iff in H as [Hc Hs].
  rewrite (HQ c Hc). exact (IH Hs).
Qed.

(** Lowering changes a byte only if it is an ASCII capital or starts one of
    the two special characters. *)
Lemma lower_from_id (P : ascii -> bool) s :
  (forall c, P c = true ->
     is_upper_az c = false /\ is_byte 226 c = false /\ is_byte 196 c = false) ->
  all_bytes P s = true -> lower_from 0 s = s.
Proof.
  intros HP. induction s as [|c s IH]; [reflexivity|].
  simpl. intros H. apply andb_true_iff in H as [Hc Hs].
  destruct (HP c Hc) as (Hup & H226 & H196).
  unfold lower_byte. rewrite Hup, H226, H196. cbn [andb].
  destruct s as [|d [|e s']]; [reflexivity| |]; rewrite (IH Hs); reflexivity.
Qed.

Lemma lower_keep s : all_bytes slug_keep s = true -> lower s = s.
Proof.
  apply lower_from_id. intros c H. apply slug_keep_code in H.
  unfold is_upper_az. rewrite between_false, !is_byte_false by lia. auto.
Qed.

Lemma invalid_byte_spec c :
  is_invalid_byte c = true ->
  slug_keep c = false /\ is_upper_az c = false
  /\ is_byte 226 c = false /\ is_byte 196 c = false.
Proof.
  unfold is_invalid_byte, slug_keep.
  rewrite !andb_true_iff, !negb_true_iff, !orb_false_iff.
  intros [[(((((H1 & H2) & H3) & H4) & H5) & H6) H7] H8].
  rewrite H1, H3, H4, H5, H6. simpl. repeat split; assumption.
Qed.

Lemma lower_invalid s : all_bytes is_invalid_byte s = true -> lower s = s.
Proof.
  apply lower_from_id. intros c H. apply invalid_byte_spec in H. tauto.
Qed.

Lemma underscore_runs_cons b c r :
  slug_keep c = true ->
  underscore_runs b (String c r)
  = if is_blank_or_hyphen c
    then (if b then EmptyString else "_") +:+ underscore_runs true r
    else String c (underscore_runs false r).
Proof.
  intros H. unfold underscore_runs. cbn [sub_runs].
  rewrite space_or_hyphen_len_keep by exact H.
  destruct (is_blank_or_hyphen c); reflexivity.
Qed.

Lemma slug_char_not_blank c :
  is_slug_char c = true -> is_blank_or_hyphen c = false.
Proof.
  intros H. apply slug_char_code in H. unfold is_blank_or_hyphen.
  rewrite !is_byte_false by lia. reflexivity.
Qed.

Lemma keep_not_blank_is_slug c :
  slug_keep c = true -> is_blank_or_hyphen c = false -> is_slug_char c = true.
Proof.
  unfold slug_keep, is_blank_or_hyphen, is_slug_char.
  rewrite !orb_true_iff, orb_false_iff. intros H [H1 H2].
  rewrite H1, H2 in H. intuition congruence.
Qed.

Lemma blank_keep c : is_blank_or_hyphen c = true -> slug_keep c = true.
Proof.
  unfold slug_keep, is_blank_or_hyphen. rewrite !orb_true_iff. tauto.
Qed.

(** After the third step only slug characters are left. *)
Lemma underscore_runs_charset b s :
  all_bytes slug_keep s = true ->
  all_bytes is_slug_char (underscore_runs b s) = true.
Proof.
  revert b. induction s as [|c s IH]; intros b H; [reflexivity|].
  simpl in H. apply andb_true_iff in H as [Hc Hs].
  rewrite underscore_runs_cons by exact Hc.
  destruct (is_blank_or_hyphen c) eqn:E.
  - rewrite all_bytes_app, (IH true Hs). destruct b; reflexivity.
  - simpl. rewrite (keep_not_blank_is_slug c Hc E). exact (IH false Hs).
Qed.

(** A word passes unchanged and ends any run. *)
Lemma underscore_runs_word b w t :
  all_bytes is_slug_char w = true ->
  underscore_runs b (w +:+ t)
  = w +:+ underscore_runs (match w with EmptyString => b | _ => false end) t.
Proof.
  revert b. induction w as [|c w IH]; intros b H; [reflexivity|].
  simpl in H. apply andb_true_iff in H as [Hc Hw].
  rewrite !append_cons, underscore_runs_cons by (apply slug_char_keep; exact Hc).
  rewrite (slug_char_not_blank c Hc), (IH false Hw).
  destruct w; reflexivity.
Qed.

(** Inside a run, further separators add nothing. *)
Lemma underscore_runs_gap_more r t :
  all_bytes is_blank_or_hyphen r = true ->
  underscore_runs true (r +:+ t) = underscore_runs true t.
Proof.
  induction r as [|c r IH]; intros H; [reflexivity|].
  simpl in H. apply andb_true_iff in H as [Hc Hr].
  rewrite append_cons, underscore_runs_cons by (apply blank_keep; exact Hc).
  rewrite Hc, (IH Hr). reflexivity.
Qed.

(** A gap after a word becomes one underscore. *)
Lemma underscore_runs_gap r t :
  is_gap is_blank_or_hyphen r ->
  underscore_runs false (r +:+ t) = "_" +:+ underscore_runs true t.
Proof.
  intros [Hne H]. destruct r as [|c r]; [congruence|].
  simpl in H. apply andb_true_iff in H as [Hc Hr].
  rewrite append_cons, underscore_runs_cons by (apply blank_keep; exact Hc).
  rewrite Hc, (underscore_runs_gap_more r t Hr). reflexivity.
Qed.

Lemma underscore_runs_weave b w0 rest :
  is_word w0 ->
  Forall (fun rw => is_gap is_blank_or_hyphen (fst rw) /\ is_word (snd rw)) rest ->
  underscore_runs b (weave w0 rest) = weave_underscores w0 rest.
Proof.
  intros Hw0 Hrest. revert b w0 Hw0.
  induction Hrest as [|[r w] rest [Hr Hw] _ IH]; intros b w0 [Hne Hall];
    cbn [fst snd weave weave_underscores] in *.
  - rewrite <- (append_empty_r w0) at 1.
    rewrite underscore_runs_word by exact Hall.
    apply append_empty_r.
  - rewrite underscore_runs_word by exact Hall.
    destruct w0 as [|c w0]; [congruence|].
    rewrite underscore_runs_gap by exact Hr.
    rewrite (IH true w Hw). reflexivity.
Qed.

Lemma weave_keep w0 rest :
  is_word w0 ->
  Forall (fun rw => is_gap is_blank_or_hyphen (fst rw) /\ is_word (snd rw)) rest ->
  all_bytes slug_keep (weave w0 rest) = true.
Proof.
  intros Hw0 Hrest. revert w0 Hw0.
  induction Hrest as [|[r w] rest [[_ Hr] Hw] _ IH]; intros w0 [Hne Hall];
    cbn [fst snd weave] in *.
  - exact (all_bytes_weaken _ _ _ slug_char_keep Hall).
  - rewrite !all_bytes_app, (IH w Hw),
      (all_bytes_weaken _ _ _ slug_char_keep Hall),
      (all_bytes_weaken _ _ _ blank_keep Hr). reflexivity.
Qed.

(** A weave starts with the first byte of its first word and ends with the
    last byte of its last word. *)
Lemma weave_first w0 rest :
  is_word w0 ->
  exists c mid, weave w0 rest = String c mid /\ is_slug_char c = true.
Proof.
  intros [Hne Hall]. destruct w0 as [|c w0]; [congruence|].
  simpl in Hall. apply andb_true_iff in Hall as [Hc _].
  destruct rest as [|[r w] rest]; simpl; eauto.
Qed.

Lemma weave_last w0 rest :
  is_word w0 ->
  Forall (fun rw => is_gap is_blank_or_hyphen (fst rw) /\ is_word (snd rw)) rest ->
  exists s e, weave w0 rest = s +:+ String e EmptyString /\ is_slug_char e = true.
Proof.
  intros Hw0 Hrest. revert w0 Hw0.
  induction Hrest as [|[r w] rest [_ Hw] _ IH]; intros w0 [Hne Hall];
    cbn [fst snd weave] in *.
  - destruct (snoc_decompose w0 Hne) as (s & e & ->).
    exists s, e. split; [reflexivity|]. exact (all_bytes_last _ _ _ Hall).
  - destruct (IH w Hw) as (s & e & -> & He).
    exists (w0 +:+ r +:+ s), e. rewrite !append_assoc. auto.
Qed.

Lemma strip_ends c mid s e :
  String c mid = s +:+ String e EmptyString ->
  is_slug_char c = true -> is_slug_char e = true ->
  strip (String c mid) = String c mid.
Proof.
  intros Heq Hc He. apply slug_char_not_space in Hc, He.
  unfold strip. rewrite lstrip_id by tauto.
  rewrite Heq. apply rstrip_id; tauto.
Qed.

Lemma slugify_weave w0 rest :
  is_word w0 ->
  Forall (fun rw => is_gap is_blank_or_hyphen (fst rw) /\ is_word (snd rw)) rest ->
  slugify (weave w0 rest) = weave_underscores w0 rest.
Proof.
  intros Hw0 Hrest. unfold slugify.
  destruct (weave_first w0 rest Hw0) as (c & mid & Hfirst & Hc).
  destruct (weave_last w0 rest Hw0 Hrest) as (s & e & Hlast & He).
  pose proof (weave_keep w0 rest Hw0 Hrest) as Hkeep.
  assert (strip (weave w0 rest) = weave w0 rest) as ->.
  { rewrite Hfirst. rewrite Hfirst in Hlast. exact (strip_ends c mid s e Hlast Hc He). }
  rewrite lower_keep, filter_bytes_id by exact Hkeep.
  fold (underscore_runs false (weave w0 rest)).
  rewrite underscore_runs_weave by assumption.
  destruct Hw0 as [Hne _]. destruct w0; [congruence|].
  destruct rest as [|[r w] rest]; reflexivity.
Qed.

Lemma slugify_is_word x : is_word (slugify x).
Proof.
  unfold slugify.
  pose proof (underscore_runs_charset false
                (filter_bytes slug_keep (lower (strip x)))
                (filter_bytes_all slug_keep _)) as H.
  unfold underscore_runs in H.
  destruct (sub_runs space_or_hyphen_len "_" 0 false
              (filter_bytes slug_keep (lower (strip x)))) as [|c r] eqn:E.
  - split; [discriminate | reflexivity].
  - split; [discriminate | exact H].
Qed.

Lemma slugify_word w : is_word w -> slugify w = w.
Proof. intros H. apply (slugify_weave w [] H). constructor. Qed.

Lemma slugify_invalid x :
  all_bytes is_invalid_byte x = true -> slugify x = "automation".
Proof.
  intros H. unfold slugify.
  pose proof (all_bytes_strip _ _ H) as Hs.
  rewrite lower_invalid by exact Hs.
  rewrite (filter_bytes_none slug_keep is_invalid_byte); [reflexivity| |exact Hs].
  intros c Hc. apply invalid_byte_spec in Hc. tauto.
Qed.

Lemma lower_byte_slug s : all_bytes is_slug_char s = true -> lower s = s.
Proof.
  intros H. apply lower_keep. exact (all_bytes_weaken _ _ _ slug_char_keep H).
Qed.

(** ** [slugify] on any text *)

Lemma rev_app (a b : string) : String.rev (a +:+ b) = String.rev b +:+ String.rev a.
Proof.
  induction a as [|c a IH].
  - rewrite append_nil. change (String.rev EmptyString) with EmptyString.
    rewrite append_empty_r. reflexivity.
  - rewrite append_cons, !rev_cons, IH, append_assoc. reflexivity.
Qed.

Lemma lstrip_suffix s : exists pre, s = pre +:+ lstrip s.
Proof. apply drop_while_suffix. Qed.

Lemma rstrip_prefix s : exists post, s = rstrip s +:+ post.
Proof.
  unfold rstrip.
  destruct (drop_while_suffix space_len_rev 0 (String.rev s)) as [pre E].
  exists (String.rev pre).
  rewrite <- rev_app, <- E, rev_involutive. reflexivity.
Qed.

Lemma lowers_to_ascii_app s post :
  lowers_to_ascii s = true -> lowers_to_ascii (s +:+ post) = true.
Proof.
  destruct s as [|c [|d [|e r]]]; try discriminate.
  - rewrite !append_cons, append_nil. cbn [lowers_to_ascii]. rewrite orb_false_r.
    intros ->. reflexivity.
  - rewrite !append_cons. cbn [lowers_to_ascii]. auto.
Qed.

Lemma no_ascii_lowering_suffix pre t :
  no_ascii_lowering (pre +:+ t) = true -> no_ascii_lowering t = true.
Proof.
  induction pre as [|c pre IH]; [rewrite append_nil; auto|].
  rewrite append_cons. cbn [no_ascii_lowering]. intros H.
  apply andb_true_iff in H as [_ H]. exact (IH H).
Qed.

Lemma no_ascii_lowering_prefix t post :
  no_ascii_lowering (t +:+ post) = true -> no_ascii_lowering t = true.
Proof.
  induction t as [|c t IH]; [reflexivity|].
  rewrite append_cons. cbn [no_ascii_lowering]. intros H.
  apply andb_true_iff in H as [H1 H2]. rewrite (IH H2), andb_true_r.
  apply negb_true_iff in H1. apply negb_true_iff.
  destruct (lowers_to_ascii (String c t)) eqn:E; [|reflexivity].
  apply (lowers_to_ascii_app _ post) in E. rewrite append_cons in E. congruence.
Qed.

Lemma no_ascii_lowering_strip s :
  no_ascii_lowering s = true -> no_ascii_lowering (strip s) = true.
Proof.
  intros H. unfold strip.
  destruct (lstrip_suffix s) as [pre E]. rewrite E in H.
  apply no_ascii_lowering_suffix in H.
  destruct (rstrip_prefix (lstrip s)) as [post F]. rewrite F in H.
  exact (no_ascii_lowering_prefix _ _ H).
Qed.

(** Without capitals and without the two characters, lowering does nothing. *)
Lemma lower_no_special s :
  all_bytes not_upper s = true -> no_ascii_lowering s = true -> lower s = s.
Proof.
  unfold lower. induction s as [|c s IH]; [reflexivity|].
  cbn [all_bytes no_ascii_lowering]. intros Hu Hn.
  apply andb_true_iff in Hu as [Hc Hu]. apply andb_true_iff in Hn as [Hs Hn].
  specialize (IH Hu Hn). apply negb_true_iff in Hs.
  assert (lower_byte c = c) as Hl.
  { unfold lower_byte. unfold not_upper in Hc. apply negb_true_iff in Hc.
    rewrite Hc. reflexivity. }
  destruct s as [|d [|e s']]; cbn [lower_from lowers_to_ascii] in *.
  - rewrite Hl. reflexivity.
  - rewrite orb_false_r in Hs. rewrite Hs, Hl, IH. reflexivity.
  - apply orb_false_iff in Hs as [Hs1 Hs2]. rewrite Hs1, Hs2, Hl, IH. reflexivity.
Qed.

Lemma discarded_not_upper c : is_discarded_byte c = true -> not_upper c = true.
Proof.
  unfold is_discarded_byte, not_upper. rewrite !negb_true_iff, !orb_false_iff. tauto.
Qed.

Lemma discarded_not_kept c : is_discarded_byte c = true -> slug_keep c = false.
Proof.
  unfold is_discarded_byte, slug_keep. rewrite !negb_true_iff, !orb_false_iff. tauto.
Qed.

(** A text all of whose characters are deleted has the fall-back slug. *)
Lemma slugify_discarded x :
  all_bytes is_discarded_byte x = true -> no_ascii_lowering x = true ->
  slugify x = "automation".
Proof.
  intros Hd Hn. unfold slugify.
  pose proof (all_bytes_strip _ _ Hd) as Hd'.
  rewrite (lower_no_special (strip x))
    by (first [exact (all_bytes_weaken _ _ _ discarded_not_upper Hd')
              | exact (no_ascii_lowering_strip _ Hn)]).
  rewrite (filter_bytes_none slug_keep is_discarded_byte _ discarded_not_kept Hd').
  reflexivity.
Qed.

(** *** Lowering word by word *)

Lemma blank_bytes g :
  is_blank_or_hyphen g = true ->
  is_byte 132 g = false /\ is_byte 170 g = false /\ is_byte 176 g = false
  /\ is_byte 196 g = false /\ is_byte 226 g = false /\ lower_byte g = g.
Proof.
  unfold is_blank_or_hyphen. rewrite orb_true_iff, !is_byte_spec. intros H.
  assert (code g = 32 \/ code g = 45) as Hg by exact H.
  repeat split; try (apply is_byte_false; lia).
  unfold lower_byte, is_upper_az. rewrite between_false by lia. reflexivity.
Qed.

Lemma lower_from_blank g t :
  is_blank_or_hyphen g = true ->
  lower_from 0 (String g t) = String g (lower_from 0 t).
Proof.
  intros H. destruct (blank_bytes g H) as (_ & _ & _ & H196 & H226 & Hl).
  destruct t as [|d [|e t']]; cbn [lower_from]; rewrite ?H196, ?H226, Hl; reflexivity.
Qed.

Lemma lower_from_gap r t :
  all_bytes is_blank_or_hyphen r = true ->
  lower_from 0 (r +:+ t) = r +:+ lower_from 0 t.
Proof.
  induction r as [|g r IH]; intros H; [rewrite !append_nil; reflexivity|].
  cbn [all_bytes] in H. apply andb_true_iff in H as [Hg Hr].
  rewrite !append_cons, (lower_from_blank g _ Hg), (IH Hr). reflexivity.
Qed.

Lemma lower_from_step c d r :
  lower_from 0 (String c (String d r))
  = if match r with
       | String e _ => is_byte 226 c && is_byte 132 d && is_byte 170 e
       | EmptyString => false
       end
    then String "k" (lower_from 2 (String d r))
    else if is_byte 196 c && is_byte 176 d
    then String "i" (String (ascii_of_N 204) (String (ascii_of_N 135)
           (lower_from 1 (String d r))))
    else String (lower_byte c) (lower_from 0 (String d r)).
Proof. destruct r; reflexivity. Qed.

Lemma lower_from_skip k c r : lower_from (S k) (String c r) = lower_from k r.
Proof. reflexivity. Qed.

(** A character that is lowered as a whole does not reach into a gap. *)
Lemma lower_from_before_gap w k g t :
  is_blank_or_hyphen g = true -> (k <= String.length w)%nat ->
  lower_from k (w +:+ String g t) = lower_from k w +:+ lower_from 0 (String g t).
Proof.
  intros Hg. destruct (blank_bytes g Hg) as (H132 & H170 & H176 & _ & _ & _).
  revert k. induction w as [|c w IH]; intros k Hk.
  - cbn [String.length] in Hk. assert (k = 0%nat) as -> by lia.
    rewrite !append_nil. reflexivity.
  - rewrite append_cons. destruct k as [|k];
      [|rewrite !lower_from_skip; apply IH; cbn [String.length] in Hk; lia].
    destruct w as [|d w].
    + rewrite append_nil, lower_from_step.
      assert (match t with
              | String e _ => is_byte 226 c && is_byte 132 g && is_byte 170 e
              | EmptyString => false
              end = false) as ->
        by (destruct t; [reflexivity | rewrite H132, andb_false_r; reflexivity]).
      rewrite H176, andb_false_r.
      change (lower_from 0 (String c EmptyString)) with (String (lower_byte c) EmptyString).
      rewrite append_cons, append_nil. reflexivity.
    + rewrite append_cons, !lower_from_step.
      assert (match w +:+ String g t with
              | String e _ => is_byte 226 c && is_byte 132 d && is_byte 170 e
              | EmptyString => false
              end
              = match w with
                | String e _ => is_byte 226 c && is_byte 132 d && is_byte 170 e
                | EmptyString => false
                end) as ->.
      { destruct w as [|e w].
        - rewrite append_nil, H170, andb_false_r. reflexivity.
        - rewrite append_cons. reflexivity. }
      rewrite <- !append_cons.
      destruct w as [|e w].
      * destruct (is_byte 196 c && is_byte 176 d).
        -- rewrite (IH 1%nat) by (cbn [String.length]; lia).
           rewrite !append_cons. reflexivity.
        -- rewrite (IH 0%nat) by (cbn [String.length]; lia).
           rewrite !append_cons. reflexivity.
      * rewrite (IH 2%nat), (IH 1%nat), (IH 0%nat) by (cbn [String.length]; lia).
        destruct (is_byte 226 c && is_byte 132 d && is_byte 170 e);
          [|destruct (is_byte 196 c && is_byte 176 d)];
          rewrite !append_cons; reflexivity.
Qed.

Lemma lower_weave w0 rest :
  Forall (fun rw => is_gap is_blank_or_hyphen (fst rw)) rest ->
  lower (weave w0 rest) = weave (lower w0) (lowered_words rest).
Proof.
  unfold lower. intros H. revert w0.
  induction H as [|[r w] rest [Hne Hr] _ IH]; intros w0;
    cbn [weave lowered_words map fst snd] in *; [reflexivity|].
  destruct r as [|g r]; [congruence|].
  cbn [all_bytes] in Hr. apply andb_true_iff in Hr as [Hg Hr].
  rewrite append_cons, (lower_from_before_gap w0 0 g _ Hg) by lia.
  rewrite <- append_cons, (lower_from_gap (String g r) _) by (cbn [all_bytes]; rewrite Hg; exact Hr).
  fold (lowered_words rest). rewrite (IH w). reflexivity.
Qed.

Lemma filter_bytes_app P a b :
  filter_bytes P (a +:+ b) = filter_bytes P a +:+ filter_bytes P b.
Proof.
  induction a as [|c a IH]; [rewrite !append_nil; reflexivity|].
  rewrite append_cons. cbn [filter_bytes]. destruct (P c).
  - rewrite append_cons, IH. reflexivity.
  - exact IH.
Qed.

Lemma filter_weave w0 rest :
  Forall (fun rw => is_gap is_blank_or_hyphen (fst rw)) rest ->
  filter_bytes slug_keep (weave (lower w0) (lowered_words rest))
  = weave (kept w0) (kept_words rest).
Proof.
  intros H. revert w0.
  induction H as [|[r w] rest [_ Hr] _ IH]; intros w0;
    cbn [weave lowered_words kept_words map fst snd] in *; [reflexivity|].
  rewrite !filter_bytes_app.
  rewrite (filter_bytes_id slug_keep r) by exact (all_bytes_weaken _ _ _ blank_keep Hr).
  fold (lowered_words rest). fold (kept_words rest). rewrite (IH w). reflexivity.
Qed.

Lemma all_bytes_filter (P Q : ascii -> bool) s :
  all_bytes Q s = true -> all_bytes Q (filter_bytes P s) = true.
Proof.
  induction s as [|c s IH]; [reflexivity|]. cbn [all_bytes filter_bytes]. intros H.
  apply andb_true_iff in H as [Hc Hs]. destruct (P c).
  - cbn [all_bytes]. rewrite Hc, (IH Hs). reflexivity.
  - exact (IH Hs).
Qed.

Lemma all_bytes_both (P Q R : ascii -> bool) s :
  (forall c, P c = true -> Q c = true -> R c = true) ->
  all_bytes P s = true -> all_bytes Q s = true -> all_bytes R s = true.
Proof.
  intros H. induction s as [|c s IH]; [reflexivity|]. cbn [all_bytes]. intros HP HQ.
  apply andb_true_iff in HP as [Pc Ps]. apply andb_true_iff in HQ as [Qc Qs].
  rewrite (H c Pc Qc), (IH Ps Qs). reflexivity.
Qed.

Lemma lower_byte_no_blank c :
  no_blank_or_hyphen c = true -> no_blank_or_hyphen (lower_byte c) = true.
Proof.
  destruct c as [[] [] [] [] [] [] [] []]; vm_compute; intros H;
    first [reflexivity | exact H].
Qed.

Lemma lower_from_no_blank s k :
  all_bytes no_blank_or_hyphen s = true ->
  all_bytes no_blank_or_hyphen (lower_from k s) = true.
Proof.
  revert k. induction s as [|c s IH]; intros k H; [reflexivity|].
  cbn [all_bytes] in H. apply andb_true_iff in H as [Hc Hs].
  pose proof (lower_byte_no_blank c Hc) as Hl.
  destruct k as [|k]; [|exact (IH k Hs)].
  destruct s as [|d s].
  - cbn [lower_from all_bytes]. rewrite Hl. reflexivity.
  - rewrite lower_from_step.
    destruct (match s with
              | String e _ => is_byte 226 c && is_byte 132 d && is_byte 170 e
              | EmptyString => false
              end);
      [|destruct (is_byte 196 c && is_byte 176 d)]; cbn [all_bytes].
    + rewrite (IH 2%nat Hs). reflexivity.
    + rewrite (IH 1%nat Hs). reflexivity.
    + rewrite Hl, (IH 0%nat Hs). reflexivity.
Qed.

Lemma no_blank_not_blank c : no_blank_or_hyphen c = true -> is_blank_or_hyphen c = false.
Proof. unfold no_blank_or_hyphen. apply negb_true_iff. Qed.

(** What is kept of a token is a word. *)
Lemma kept_token_word w : is_token w -> is_word (kept w).
Proof.
  intros [Hb Hne]. split; [exact Hne|]. unfold kept.
  apply (all_bytes_both slug_keep no_blank_or_hyphen).
  - intros c Hk Hn. exact (keep_not_blank_is_slug c Hk (no_blank_not_blank c Hn)).
  - apply filter_bytes_all.
  - apply all_bytes_filter. exact (lower_from_no_blank w 0 Hb).
Qed.

Lemma kept_words_are_words rest :
  Forall (fun rw => is_gap is_blank_or_hyphen (fst rw) /\ is_token (snd rw)) rest ->
  Forall (fun rw => is_gap is_blank_or_hyphen (fst rw) /\ is_word (snd rw))
    (kept_words rest).
Proof.
  induction 1 as [|[r w] rest [Hr Hw] _ IH]; constructor; [|exact IH].
  cbn [fst snd]. split; [exact Hr | exact (kept_token_word w Hw)].
Qed.

Lemma gaps_of_tokens rest :
  Forall (fun rw => is_gap is_blank_or_hyphen (fst rw) /\ is_token (snd rw)) rest ->
  Forall (fun rw => is_gap is_blank_or_hyphen (fst rw)) rest.
Proof.
  intros H. eapply Forall_impl; [exact H|]. intros rw [Hr _]. exact Hr.
Qed.

(** The tokens of a text, each with what is kept of it, joined by single
    underscores. *)
Lemma slugify_tokens x w0 rest :
  strip x = weave w0 rest -> is_token w0 ->
  Forall (fun rw => is_gap is_blank_or_hyphen (fst rw) /\ is_token (snd rw)) rest ->
  slugify x = weave_underscores (kept w0) (kept_words rest).
Proof.
  intros Hx Hw0 Hrest. unfold slugify. rewrite Hx.
  rewrite (lower_weave w0 rest (gaps_of_tokens rest Hrest)).
  rewrite (filter_weave w0 rest (gaps_of_tokens rest Hrest)).
  fold (underscore_runs false (weave (kept w0) (kept_words rest))).
  pose proof (kept_token_word w0 Hw0) as Hk.
  rewrite (underscore_runs_weave false _ _ Hk (kept_words_are_words rest Hrest)).
  destruct Hk as [Hne _]. destruct (kept w0); [congruence|].
  destruct (kept_words rest) as [|[r w] rest']; reflexivity.
Qed.

(** ** Every run of the kept text *)

Lemma underscore_runs_blank b r :
  all_bytes is_blank_or_hyphen r = true ->
  underscore_runs b r = if b then EmptyString else underscore_for r.
Proof.
  intros H.
  assert (underscore_runs true r = EmptyString) as Htrue.
  { rewrite <- (append_empty_r r), (underscore_runs_gap_more r EmptyString H).
    reflexivity. }
  destruct b; [exact Htrue|]. destruct r as [|c r]; [reflexivity|].
  cbn [all_bytes] in H. apply andb_true_iff in H as [Hc Hr].
  rewrite underscore_runs_cons by (apply blank_keep; exact Hc). rewrite Hc.
  rewrite <- (append_empty_r r), (underscore_runs_gap_more r EmptyString Hr).
  reflexivity.
Qed.

Lemma underscore_runs_lead lead t :
  all_bytes is_blank_or_hyphen lead = true ->
  underscore_runs false (lead +:+ t)
  = underscore_for lead
    +:+ underscore_runs (match lead with EmptyString => false | _ => true end) t.
Proof.
  intros H. destruct lead as [|c r]; [reflexivity|].
  rewrite (underscore_runs_gap (String c r) t) by (split; [discriminate | exact H]).
  reflexivity.
Qed.

Lemma underscore_runs_weave_trail b w0 rest trail :
  is_word w0 ->
  Forall (fun rw => is_gap is_blank_or_hyphen (fst rw) /\ is_word (snd rw)) rest ->
  all_bytes is_blank_or_hyphen trail = true ->
  underscore_runs b (weave w0 rest +:+ trail)
  = weave_underscores w0 rest +:+ underscore_for trail.
Proof.
  intros Hw0 Hrest Htrail. revert b w0 Hw0.
  induction Hrest as [|[r w] rest [Hr Hw] _ IH]; intros b w0 [Hne Hall];
    cbn [fst snd weave weave_underscores] in *.
  - rewrite underscore_runs_word by exact Hall.
    destruct w0 as [|c w0]; [congruence|].
    rewrite (underscore_runs_blank false trail Htrail). reflexivity.
  - rewrite !append_assoc.
    rewrite underscore_runs_word by exact Hall.
    destruct w0 as [|c w0]; [congruence|].
    rewrite underscore_runs_gap by exact Hr.
    rewrite (IH true w Hw). reflexivity.
Qed.

(** The slug of a text whose kept part has a word in it. *)
Lemma slugify_runs x lead w0 rest trail :
  runs_and_words (kept (strip x)) lead w0 rest trail ->
  slugify x = underscore_for lead +:+ weave_underscores w0 rest +:+ underscore_for trail.
Proof.
  intros (Hx & Hlead & Htrail & Hw0 & Hrest). unfold slugify.
  change (filter_bytes slug_keep (lower (strip x))) with (kept (strip x)).
  rewrite Hx.
  fold (underscore_runs false (lead +:+ weave w0 rest +:+ trail)).
  rewrite (underscore_runs_lead lead _ Hlead).
  rewrite (underscore_runs_weave_trail _ w0 rest trail Hw0 Hrest Htrail).
  destruct lead as [|c lead]; [|reflexivity].
  destruct Hw0 as [Hne _]. destruct w0 as [|c w0]; [congruence|].
  destruct rest as [|[r w] rest]; reflexivity.
Qed.

(** The slug of a text of which only spaces and hyphens are kept, or
    nothing. *)
Lemma slugify_no_word x :
  all_bytes is_blank_or_hyphen (kept (strip x)) = true ->
  slugify x = str_or (underscore_for (kept (strip x))) "automation".
Proof.
  intros H. unfold slugify.
  change (filter_bytes slug_keep (lower (strip x))) with (kept (strip x)).
  fold (underscore_runs false (kept (strip x))).
  rewrite (underscore_runs_blank false _ H). reflexivity.
Qed.

Lemma weave_cons c w0 rest : weave (String c w0) rest = String c (weave w0 rest).
Proof. destruct rest as [|[r w] rest]; reflexivity. Qed.

(** Every text over the kept characters is a run of separators, or runs and
    words. *)
Lemma runs_decompose y :
  all_bytes slug_keep y = true ->
  all_bytes is_blank_or_hyphen y = true
  \/ exists lead w0 rest trail, runs_and_words y lead w0 rest trail.
Proof.
  induction y as [|c y IH]; intros H; [left; reflexivity|].
  cbn [all_bytes] in H. apply andb_true_iff in H as [Hc Hy].
  destruct (is_blank_or_hyphen c) eqn:Eb.
  - destruct (IH Hy) as [Hall | (lead & w0 & rest & trail & -> & Hl & Ht & Hw & Hr)].
    + left. cbn [all_bytes]. rewrite Eb, Hall. reflexivity.
    + right. exists (String c lead), w0, rest, trail. split; [reflexivity|].
      split; [cbn [all_bytes]; rewrite Eb, Hl; reflexivity|]. auto.
  - pose proof (keep_not_blank_is_slug c Hc Eb) as Hs.
    assert (is_word (String c EmptyString)) as Hone.
    { split; [discriminate|]. cbn [all_bytes]. rewrite Hs. reflexivity. }
    right.
    destruct (IH Hy) as [Hall | (lead & w0 & rest & trail & -> & Hl & Ht & Hw & Hr)].
    + exists EmptyString, (String c EmptyString), [], y.
      split; [reflexivity|]. split; [reflexivity|]. split; [exact Hall|].
      split; [exact Hone | constructor].
    + destruct lead as [|d lead].
      * exists EmptyString, (String c w0), rest, trail.
        split; [rewrite weave_cons; reflexivity|]. split; [reflexivity|].
        split; [exact Ht|]. split; [|exact Hr].
        destruct Hw as [_ Hw]. split; [discriminate|].
        cbn [all_bytes]. rewrite Hs, Hw. reflexivity.
      * exists EmptyString, (String c EmptyString), ((String d lead, w0) :: rest), trail.
        split.
        { cbn [weave]. rewrite !append_assoc. reflexivity. }
        split; [reflexivity|]. split; [exact Ht|]. split; [exact Hone|].
        constructor; [|exact Hr]. cbn [fst snd].
        split; [split; [discriminate | exact Hl] | exact Hw].
Qed.

Lemma kept_runs x :
  all_bytes is_blank_or_hyphen (kept (strip x)) = true
  \/ exists lead w0 rest trail, runs_and_words (kept (strip x)) lead w0 rest trail.
Proof. apply runs_decompose. unfold kept. apply filter_bytes_all. Qed.

(** ** Claims about [slugify] *)

(** C2, as stated, fails: a run of white space other than spaces is not
    turned into an underscore.  The tab between [a] and [b] is deleted by the
    first substitution, which keeps the space as the only white space, so the
    result is [ab] and not [a_b]. *)
Lemma slugify_tab_gap_not_collapsed : ~ collapses_gaps is_space_or_hyphen.
Proof.
  intros H.
  specialize (H "a" [(TAB, "b")]).
  assert (slugify (weave "a" [(TAB, "b")]) = "ab") as E by (vm_compute; reflexivity).
  rewrite E in H.
  assert ("ab" = weave_underscores "a" [(TAB, "b")] -> False) as K
    by (vm_compute; discriminate).
  apply K, H.
  - split; [discriminate | reflexivity].
  - constructor; [|constructor].
    split; split; try discriminate; reflexivity.
Qed.

(** C2, amended: for every input [x], [slugify x] is a non-empty lower-case
    string over [a-z0-9_] (so within [a-z0-9_-]).  Of the input, without the
    white space at its ends and in lower case, the characters of
    [a-z0-9_- ] are kept and every other character is deleted, tabs and line
    breaks among them.  What is kept is a run of spaces and hyphens, or
    nothing, or words with runs of spaces and hyphens between them, before
    them and after them; the slug has one underscore for every run that is
    not empty, the words as they are, and is [automation] when nothing is
    kept.  So when the input is split at its runs of spaces and hyphens into
    tokens, each with a letter, a digit or an underscore in it, the slug is
    what is kept of the tokens, with one underscore for every run.  An input
    that is empty or made only of characters that are deleted (any character
    but ASCII letters, digits, underscore, hyphen and space, and but the two
    characters whose lower case has an ASCII letter), such as the empty
    string and ["!!!"], gives the fallback identifier [automation]. *)
Theorem slugify_contract :
  (forall x,
     is_word (slugify x)
     /\ lower (slugify x) = slugify x
     /\ (all_bytes is_discarded_byte x = true -> no_ascii_lowering x = true ->
         slugify x = "automation")
     /\ (all_bytes is_blank_or_hyphen (kept (strip x)) = true
         \/ exists lead w0 rest trail,
              runs_and_words (kept (strip x)) lead w0 rest trail))
  /\ (forall x,
        all_bytes is_blank_or_hyphen (kept (strip x)) = true ->
        slugify x = str_or (underscore_for (kept (strip x))) "automation")
  /\ (forall x lead w0 rest trail,
        runs_and_words (kept (strip x)) lead w0 rest trail ->
        slugify x
        = underscore_for lead +:+ weave_underscores w0 rest +:+ underscore_for trail)
  /\ (forall x w0 rest,
        strip x = weave w0 rest ->
        is_token w0 ->
        Forall (fun rw => is_gap is_blank_or_hyphen (fst rw) /\ is_token (snd rw)) rest ->
        slugify x = weave_underscores (kept w0) (kept_words rest))
  /\ collapses_gaps is_blank_or_hyphen
  /\ slugify EmptyString = "automation"
  /\ slugify "!!!" = "automation".
Proof.
  split; [|split; [|split; [|split; [|split; [|split]]]]].
  - intros x. split; [apply slugify_is_word|]. split; [|split].
    + apply lower_byte_slug. apply slugify_is_word.
    + apply slugify_discarded.
    + apply kept_runs.
  - apply slugify_no_word.
  - apply slugify_runs.
  - apply slugify_tokens.
  - intros w0 rest Hw0 Hrest. apply slugify_weave; assumption.
  - reflexivity.
  - apply slugify_discarded; reflexivity.
Qed.

Lemma slugify_contract_witness :
  slugify "€–?!" = "automation"
  /\ slugify "- -" = "_"
  /\ slugify "-a ! b" = "_a_b"
  /\ slugify "  Night - Mode " = "night_mode"
  /\ slugify "a! b" = "a_b".
Proof.
  destruct slugify_contract as (Hall & Hnone & Hruns & Htokens & _).
  split; [|split; [|split; [|split]]].
  - destruct (Hall "€–?!") as (_ & _ & Hinv & _). apply Hinv; reflexivity.
  - apply (Hnone "- -"). vm_compute. reflexivity.
  - apply (Hruns "-a ! b" "-" "a" [("  ", "b")] EmptyString).
    split; [vm_compute; reflexivity|]. split; [reflexivity|]. split; [reflexivity|].
    split; [split; [discriminate | reflexivity]|].
    repeat constructor; cbn [fst snd]; try discriminate; reflexivity.
  - apply (Htokens "  Night - Mode " "Night" [(" - ", "Mode")]).
    + vm_compute. reflexivity.
    + split; [reflexivity | vm_compute; discriminate].
    + repeat constructor; cbn [fst snd]; try discriminate; vm_compute; discriminate.
  - apply (Htokens "a! b" "a!" [(" ", "b")]).
    + vm_compute. reflexivity.
    + split; [reflexivity | vm_compute; discriminate].
    + repeat constructor; cbn [fst snd]; try discriminate; vm_compute; discriminate.
Defined.

(** C3: [slugify] is idempotent. *)
Theorem slugify_idempotent x : slugify (slugify x) = slugify x.
Proof. apply slugify_word, slugify_is_word. Qed.

(** ** Lines of the serializer *)

Lemma split_on_line acc l rest :
  all_bytes not_nl l = true ->
  split_on (ascii_of_N 10) acc (l +:+ NL +:+ rest)
  = (String.rev acc +:+ l) :: split_on (ascii_of_N 10) EmptyString rest.
Proof.
  revert acc. induction l as [|c l IH]; intros acc H.
  - rewrite append_nil, append_empty_r. reflexivity.
  - simpl in H. apply andb_true_iff in H as [Hc Hl].
    rewrite append_cons. cbn [split_on].
    replace (Ascii.eqb c (ascii_of_N 10)) with false.
    + rewrite (IH (String c acc) Hl), rev_cons, append_assoc. reflexivity.
    + symmetry. apply Ascii.eqb_neq. intros ->. discriminate.
Qed.

Lemma text_lines_unlines ls :
  Forall (fun l => all_bytes not_nl l = true) ls ->
  text_lines (unlines ls) = ls ++ [EmptyString].
Proof.
  unfold text_lines. induction 1 as [|l ls Hl _ IH]; [reflexivity|].
  cbn [unlines]. rewrite (split_on_line EmptyString l _ Hl), IH. reflexivity.
Qed.

Lemma printable_not_nl s :
  all_printable s = true -> all_bytes not_nl s = true.
Proof.
  induction s as [|c s IH]; [reflexivity|].
  cbn [all_printable all_bytes]. unfold unprintable_len.
  destruct (code c <? 32) eqn:E; [discriminate|]. cbn [orb].
  assert (not_nl c = true) as ->.
  { unfold not_nl. rewrite is_byte_false; [reflexivity|].
    apply N.ltb_ge in E. lia. }
  destruct (is_byte 127 c); [discriminate|].
  destruct s as [|d [|e s']].
  - reflexivity.
  - destruct (is_byte 194 c && between 128 159 d); [discriminate | exact IH].
  - destruct (is_byte 194 c && between 128 159 d); [discriminate|].
    destruct (is_byte 226 c && is_byte 128 d && (is_byte 168 e || is_byte 169 e));
      [discriminate|].
    destruct (is_byte 239 c && is_byte 187 d && is_byte 191 e); [discriminate|].
    destruct (is_byte 239 c && is_byte 191 d && (is_byte 190 e || is_byte 191 e));
      [discriminate | exact IH].
Qed.

Lemma single_quoted_not_nl s :
  all_bytes not_nl s = true -> all_bytes not_nl (single_quoted_body s) = true.
Proof.
  induction s as [|c s IH]; [reflexivity|].
  cbn [all_bytes single_quoted_body]. intros H.
  apply andb_true_iff in H as [Hc Hs].
  destruct (is_byte 39 c).
  - rewrite all_bytes_app, (IH Hs). reflexivity.
  - cbn [all_bytes]. rewrite Hc, (IH Hs). reflexivity.
Qed.

Lemma hex2_not_nl c : all_bytes not_nl (hex2 c) = true.
Proof. destruct c as [[] [] [] [] [] [] [] []]; vm_compute; reflexivity. Qed.

Lemma escape_control_not_nl c : all_bytes not_nl (escape_control c) = true.
Proof.
  unfold escape_control. rewrite all_bytes_app.
  repeat match goal with |- context [if ?b then _ else _] => destruct b end;
    rewrite ?all_bytes_app, ?hex2_not_nl; reflexivity.
Qed.

Lemma escape_wide_not_nl c d e : all_bytes not_nl (escape_wide c d e) = true.
Proof.
  unfold escape_wide. rewrite all_bytes_app.
  repeat match goal with |- context [if ?b then _ else _] => destruct b end;
    rewrite ?all_bytes_app, ?hex2_not_nl; reflexivity.
Qed.

Lemma unprintable_len_zero c r :
  unprintable_len (String c r) = 0%nat -> not_nl c = true.
Proof.
  unfold unprintable_len. destruct (code c <? 32) eqn:E; [discriminate|].
  intros _. unfold not_nl. rewrite is_byte_false; [reflexivity|].
  apply N.ltb_ge in E. lia.
Qed.

Lemma double_quoted_not_nl k s : all_bytes not_nl (double_quoted_body k s) = true.
Proof.
  revert k. induction s as [|c s IH]; intros k; [reflexivity|].
  cbn [double_quoted_body]. destruct k as [|k]; [|apply IH].
  destruct (unprintable_len (String c s)) as [|[|j]] eqn:E.
  - apply unprintable_len_zero in E.
    destruct (is_byte 34 c || is_byte 92 c).
    + rewrite all_bytes_app. cbn [all_bytes]. rewrite E, IH. reflexivity.
    + cbn [all_bytes]. rewrite E, IH. reflexivity.
  - rewrite all_bytes_app, escape_control_not_nl, IH. reflexivity.
  - destruct s as [|d [|e s']]; [reflexivity| |];
      rewrite all_bytes_app, escape_wide_not_nl, IH; reflexivity.
Qed.

Lemma represent_str_not_nl s : all_bytes not_nl (represent_str s) = true.
Proof.
  unfold represent_str.
  destruct (plain_allowed s && negb (resolves_to_other s)) eqn:E.
  - apply andb_true_iff in E as [E _]. apply printable_not_nl.
    unfold plain_allowed in E. destruct s; [discriminate|].
    apply andb_true_iff in E. tauto.
  - destruct (all_printable s) eqn:P.
    + rewrite !all_bytes_app, single_quoted_not_nl by (apply printable_not_nl; exact P).
      reflexivity.
    + rewrite !all_bytes_app, double_quoted_not_nl. reflexivity.
Qed.

Lemma string_of_uint_not_nl d :
  all_bytes not_nl (NilEmpty.string_of_uint d) = true.
Proof. induction d; simpl; try rewrite IHd; reflexivity. Qed.

Lemma represent_int_not_nl z : all_bytes not_nl (represent_int z) = true.
Proof.
  unfold represent_int, NilZero.string_of_int, NilZero.string_of_uint.
  destruct (Z.to_int z) as [d|d]; destruct d; cbn [all_bytes];
    try reflexivity; try apply (string_of_uint_not_nl (_ d));
    change (all_bytes not_nl (NilEmpty.string_of_uint _) = true);
    apply string_of_uint_not_nl.
Qed.

(** ** Induction on Python values *)

Lemma pyval_nested_ind (P : pyval -> Prop) :
  P PNone -> (forall b, P (PBool b)) -> (forall z, P (PInt z)) ->
  (forall s, P (PStr s)) ->
  (forall items, Forall P items -> P (PList items)) ->
  (forall entries, Forall (fun kx => P (snd kx)) entries -> P (PDict entries)) ->
  forall v, P v.
Proof.
  intros HNone HBool HInt HStr HList HDict.
  fix IH 1. intros [| b | z | s | items | entries].
  - exact HNone.
  - apply HBool.
  - apply HInt.
  - apply HStr.
  - apply HList. induction items as [|x items IHitems]; constructor.
    + apply IH.
    + exact IHitems.
  - apply HDict. induction entries as [|[k x] entries IHentries]; constructor.
    + apply IH.
    + exact IHentries.
Qed.

Lemma inline_not_nl v t : inline v = Some t -> line_ok t.
Proof.
  unfold line_ok.
  destruct v as [| b | z | s | [|x items] | [|kx entries]]; simpl;
    intros [= <-]; try reflexivity.
  - destruct b; reflexivity.
  - apply represent_int_not_nl.
  - apply represent_str_not_nl.
Qed.

Lemma indent_lines_ok ls : Forall line_ok ls -> Forall line_ok (map indent_line ls).
Proof.
  intros H. apply Forall_map. eapply Forall_impl; [exact H|].
  intros l Hl. unfold line_ok, indent_line in *. simpl.
  rewrite all_bytes_app. exact Hl.
Qed.

Lemma dash_lines_ok ls : Forall line_ok ls -> Forall line_ok (dash_lines ls).
Proof.
  intros H. destruct H as [|l ls Hl Hls]; [constructor|].
  cbn [dash_lines]. constructor.
  - unfold line_ok in *. rewrite all_bytes_app. exact Hl.
  - apply indent_lines_ok. exact Hls.
Qed.

Lemma item_lines_ok x :
  Forall line_ok (block_lines x) -> Forall line_ok (item_lines block_lines x).
Proof.
  intros H. unfold item_lines. destruct (inline x) as [t|] eqn:E.
  - constructor; [|constructor]. apply inline_not_nl in E.
    unfold line_ok in *. rewrite all_bytes_app. exact E.
  - apply dash_lines_ok. exact H.
Qed.

Lemma entry_lines_ok kx :
  Forall line_ok (block_lines (snd kx)) -> Forall line_ok (entry_lines block_lines kx).
Proof.
  intros H. unfold entry_lines. destruct (inline (snd kx)) as [t|] eqn:E.
  - constructor; [|constructor]. apply inline_not_nl in E.
    unfold line_ok in *. rewrite !all_bytes_app, represent_str_not_nl. exact E.
  - constructor.
    + unfold line_ok. rewrite all_bytes_app, represent_str_not_nl. reflexivity.
    + destruct (is_sequence (snd kx)); [exact H | apply indent_lines_ok; exact H].
Qed.

(** No line of the serializer's output contains a line break. *)
Lemma block_lines_ok v : Forall line_ok (block_lines v).
Proof.
  induction v as [| b | z | s | items IH | entries IH] using pyval_nested_ind;
    try constructor.
  - cbn [block_lines]. induction IH as [|x items Hx _ IHitems]; [constructor|].
    cbn [flat_map]. apply Forall_app. split; [apply item_lines_ok; exact Hx | exact IHitems].
  - cbn [block_lines]. induction IH as [|kx entries Hx _ IHentries]; [constructor|].
    cbn [flat_map]. apply Forall_app. split; [apply entry_lines_ok; exact Hx | exact IHentries].
Qed.

(** ** Top-level keys of a serialized mapping *)

Lemma top_level_key_marked l : marked l -> top_level_key l = None.
Proof. unfold marked, top_level_key. intros ->. reflexivity. Qed.

Lemma omap_marked ls : Forall marked ls -> omap top_level_key ls = [].
Proof.
  induction 1 as [|l ls Hl _ IH]; [reflexivity|].
  cbn [omap list_omap]. rewrite (top_level_key_marked l Hl). exact IH.
Qed.

Lemma indent_lines_marked ls : Forall marked (map indent_line ls).
Proof. apply Forall_map, Forall_forall. intros l _. reflexivity. Qed.

Lemma dash_lines_marked ls : Forall marked (dash_lines ls).
Proof.
  destruct ls as [|l ls]; [constructor|]. cbn [dash_lines].
  constructor; [reflexivity | apply indent_lines_marked].
Qed.

Lemma item_lines_marked block x : Forall marked (item_lines block x).
Proof.
  unfold item_lines. destruct (inline x).
  - constructor; [reflexivity | constructor].
  - apply dash_lines_marked.
Qed.

Lemma sequence_lines_marked v :
  is_sequence v = true -> Forall marked (block_lines v).
Proof.
  destruct v as [| | | | items |]; try discriminate. intros _.
  cbn [block_lines]. induction items as [|x items IH]; [constructor|].
  cbn [flat_map]. apply Forall_app. split; [apply item_lines_marked | exact IH].
Qed.

Lemma key_char_not_colon c : is_key_char c = true -> is_byte 58 c = false.
Proof.
  unfold is_key_char, is_lower_az, is_upper_az, is_digit.
  rewrite !orb_true_iff, !between_spec, is_byte_spec. intros H.
  apply is_byte_false. lia.
Qed.

Lemma key_before_colon_word acc k r :
  all_bytes is_key_char k = true ->
  match r with EmptyString => true | String d _ => is_byte 32 d end = true ->
  key_before_colon acc (k +:+ String ":" r) = Some (String.rev acc +:+ k).
Proof.
  intros Hk Hr. revert acc. induction k as [|c k IH]; intros acc.
  - rewrite append_nil, append_empty_r. cbn [key_before_colon].
    rewrite Hr. reflexivity.
  - cbn [all_bytes] in Hk. apply andb_true_iff in Hk as [Hc Hk].
    rewrite append_cons. cbn [key_before_colon].
    rewrite (key_char_not_colon c Hc). cbn [andb].
    rewrite (IH Hk), rev_cons, append_assoc. reflexivity.
Qed.

Lemma top_level_key_plain k r :
  plain_key k = true ->
  match r with EmptyString => true | String d _ => is_byte 32 d end = true ->
  top_level_key (represent_str k +:+ String ":" r) = Some k.
Proof.
  unfold plain_key. intros H Hr. apply andb_true_iff in H as [Hk Heq].
  apply String.eqb_eq in Heq. rewrite Heq.
  unfold top_level_key.
  rewrite (key_before_colon_word EmptyString k r Hk Hr).
  destruct k as [|c k]; [reflexivity|].
  cbn [all_bytes] in Hk. apply andb_true_iff in Hk as [Hc _].
  rewrite append_cons. cbn [starts_with].
  assert (Ascii.eqb " " c = false) as ->.
  { apply Ascii.eqb_neq. intros <-. discriminate. }
  assert (Ascii.eqb "-" c = false) as ->.
  { apply Ascii.eqb_neq. intros <-. discriminate. }
  reflexivity.
Qed.

Lemma entry_lines_keys kx :
  plain_key (fst kx) = true ->
  omap top_level_key (entry_lines block_lines kx) = [fst kx].
Proof.
  intros Hk. unfold entry_lines. destruct (inline (snd kx)) as [t|].
  - cbn [omap list_omap].
    change (represent_str (fst kx) +:+ ": " +:+ t)
      with (represent_str (fst kx) +:+ String ":" (String " " t)).
    rewrite top_level_key_plain by (exact Hk || reflexivity). reflexivity.
  - cbn [omap list_omap].
    change (represent_str (fst kx) +:+ ":")
      with (represent_str (fst kx) +:+ String ":" EmptyString).
    rewrite top_level_key_plain by (exact Hk || reflexivity).
    rewrite omap_marked; [reflexivity|].
    destruct (is_sequence (snd kx)) eqn:E.
    + apply sequence_lines_marked. exact E.
    + apply indent_lines_marked.
Qed.

Lemma mapping_lines_keys entries :
  Forall (fun kx => plain_key (fst kx) = true) entries ->
  omap top_level_key (block_lines (PDict entries)) = dict_keys entries.
Proof.
  cbn [block_lines]. induction 1 as [|kx entries Hk _ IH]; [reflexivity|].
  cbn [flat_map]. rewrite omap_app, (entry_lines_keys kx Hk), IH. reflexivity.
Qed.

(** The keys read off the text are the keys of the mapping, in order. *)
Lemma safe_dump_keys data :
  Forall (fun kx => plain_key (fst kx) = true) data ->
  top_level_keys (safe_dump data) = dict_keys data.
Proof.
  intros H. unfold top_level_keys, safe_dump.
  destruct data as [|kx data]; [reflexivity|].
  rewrite text_lines_unlines by apply block_lines_ok.
  rewrite omap_app, (mapping_lines_keys _ H).
  change (omap top_level_key [EmptyString]) with (@nil string).
  apply app_nil_r.
Qed.

(** ** Claims about [AutomationDefinition.to_yaml] *)

Lemma automation_dict_shape self :
  exists tail,
    automation_dict self
    = [("alias", PStr (alias self)); ("mode", PStr (mode self));
       ("trigger", PList (trigger self)); ("action", PList (action self))] ++ tail
    /\ dict_keys tail = optional_keys self.
Proof.
  unfold automation_dict, optional_keys.
  assert (forall l : list pyval, list_or l [] = l) as Hor by (intros []; reflexivity).
  rewrite !Hor.
  destruct (description self) as [[|c r]|]; destruct (condition self) as [[|x xs]|];
    eexists; split; reflexivity.
Qed.

Lemma automation_dict_keys self :
  dict_keys (automation_dict self)
  = ["alias"; "mode"; "trigger"; "action"] ++ optional_keys self.
Proof.
  destruct (automation_dict_shape self) as (tail & -> & <-). reflexivity.
Qed.

Lemma automation_dict_plain_keys self :
  Forall (fun kx => plain_key (fst kx) = true) (automation_dict self).
Proof.
  apply Forall_forall. intros kx Hin.
  assert (In (fst kx) (dict_keys (automation_dict self))) as Hk
    by (apply in_map, list_elem_of_In, Hin).
  rewrite automation_dict_keys in Hk. unfold optional_keys in Hk.
  destruct (truthy_str (description self)); destruct (truthy_list (condition self));
    simpl in Hk; intuition (subst; try contradiction);
    match goal with H : _ = fst kx |- _ => rewrite <- H end; vm_compute; reflexivity.
Qed.

Lemma to_yaml_top_level_keys self :
  top_level_keys (to_yaml self)
  = ["alias"; "mode"; "trigger"; "action"] ++ optional_keys self.
Proof.
  unfold to_yaml. rewrite safe_dump_keys by apply automation_dict_plain_keys.
  apply automation_dict_keys.
Qed.

Lemma to_yaml_lines self :
  exists tail,
    text_lines (to_yaml self)
    = entry_lines block_lines ("alias", PStr (alias self))
      ++ entry_lines block_lines ("mode", PStr (mode self))
      ++ entry_lines block_lines ("trigger", PList (trigger self))
      ++ entry_lines block_lines ("action", PList (action self))
      ++ tail.
Proof.
  destruct (automation_dict_shape self) as (tail & E & _).
  unfold to_yaml, safe_dump. rewrite E. cbn [app].
  rewrite text_lines_unlines by apply block_lines_ok.
  cbn [block_lines flat_map]. rewrite <- !app_assoc. eexists. reflexivity.
Qed.

(** C4: the serialized automation always has the [trigger] and [action]
    keys, written as empty lists when the definition has none; a definition
    with neither description nor condition gives a text (and a mapping) with
    neither key.  The top-level keys of the text are exactly [alias], [mode],
    [trigger], [action], then [description] and [condition] when set. *)
Theorem to_yaml_keys (self : AutomationDefinition) :
  let keys := top_level_keys (to_yaml self) in
  keys = ["alias"; "mode"; "trigger"; "action"] ++ optional_keys self
  /\ In "trigger" keys /\ In "action" keys
  /\ (trigger self = [] -> In "trigger: []" (text_lines (to_yaml self)))
  /\ (action self = [] -> In "action: []" (text_lines (to_yaml self)))
  /\ (description self = None -> condition self = None ->
      ~ In "description" keys /\ ~ In "condition" keys
      /\ dict_get "description" (automation_dict self) = None
      /\ dict_get "condition" (automation_dict self) = None).
Proof.
  cbv zeta. rewrite to_yaml_top_level_keys.
  split; [reflexivity|]. split; [simpl; tauto|]. split; [simpl; tauto|].
  destruct (to_yaml_lines self) as (tail & Hlines).
  split; [|split].
  - intros E. rewrite Hlines, E. apply in_or_app. right. apply in_or_app. right.
    apply in_or_app. left. left. vm_compute. reflexivity.
  - intros E. rewrite Hlines, E. apply in_or_app. right. apply in_or_app. right.
    apply in_or_app. right. apply in_or_app. left. left. vm_compute. reflexivity.
  - intros Hd Hc. unfold optional_keys, automation_dict. rewrite Hd, Hc. simpl.
    repeat split; try reflexivity; intros H; intuition discriminate.
Qed.

Lemma to_yaml_keys_witness :
  In "trigger: []" (text_lines (to_yaml bare_definition))
  /\ In "action: []" (text_lines (to_yaml bare_definition))
  /\ ~ In "description" (top_level_keys (to_yaml bare_definition))
  /\ ~ In "condition" (top_level_keys (to_yaml bare_definition)).
Proof.
  destruct (to_yaml_keys bare_definition) as (_ & _ & _ & Ht & Ha & Hopt).
  destruct (Hopt eq_refl eq_refl) as (Hd & Hc & _).
  split; [apply Ht; reflexivity|]. split; [apply Ha; reflexivity|].
  split; assumption.
Defined.

(** C10: an empty description and an empty condition list are treated like
    absent ones: the output is the same text as with [None], and it has no
    [description] key, respectively no [condition] key. *)
Theorem falsy_optionals_like_absent (self : AutomationDefinition) :
  to_yaml (with_description (Some EmptyString) self)
  = to_yaml (with_description None self)
  /\ to_yaml (with_condition (Some []) self) = to_yaml (with_condition None self)
  /\ ~ In "description"
       (top_level_keys (to_yaml (with_description (Some EmptyString) self)))
  /\ ~ In "condition" (top_level_keys (to_yaml (with_condition (Some []) self))).
Proof.
  split; [reflexivity|]. split; [reflexivity|].
  rewrite !to_yaml_top_level_keys. unfold optional_keys. cbn [with_description
    with_condition description condition truthy_str truthy_list].
  split.
  - destruct (truthy_list (condition self)); simpl; intuition discriminate.
  - destruct (truthy_str (description self)); simpl; intuition discriminate.
Qed.

(** ** Validation comes first *)

Lemma call_service_invalid {D} (schema : pydict -> result D) handler data e w :
  schema data = Raise e -> call_service schema handler data w = (Raise e, w).
Proof. intros H. unfold call_service. rewrite H. reflexivity. Qed.

Lemma call_service_valid {D} (schema : pydict -> result D) handler data d :
  schema data = Ok d -> call_service schema handler data = handler d.
Proof. intros H. unfold call_service. rewrite H. reflexivity. Qed.

Lemma missing_trigger_invalid SS data :
  dict_get "trigger" data = None -> exists e, SERVICE_SCHEMA SS data = Raise e.
Proof.
  intros H. unfold SERVICE_SCHEMA. do 6 step_schema.
  unfold required at 1. rewrite H. eexists. reflexivity.
Qed.

Lemma missing_action_invalid SS data :
  dict_get "action" data = None -> exists e, SERVICE_SCHEMA SS data = Raise e.
Proof.
  intros H. unfold SERVICE_SCHEMA. do 8 step_schema.
  unfold required at 1. rewrite H. eexists. reflexivity.
Qed.

(** ** Claims about the validation of [generate_automation] *)

Lemma night_mode_accepted :
  SERVICE_SCHEMA reject_every_step night_mode_call
  = Ok {| data_alias := "Night Mode"; data_description := None; data_mode := "single";
          data_filename := None; data_overwrite := false; data_trigger := [];
          data_condition := None; data_action := [] |}.
Proof. vm_compute. reflexivity. Qed.

(** C5, as stated, fails: the schema has no rule on the length of [trigger]
    and [action], so the call with both lists empty is accepted, even by a
    step validator that would turn every step down, and its file is written
    with [trigger: []] and [action: []]. *)
Lemma empty_steps_accepted : ~ rejects_empty_steps.
Proof.
  intros H.
  destruct (H reject_every_step demo_hass night_mode_call empty_world) as (e & He & _).
  - left. reflexivity.
  - rewrite night_mode_accepted in He. discriminate.
Qed.

Example empty_steps_written :
  let (r, w) := generate_automation reject_every_step demo_hass night_mode_call empty_world in
  r = Ok tt
  /\ lookup_path night_mode_path (fs w)
     = Some (File (join NL ["alias: Night Mode"; "mode: single"; "trigger: []";
                            "action: []"; EmptyString])).
Proof. vm_compute. split; reflexivity. Qed.

(** C5, amended: [generate_automation] requires [trigger] and [action] to be
    given, each a list of step objects that may be empty.  A call without
    [trigger], or without [action], is turned down by validation before any
    file system call; an empty list passes the validator of both keys, and
    then [to_yaml] writes it as an empty list. *)
Theorem steps_required_possibly_empty
    (SS : pyval -> result pyval) (hass : HomeAssistant) (data : pydict) (w : world) :
  (dict_get "trigger" data = None \/ dict_get "action" data = None ->
   exists e,
     SERVICE_SCHEMA SS data = Raise e
     /\ generate_automation SS hass data w = (Raise e, w))
  /\ script_list SS (PList []) = Ok []
  /\ (forall a, exists d,
        SERVICE_SCHEMA SS [("alias", PStr a); ("trigger", PList []); ("action", PList [])]
        = Ok d
        /\ data_trigger d = [] /\ data_action d = []).
Proof.
  split; [|split].
  - intros H.
    assert (exists e, SERVICE_SCHEMA SS data = Raise e) as [e He].
    { destruct H; [apply missing_trigger_invalid | apply missing_action_invalid];
        assumption. }
    exists e. split; [exact He|].
    unfold generate_automation. apply call_service_invalid. exact He.
  - reflexivity.
  - intros a. eexists. split; [reflexivity|]. split; reflexivity.
Qed.

Lemma steps_required_possibly_empty_witness :
  exists e,
    generate_automation reject_every_step demo_hass [("alias", PStr "Night Mode")] empty_world
    = (Raise e, empty_world).
Proof.
  destruct (steps_required_possibly_empty reject_every_step demo_hass
              [("alias", PStr "Night Mode")] empty_world) as (H & _).
  destruct H as (e & _ & He); [left; reflexivity|].
  exists e. exact He.
Defined.

(** ** Claims about the validation of [generate_package] *)

Lemma package_schema_name data d :
  PACKAGE_SERVICE_SCHEMA data = Ok d ->
  required "name" cv_string data = Ok (pkg_name d).
Proof.
  unfold PACKAGE_SERVICE_SCHEMA.
  repeat match goal with
         | |- context [result_bind ?r _] =>
             destruct r; cbn [result_bind]; [|discriminate]
         end.
  intros [= <-]. reflexivity.
Qed.

Lemma cv_string_of_str data (n : string) d :
  dict_get "name" data = Some (PStr n) ->
  PACKAGE_SERVICE_SCHEMA data = Ok d -> pkg_name d = n.
Proof.
  intros Hn Hd. apply package_schema_name in Hd.
  unfold required in Hd. rewrite Hn in Hd. simpl in Hd. congruence.
Qed.

(** A name of ASCII white space only is stripped to nothing. *)
Lemma strip_ascii_spaces s :
  all_bytes is_ascii_space s = true -> strip s = EmptyString.
Proof.
  intros H. unfold strip, lstrip.
  assert (drop_while space_len 0 s = EmptyString) as ->; [|reflexivity].
  induction s as [|c s IH]; [reflexivity|].
  cbn [all_bytes] in H. apply andb_true_iff in H as [Hc Hs].
  cbn [drop_while]. unfold space_len. rewrite Hc. exact (IH Hs).
Qed.

Lemma blank_name_refused hass call w :
  strip (pkg_name call) = EmptyString ->
  handle_generate_package hass call w
  = (Raise (HomeAssistantError "Package name cannot be empty"), w).
Proof. intros H. unfold handle_generate_package. rewrite H. reflexivity. Qed.

(** C6: a package name made of white space only is refused: the handler
    raises [Package name cannot be empty] and the world is as before, with no
    directory created and no file system call made.  Called as a service
    with such a name, [generate_package] fails the same way, or earlier in
    the schema, and leaves the world untouched as well. *)
Theorem blank_package_name_fails_first
    (hass : HomeAssistant) (call : PackageData) (w : world) :
  strip (pkg_name call) = EmptyString ->
  handle_generate_package hass call w
  = (Raise (HomeAssistantError "Package name cannot be empty"), w)
  /\ (forall data,
        dict_get "name" data = Some (PStr (pkg_name call)) ->
        exists e, generate_package hass data w = (Raise e, w))
  /\ generate_package hass [("name", PStr "   ")] w
     = (Raise (HomeAssistantError "Package name cannot be empty"), w).
Proof.
  intros H. split; [apply blank_name_refused; exact H|]. split.
  - intros data Hn. unfold generate_package.
    destruct (PACKAGE_SERVICE_SCHEMA data) as [d|e] eqn:E.
    + rewrite (call_service_valid _ _ _ _ E).
      eexists. apply blank_name_refused.
      rewrite (cv_string_of_str _ _ _ Hn E). exact H.
    + exists e. apply call_service_invalid. exact E.
  - reflexivity.
Qed.

Lemma blank_package_name_witness :
  handle_generate_package demo_hass blank_package empty_world
  = (Raise (HomeAssistantError "Package name cannot be empty"), empty_world).
Proof.
  apply (blank_package_name_fails_first demo_hass blank_package empty_world).
  reflexivity.
Defined.

(** ** The file system tree *)

Lemma lookup_path_app d q n :
  lookup_path (d ++ q) n
  = match lookup_path d n with
    | Some sub => lookup_path q sub
    | None => None
    end.
Proof.
  revert n. induction d as [|x d IH]; intros n; [reflexivity|].
  cbn [app lookup_path]. destruct n as [c|m]; [reflexivity|].
  destruct (m !! x) as [child|]; [apply IH | reflexivity].
Qed.

Lemma lookup_path_cons_inv x d n sub :
  lookup_path (x :: d) n = Some sub ->
  exists m child, n = Dir m /\ m !! x = Some child /\ lookup_path d child = Some sub.
Proof.
  cbn [lookup_path]. destruct n as [c|m]; [discriminate|].
  destruct (m !! x) as [child|] eqn:E; [|discriminate].
  intros H. exists m, child. auto.
Qed.

Lemma graft_cons x d s m child :
  m !! x = Some child ->
  graft (x :: d) s (Dir m) = Dir (<[x := graft d s child]> m).
Proof. intros H. cbn [graft]. rewrite H. reflexivity. Qed.

Lemma lookup_graft d q s n sub :
  lookup_path d n = Some sub ->
  lookup_path (d ++ q) (graft d s n) = lookup_path q s.
Proof.
  revert n. induction d as [|x d IH]; intros n H; [reflexivity|].
  apply lookup_path_cons_inv in H as (m & child & -> & Hx & Hsub).
  rewrite (graft_cons x d s m child Hx). cbn [app lookup_path].
  rewrite lookup_insert_eq. apply IH. exact Hsub.
Qed.

Lemma lookup_graft_self d s n sub :
  lookup_path d n = Some sub -> lookup_path d (graft d s n) = Some s.
Proof.
  intros H. rewrite <- (app_nil_r d) at 1.
  rewrite (lookup_graft d [] s n sub H). reflexivity.
Qed.

Lemma graft_graft d s1 s2 n sub :
  lookup_path d n = Some sub -> graft d s2 (graft d s1 n) = graft d s2 n.
Proof.
  revert n. induction d as [|x d IH]; intros n H; [reflexivity|].
  apply lookup_path_cons_inv in H as (m & child & -> & Hx & Hsub).
  rewrite (graft_cons x d s1 m child Hx).
  rewrite (graft_cons x d s2 _ (graft d s1 child)) by apply lookup_insert_eq.
  rewrite (graft_cons x d s2 m child Hx).
  rewrite insert_insert_eq, (IH child Hsub). reflexivity.
Qed.

Lemma graft_same d n sub :
  lookup_path d n = Some sub -> graft d sub n = n.
Proof.
  revert n. induction d as [|x d IH]; intros n H.
  - cbn in H. injection H as ->. reflexivity.
  - apply lookup_path_cons_inv in H as (m & child & -> & Hx & Hsub).
    rewrite (graft_cons x d sub m child Hx), (IH child Hsub).
    rewrite insert_id by exact Hx. reflexivity.
Qed.

(** Creating directories below [d] happens inside the node at [d]. *)
Lemma make_dirs_under d q n sub :
  lookup_path d n = Some sub ->
  make_dirs (d ++ q) n
  = match make_dirs q sub with
    | Ok sub' => Ok (graft d sub' n)
    | Raise e => Raise e
    end.
Proof.
  revert n. induction d as [|x d IH]; intros n H.
  - cbn in H. injection H as ->. cbn [app graft].
    destruct (make_dirs q sub); reflexivity.
  - apply lookup_path_cons_inv in H as (m & child & -> & Hx & Hsub).
    cbn [app make_dirs]. rewrite Hx. cbn [from_option id].
    rewrite (IH child Hsub).
    destruct (make_dirs q sub) as [sub'|e]; [|reflexivity].
    rewrite (graft_cons x d sub' m child Hx). reflexivity.
Qed.

(** So does writing a file below [d]. *)
Lemma write_file_under d q c n sub :
  q <> [] ->
  lookup_path d n = Some sub ->
  write_file (d ++ q) c n
  = match write_file q c sub with
    | Ok sub' => Ok (graft d sub' n)
    | Raise e => Raise e
    end.
Proof.
  intros Hq. revert n. induction d as [|x d IH]; intros n H.
  - cbn in H. injection H as ->. cbn [app graft].
    destruct (write_file q c sub); reflexivity.
  - apply lookup_path_cons_inv in H as (m & child & -> & Hx & Hsub).
    cbn [app write_file].
    destruct (d ++ q) as [|y t] eqn:E.
    { apply app_eq_nil in E as [_ ->]. congruence. }
    rewrite Hx, (IH child Hsub).
    destruct (write_file q c sub) as [sub'|e]; [|reflexivity].
    rewrite (graft_cons x d sub' m child Hx). reflexivity.
Qed.

(** [make_dirs] succeeds exactly when no regular file is in the way. *)
Lemma make_dirs_clear p n :
  clear_for_dirs p n = true -> exists n', make_dirs p n = Ok n'.
Proof.
  revert n. induction p as [|x p IH]; intros [c|m] H; try discriminate.
  - eexists. reflexivity.
  - cbn [clear_for_dirs] in H. cbn [make_dirs].
    destruct (m !! x) as [child|]; cbn [from_option id].
    + destruct (IH child H) as [n' ->]. eexists. reflexivity.
    + destruct (IH (Dir ∅)) as [n' ->]; [|eexists; reflexivity].
      destruct p; reflexivity.
Qed.

(** After [make_dirs p] the directory at [p] holds what it held before,
    nothing if it is new. *)
Lemma make_dirs_lookup p q n n' :
  make_dirs p n = Ok n' ->
  lookup_path (p ++ q) n' = lookup_path q (Dir (entries_at p n)).
Proof.
  revert n n'. induction p as [|x p IH]; intros [c|m] n' H;
    cbn [make_dirs] in H; try discriminate.
  - injection H as <-. reflexivity.
  - destruct (make_dirs p (default (Dir ∅) (m !! x))) as [child'|e] eqn:E;
      [|discriminate].
    injection H as <-. cbn [app lookup_path]. rewrite lookup_insert_eq.
    rewrite (IH _ _ E). unfold entries_at. cbn [lookup_path].
    destruct (m !! x) as [child|]; cbn [from_option id]; [reflexivity|].
    destruct p; reflexivity.
Qed.

Lemma make_dirs_is_dir p n n' :
  make_dirs p n = Ok n' -> lookup_path p n' = Some (Dir (entries_at p n)).
Proof.
  intros H. rewrite <- (app_nil_r p) at 1.
  rewrite (make_dirs_lookup p [] n n' H). reflexivity.
Qed.

(** Creating directories puts no regular file anywhere. *)
Lemma make_dirs_keeps_clear p p' n n' :
  make_dirs p n = Ok n' ->
  clear_for_dirs p' n = true -> clear_for_dirs p' n' = true.
Proof.
  revert p' n n'. induction p as [|x p IH]; intros p' [c|m] n' H Hclear;
    cbn [make_dirs] in H; try discriminate.
  - injection H as <-. exact Hclear.
  - destruct (make_dirs p (default (Dir ∅) (m !! x))) as [child'|e] eqn:E;
      [|discriminate].
    injection H as <-. destruct p' as [|y p']; [reflexivity|].
    cbn [clear_for_dirs] in *.
    destruct (decide (x = y)) as [->|Hne].
    + rewrite lookup_insert_eq. apply (IH p' _ _ E).
      destruct (m !! y) as [child|]; cbn [from_option id]; [exact Hclear|].
      destruct p'; reflexivity.
    + rewrite lookup_insert_ne by exact Hne. exact Hclear.
Qed.

Lemma clear_for_dirs_prefix p q n :
  clear_for_dirs (p ++ q) n = true -> clear_for_dirs p n = true.
Proof.
  revert n. induction p as [|x p IH]; intros [c|m] H;
    cbn [app clear_for_dirs] in *; try reflexivity.
  - destruct q; discriminate.
  - discriminate.
  - destruct (m !! x) as [child|]; [apply IH; exact H | reflexivity].
Qed.

Lemma clear_lookup p n :
  clear_for_dirs p n = true ->
  lookup_path p n = None \/ lookup_path p n = Some (Dir (entries_at p n)).
Proof.
  unfold entries_at. revert n.
  induction p as [|x p IH]; intros [c|m] H; try discriminate;
    cbn [clear_for_dirs lookup_path] in *.
  - right. reflexivity.
  - destruct (m !! x) as [child|]; [apply IH; exact H | left; reflexivity].
Qed.

Lemma entries_at_child p x n n' :
  make_dirs p n = Ok n' ->
  entries_at (p ++ [x]) n' = entries_at (p ++ [x]) n.
Proof.
  intros H. unfold entries_at at 1.
  rewrite (make_dirs_lookup p [x] n n' H).
  unfold entries_at. rewrite lookup_path_app.
  destruct (lookup_path p n) as [[c|m]|]; cbn [lookup_path];
    try rewrite lookup_empty; reflexivity.
Qed.

Lemma make_dirs_existing p n m :
  lookup_path p n = Some (Dir m) -> make_dirs p n = Ok n.
Proof.
  intros H. rewrite <- (app_nil_r p), (make_dirs_under p [] n (Dir m) H).
  cbn [make_dirs]. rewrite (graft_same p n (Dir m) H). reflexivity.
Qed.

Lemma write_file_lookup p c n n' :
  write_file p c n = Ok n' -> lookup_path p n' = Some (File c).
Proof.
  revert n n'. induction p as [|x p IH]; intros [c0|m] n' H;
    cbn [write_file] in H; try discriminate.
  - injection H as <-. reflexivity.
  - destruct p as [|y t].
    + destruct (m !! x) as [[c0|m0]|]; try discriminate;
        injection H as <-; cbn [lookup_path];
        rewrite lookup_insert_eq; reflexivity.
    + destruct (m !! x) as [child|]; [|discriminate].
      destruct (write_file (y :: t) c child) as [child'|e] eqn:E; [|discriminate].
      injection H as <-.
      change (lookup_path (x :: y :: t) (Dir (<[x:=child']> m)))
        with (match (<[x:=child']> m) !! x with
              | Some ch => lookup_path (y :: t) ch
              | None => None
              end).
      rewrite lookup_insert_eq. exact (IH child child' E).
Qed.

(** Directories stay directories. *)
Lemma make_dirs_keeps_dirs p q n n' :
  make_dirs p n = Ok n' -> is_dir_at q n = true -> is_dir_at q n' = true.
Proof.
  unfold is_dir_at. revert q n n'.
  induction p as [|x p IH]; intros q [c|m] n' H Hq;
    cbn [make_dirs] in H; try discriminate.
  - injection H as <-. exact Hq.
  - destruct (make_dirs p (default (Dir ∅) (m !! x))) as [child'|e] eqn:E;
      [|discriminate].
    injection H as <-. destruct q as [|y q]; [reflexivity|].
    cbn [lookup_path] in *.
    destruct (decide (x = y)) as [->|Hne].
    + rewrite lookup_insert_eq.
      destruct (m !! y) as [child|]; [|discriminate].
      exact (IH q child child' E Hq).
    + rewrite lookup_insert_ne by exact Hne. exact Hq.
Qed.

Lemma write_file_keeps_dirs p c q n n' :
  write_file p c n = Ok n' -> is_dir_at q n = true -> is_dir_at q n' = true.
Proof.
  unfold is_dir_at. revert q n n'.
  induction p as [|x p IH]; intros q [c0|m] n' H Hq;
    cbn [write_file] in H; try discriminate.
  - destruct q; discriminate.
  - destruct q as [|y q]; [destruct p; destruct (m !! x) as [[|]|];
      try discriminate; try (injection H as <-; reflexivity);
      destruct (write_file (s :: p) c _); try discriminate;
      injection H as <-; reflexivity|].
    cbn [lookup_path] in Hq.
    destruct p as [|z t].
    + destruct (m !! x) as [[c0|m0]|] eqn:Ex; try discriminate;
        injection H as <-; cbn [lookup_path];
        (destruct (decide (x = y)) as [->|Hne];
         [rewrite Ex in Hq; destruct q; discriminate
         | rewrite lookup_insert_ne by exact Hne; exact Hq]).
    + destruct (m !! x) as [child|] eqn:Ex; [|discriminate].
      destruct (write_file (z :: t) c child) as [child'|e] eqn:E; [|discriminate].
      injection H as <-. cbn [lookup_path].
      destruct (decide (x = y)) as [->|Hne].
      * rewrite lookup_insert_eq. rewrite Ex in Hq.
        exact (IH q child child' E Hq).
      * rewrite lookup_insert_ne by exact Hne. exact Hq.
Qed.

(** A path with something below it is a directory. *)
Lemma above_is_dir q r n sub :
  r <> [] -> lookup_path (q ++ r) n = Some sub -> is_dir_at q n = true.
Proof.
  intros Hr. unfold is_dir_at. rewrite lookup_path_app.
  destruct (lookup_path q n) as [[c|m]|]; try discriminate; [|reflexivity].
  destruct r; [congruence | discriminate].
Qed.

(** ** Running the effects *)

Lemma bind_ok {A B} (m : M A) (k : A -> M B) w a w1 :
  m w = (Ok a, w1) -> bind m k w = k a w1.
Proof. intros H. unfold bind. rewrite H. reflexivity. Qed.

Lemma bind_bind_ok {A B C} (m : M A) (k0 : A -> M B) (k : B -> M C) w a w1 :
  m w = (Ok a, w1) -> bind (bind m k0) k w = bind (k0 a) k w1.
Proof. intros H. unfold bind. rewrite H. reflexivity. Qed.

Lemma bind_raise {A B} (m : M A) (k : A -> M B) w e w1 :
  m w = (Raise e, w1) -> bind m k w = (Raise e, w1).
Proof. intros H. unfold bind. rewrite H. reflexivity. Qed.

Lemma focused_here d S w : lookup_path d (fs w) = Some S -> focused d S w.
Proof.
  intros H. exists (fs w), S. split; [exact H|].
  symmetry. apply graft_same. exact H.
Qed.

Lemma focused_lookup d S w q :
  focused d S w -> lookup_path (d ++ q) (fs w) = lookup_path q S.
Proof.
  intros (n1 & sub & H & ->). apply (lookup_graft d q S n1 sub H).
Qed.

Lemma focused_node d S w : focused d S w -> lookup_path d (fs w) = Some S.
Proof.
  intros H. rewrite <- (app_nil_r d). rewrite (focused_lookup d S w [] H). reflexivity.
Qed.

Lemma focused_update d S S' w w' :
  focused d S w -> fs w' = graft d S' (fs w) -> focused d S' w'.
Proof.
  intros (n1 & sub & H & E) E'. exists n1, sub. split; [exact H|].
  rewrite E', E. apply (graft_graft d S S' n1 sub H).
Qed.

Lemma focused_same d S w w' : focused d S w -> fs w' = fs w -> focused d S w'.
Proof.
  intros (n1 & sub & H & E) E'. exists n1, sub. split; [exact H | congruence].
Qed.

Lemma focused_exists d S w q :
  focused d S w ->
  exists w',
    path_exists (d ++ q) w = (Ok (bool_decide (is_Some (lookup_path q S))), w')
    /\ focused d S w'.
Proof.
  intros H. eexists. unfold path_exists.
  rewrite (focused_lookup d S w q H). split; [reflexivity|].
  apply (focused_same d S w); [exact H | reflexivity].
Qed.

Lemma focused_mkdir d S S' w q :
  focused d S w -> make_dirs q S = Ok S' ->
  exists w', path_mkdir (d ++ q) w = (Ok tt, w') /\ focused d S' w'.
Proof.
  intros H Hq. unfold path_mkdir.
  rewrite (make_dirs_under d q (fs w) S (focused_node d S w H)), Hq.
  eexists. split; [reflexivity|].
  apply (focused_update d S S' w); [exact H | reflexivity].
Qed.

Lemma focused_write_text d S S' w q c :
  focused d S w -> q <> [] -> write_file q c S = Ok S' ->
  exists w', path_write_text (d ++ q) c w = (Ok tt, w') /\ focused d S' w'.
Proof.
  intros H Hne Hq. unfold path_write_text.
  rewrite (write_file_under d q c (fs w) S Hne (focused_node d S w H)), Hq.
  eexists. split; [reflexivity|].
  apply (focused_update d S S' w); [exact H | reflexivity].
Qed.

Lemma parent_app d q : q <> [] -> parent (d ++ q) = d ++ parent q.
Proof. intros H. unfold parent. apply removelast_app. exact H. Qed.

(** The guarded writer on a fresh path, or with [overwrite] set. *)
Lemma focused_async_write hass d S S1 S2 w q c o :
  focused d S w -> q <> [] ->
  lookup_path q S = None \/ o = true ->
  make_dirs (parent q) S = Ok S1 ->
  write_file q c S1 = Ok S2 ->
  exists w', _async_write_file hass (d ++ q) c o w = (Ok tt, w') /\ focused d S2 w'.
Proof.
  intros H Hne Hfree Hmk Hwr.
  destruct (focused_exists d S w q H) as (w1 & E1 & H1).
  unfold _async_write_file, except_FileExistsError, _write.
  rewrite (bind_ok _ _ _ _ _ E1).
  assert (bool_decide (is_Some (lookup_path q S)) && negb o = false) as ->.
  { destruct Hfree as [-> | ->]; [reflexivity | apply andb_false_r]. }
  rewrite (parent_app d q Hne).
  destruct (focused_mkdir d S S1 w1 (parent q) H1 Hmk) as (w2 & E2 & H2).
  rewrite (bind_ok _ _ _ _ _ E2).
  destruct (focused_write_text d S1 S2 w2 q c H2 Hne Hwr) as (w3 & E3 & H3).
  rewrite E3. eauto.
Qed.

Lemma bind_ok_inv {A B} (m : M A) (k : A -> M B) w b w' :
  bind m k w = (Ok b, w') ->
  exists a w1, m w = (Ok a, w1) /\ k a w1 = (Ok b, w').
Proof.
  unfold bind. destruct (m w) as [[a|e] w1]; [eauto | discriminate].
Qed.

Lemma path_mkdir_ok_inv p w w' :
  path_mkdir p w = (Ok tt, w') -> make_dirs p (fs w) = Ok (fs w').
Proof.
  unfold path_mkdir. destruct (make_dirs p (fs w)); [|discriminate].
  intros [= <-]. reflexivity.
Qed.

Lemma path_write_text_ok_inv p c w w' :
  path_write_text p c w = (Ok tt, w') -> write_file p c (fs w) = Ok (fs w').
Proof.
  unfold path_write_text. destruct (write_file p c (fs w)); [|discriminate].
  intros [= <-]. reflexivity.
Qed.

Lemma path_exists_inv p w b w' :
  path_exists p w = (Ok b, w') ->
  b = bool_decide (is_Some (lookup_path p (fs w))) /\ fs w' = fs w.
Proof. unfold path_exists. intros [= <- <-]. split; reflexivity. Qed.

(** What a successful guarded write leaves behind. *)
Lemma async_write_ok hass p c o w w' :
  _async_write_file hass p c o w = (Ok tt, w') ->
  lookup_path p (fs w') = Some (File c)
  /\ forall q, is_dir_at q (fs w) = true -> is_dir_at q (fs w') = true.
Proof.
  unfold _async_write_file, except_FileExistsError. intros H.
  destruct (_write p c o w) as [[[]|e] w1] eqn:E; [|destruct e; discriminate H].
  injection H as ->. unfold _write in E.
  apply bind_ok_inv in E as (present & w1 & E1 & E).
  apply path_exists_inv in E1 as [_ F1].
  destruct (present && negb o); [discriminate E|].
  apply bind_ok_inv in E as ([] & w2 & E2 & E3).
  apply path_mkdir_ok_inv in E2. apply path_write_text_ok_inv in E3.
  rewrite F1 in E2. split.
  - exact (write_file_lookup p c _ _ E3).
  - intros q Hq. apply (write_file_keeps_dirs p c q _ _ E3).
    exact (make_dirs_keeps_dirs (parent p) q _ _ E2 Hq).
Qed.

(** The guarded writer on an existing path without [overwrite]. *)
Lemma async_write_refused hass p c w :
  is_Some (lookup_path p (fs w)) ->
  _async_write_file hass p c false w
  = (Raise (HomeAssistantError ("Automation Helper refused to overwrite " +:+ path_str p)),
     record_call (CallExists p) w).
Proof.
  intros H.
  unfold _async_write_file, except_FileExistsError, _write, bind, path_exists, raise.
  rewrite bool_decide_eq_true_2 by exact H. reflexivity.
Qed.

(** ** Claims about the guarded writer *)

Lemma list_snoc_inv {A} (l : list A) : l <> [] -> exists d x, l = d ++ [x].
Proof.
  intros H. destruct (exists_last H) as (d & x & E). exists d, x. exact E.
Qed.

Lemma parent_snoc (d : path) x : parent (d ++ [x]) = d.
Proof. unfold parent. apply removelast_last. Qed.

Lemma admits_write_nonempty p n : admits_write p n = true -> p <> [].
Proof.
  unfold admits_write, is_dir_at. intros H ->. cbn in H.
  destruct n; cbn in H; discriminate.
Qed.

Lemma make_dirs_child_lookup d f n n1 :
  clear_for_dirs d n = true -> make_dirs d n = Ok n1 ->
  lookup_path (d ++ [f]) n1 = lookup_path (d ++ [f]) n.
Proof.
  intros Hclear Hmk. rewrite (make_dirs_lookup d [f] n n1 Hmk), lookup_path_app.
  destruct (clear_lookup d n Hclear) as [E | E]; rewrite E; [|reflexivity].
  unfold entries_at. rewrite E. cbn [lookup_path]. rewrite lookup_empty.
  reflexivity.
Qed.

Lemma write_file_child d f c n m :
  lookup_path d n = Some (Dir m) ->
  is_dir_at (d ++ [f]) n = false ->
  write_file (d ++ [f]) c n = Ok (graft d (Dir (<[f := File c]> m)) n).
Proof.
  intros Hd Hf.
  rewrite (write_file_under d [f] c n (Dir m)) by (exact Hd || discriminate).
  unfold is_dir_at in Hf. rewrite lookup_path_app, Hd in Hf.
  cbn [lookup_path write_file] in *.
  destruct (m !! f) as [[c0|m0]|]; try reflexivity. discriminate.
Qed.

Lemma guarded_write_succeeds hass p content overwrite w :
  lookup_path p (fs w) = None \/ overwrite = true ->
  admits_write p (fs w) = true ->
  exists w',
    _async_write_file hass p content overwrite w = (Ok tt, w')
    /\ lookup_path p (fs w') = Some (File content)
    /\ forall q r, p = q ++ r -> r <> [] -> is_dir_at q (fs w') = true.
Proof.
  intros Hfree Hadm.
  pose proof (admits_write_nonempty p _ Hadm) as Hne.
  destruct (list_snoc_inv p Hne) as (d & f & ->).
  unfold admits_write in Hadm. rewrite parent_snoc in Hadm.
  apply andb_true_iff in Hadm as [Hclear Hnodir]. apply negb_true_iff in Hnodir.
  destruct (make_dirs_clear d (fs w) Hclear) as [n1 Hmk].
  pose proof (make_dirs_is_dir d (fs w) n1 Hmk) as Hd1.
  assert (is_dir_at (d ++ [f]) n1 = false) as Hnodir1.
  { unfold is_dir_at in *.
    rewrite (make_dirs_child_lookup d f (fs w) n1 Hclear Hmk). exact Hnodir. }
  pose proof (write_file_child d f content n1 _ Hd1 Hnodir1) as Hwr.
  destruct (focused_async_write hass [] (fs w) n1
              (graft d (Dir (<[f := File content]> (entries_at d (fs w)))) n1)
              w (d ++ [f]) content overwrite)
    as (w' & Hrun & _).
  - apply focused_here. reflexivity.
  - exact Hne.
  - exact Hfree.
  - rewrite parent_snoc. exact Hmk.
  - exact Hwr.
  - exists w'. split; [exact Hrun|].
    destruct (async_write_ok hass _ _ _ _ _ Hrun) as [Hfile _].
    split; [exact Hfile|].
    intros q r E Hr. rewrite E in Hfile.
    exact (above_is_dir q r (fs w') _ Hr Hfile).
Qed.

Lemma make_dirs_blocked p n :
  clear_for_dirs p n = false -> exists e, make_dirs p n = Raise e.
Proof.
  revert n. induction p as [|x p IH]; intros [c|m] H; cbn [clear_for_dirs] in H;
    try discriminate; cbn [make_dirs]; try (eexists; reflexivity).
  destruct (m !! x) as [child|]; [|discriminate]. cbn [from_option id].
  destruct (IH child H) as [e ->]. eexists. reflexivity.
Qed.

Lemma write_file_directory p c n :
  is_dir_at p n = true -> write_file p c n = Raise IsADirectoryError.
Proof.
  unfold is_dir_at. revert n. induction p as [|x p IH]; intros [c0|m] H;
    cbn [lookup_path] in H; try discriminate; cbn [write_file]; [reflexivity|].
  destruct (m !! x) as [child|]; [|discriminate].
  destruct p as [|y t].
  - cbn [lookup_path] in H. destruct child; [discriminate | reflexivity].
  - rewrite (IH child H). reflexivity.
Qed.

(** When the file system does not admit the write, the writer fails: these
    are the failures of the operating system. *)
Lemma guarded_write_blocked hass p content overwrite w :
  lookup_path p (fs w) = None \/ overwrite = true ->
  admits_write p (fs w) = false ->
  exists e w', _async_write_file hass p content overwrite w = (Raise e, w').
Proof.
  intros Hfree Hadm.
  unfold _async_write_file, except_FileExistsError, _write.
  unfold bind at 1, path_exists at 1.
  assert (bool_decide (is_Some (lookup_path p (fs w))) && negb overwrite = false) as ->.
  { destruct Hfree as [-> | ->]; [|apply andb_false_r].
    rewrite bool_decide_eq_false_2 by (intros [? ?]; discriminate). reflexivity. }
  unfold bind, path_mkdir, path_write_text, record_call. cbn [fs calls].
  unfold admits_write in Hadm. apply andb_false_iff in Hadm as [Hblocked | Hdir].
  - destruct (make_dirs_blocked _ _ Hblocked) as [e ->].
    destruct e; eexists _, _; reflexivity.
  - apply negb_false_iff in Hdir.
    destruct (make_dirs (parent p) (fs w)) as [n1|e] eqn:E.
    + cbn [fs calls].
      rewrite (write_file_directory p content n1
                 (make_dirs_keeps_dirs _ _ _ _ E Hdir)).
      eexists _, _. reflexivity.
    + destruct e; eexists _, _; reflexivity.
Qed.

Lemma handle_generate_ok hass call w w1 :
  handle_generate hass call w = (Ok tt, w1) ->
  lookup_path (output_file hass call) (fs w1) = Some (File (to_yaml (definition_of call)))
  /\ is_dir_at (config_path hass "automation_helper") (fs w1) = true.
Proof.
  unfold handle_generate. fold (output_file hass call). fold (definition_of call).
  intros H.
  apply bind_ok_inv in H as ([] & wa & Ea & H).
  apply path_mkdir_ok_inv in Ea.
  apply bind_ok_inv in H as (present & wb & Eb & H).
  apply path_exists_inv in Eb as [_ Fb].
  destruct (present && negb (data_overwrite call)); [discriminate H|].
  apply async_write_ok in H as [Hfile Hdirs]. split; [exact Hfile|].
  apply Hdirs. rewrite Fb. unfold is_dir_at.
  rewrite (make_dirs_is_dir _ _ _ Ea). reflexivity.
Qed.






(** ** Claims about [generate_package] *)

Lemma path_join_parts base s parts :
  starts_with "/" s = false -> path_parts s = parts -> path_join base s = base ++ parts.
Proof. intros H <-. unfold path_join. rewrite H. reflexivity. Qed.

Lemma vacant_lookup dir n :
  vacant dir n ->
  lookup_path dir n = None \/ lookup_path dir n = Some (Dir ∅).
Proof.
  intros [Hclear Hempty]. destruct (clear_lookup dir n Hclear) as [E|E].
  - left. exact E.
  - right. rewrite E, Hempty. reflexivity.
Qed.

(** The first steps of the handler on a vacant target: the package
    directory is there afterwards, and empty. *)
Lemma package_dir_prepared root x o w :
  vacant (root ++ [x]) (fs w) ->
  exists w2,
    focused (root ++ [x]) (Dir ∅) w2
    /\ forall A refusal (k : M A),
       (path_mkdir root ;;
        let* present := path_exists (root ++ [x]) in
        let* occupied :=
          (if present && negb o then path_iterdir_any (root ++ [x]) else ret false) in
        if occupied then raise refusal
        else path_mkdir (root ++ [x]) ;; k) w
       = k w2.
Proof.
  intros Hvac. pose proof Hvac as [Hclear Hempty].
  destruct (make_dirs_clear root (fs w) (clear_for_dirs_prefix root [x] _ Hclear))
    as [n1 Hmk1].
  pose proof (make_dirs_keeps_clear root (root ++ [x]) _ _ Hmk1 Hclear) as Hclear1.
  pose proof (entries_at_child root x _ _ Hmk1) as Hentries1. rewrite Hempty in Hentries1.
  destruct (make_dirs_clear (root ++ [x]) n1 Hclear1) as [n2 Hmk2].
  pose proof (make_dirs_is_dir (root ++ [x]) n1 n2 Hmk2) as Hdir2.
  rewrite Hentries1 in Hdir2.
  assert (forall cs, exists cs', forall A refusal (k : M A),
             (let* occupied :=
                (if bool_decide (is_Some (lookup_path (root ++ [x]) n1)) && negb o
                 then path_iterdir_any (root ++ [x]) else ret false) in
              if occupied then raise refusal else path_mkdir (root ++ [x]) ;; k)
               {| fs := n1; calls := cs |}
             = k {| fs := n2; calls := cs' |}) as Hrest.
  { intros cs.
    destruct (vacant_lookup (root ++ [x]) n1 (conj Hclear1 Hentries1)) as [E|E].
    - rewrite E. rewrite bool_decide_eq_false_2 by (intros [? ?]; discriminate).
      cbn [andb]. eexists. intros A refusal k.
      unfold bind, ret, path_mkdir. cbn [fs calls].
      rewrite Hmk2. reflexivity.
    - destruct (bool_decide (is_Some (lookup_path (root ++ [x]) n1)) && negb o).
      + eexists. intros A refusal k.
        unfold bind, path_iterdir_any, path_mkdir, record_call. cbn [fs calls].
        rewrite E. rewrite bool_decide_eq_false_2 by (intros H; apply H; reflexivity).
        cbn [fs calls]. rewrite Hmk2. reflexivity.
      + eexists. intros A refusal k.
        unfold bind, ret, path_mkdir. cbn [fs calls].
        rewrite Hmk2. reflexivity. }
  destruct (Hrest ((calls w ++ [CallMkdir root]) ++ [CallExists (root ++ [x])]))
    as [cs' Hrun].
  exists {| fs := n2; calls := cs' |}. split.
  - apply focused_here. exact Hdir2.
  - intros A refusal k. rewrite <- (Hrun A refusal k).
    unfold bind at 1, path_mkdir at 1. rewrite Hmk1.
    unfold bind at 1, path_exists at 1, record_call. cbn [fs calls]. reflexivity.
Qed.

Lemma strip_morning_routine : strip "Morning Routine" = "Morning Routine".
Proof. vm_compute. reflexivity. Qed.

Lemma slugify_morning_routine : slugify "Morning Routine" = "morning_routine".
Proof. vm_compute. reflexivity. Qed.

Lemma humanize_morning_routine : humanize "Morning Routine" = "Morning Routine".
Proof. vm_compute. reflexivity. Qed.

Lemma morning_routine_dir_join hass :
  path_join (config_path hass "packages") "morning_routine"
  = (config_dir hass ++ ["packages"]) ++ ["morning_routine"].
Proof. apply path_join_parts; vm_compute; reflexivity. Qed.

(** One guarded write of a new file into the directory in focus. *)
Lemma focused_new_file hass d m w f c o :
  focused d (Dir m) w -> m !! f = None ->
  exists w',
    _async_write_file hass (d ++ [f]) c o w = (Ok tt, w')
    /\ focused d (Dir (<[f := File c]> m)) w'.
Proof.
  intros H Hf.
  apply (focused_async_write hass d (Dir m) (Dir m) _ w [f] c o H).
  - discriminate.
  - left. cbn [lookup_path]. rewrite Hf. reflexivity.
  - reflexivity.
  - cbn [write_file]. rewrite Hf. reflexivity.
Qed.

(** The handler on the call of C7 and C8, with its constants worked out. *)
Lemma handle_morning_routine hass description overwrite blueprint domain :
  handle_generate_package hass (morning_routine description overwrite blueprint domain)
  = (let dir := (config_dir hass ++ ["packages"]) ++ ["morning_routine"] in
     path_mkdir (config_dir hass ++ ["packages"]) ;;
     let* present := path_exists dir in
     let* occupied :=
       (if present && negb overwrite then path_iterdir_any dir else ret false) in
     if occupied then
       raise (HomeAssistantError
                ("Automation Helper refused to overwrite non-empty package directory: "
                 +:+ path_str dir))
     else
       path_mkdir dir ;;
       (if blueprint then
          path_mkdir (path_join (path_join dir "blueprints") domain) ;;
          _async_write_file hass
            (path_join (path_join (path_join dir "blueprints") domain)
               "morning_routine.yaml")
            (build_blueprint_yaml "Morning Routine" description domain) overwrite
        else ret tt) ;;
       _async_write_file hass (dir ++ ["automations.yaml"])
         (build_automation_package_yaml "Morning Routine" description true) overwrite ;;
       _async_write_file hass (dir ++ ["scripts.yaml"])
         (build_scripts_package_yaml "Morning Routine" true) overwrite ;;
       _async_write_file hass (dir ++ ["README.md"])
         (build_package_readme "Morning Routine" description true false blueprint)
         overwrite ;;
       ret tt).
Proof.
  unfold handle_generate_package, morning_routine.
  cbn [pkg_name pkg_description pkg_overwrite pkg_include_example pkg_include_scripts
       pkg_include_scenes pkg_include_readme pkg_blueprint_domain pkg_include_blueprint].
  rewrite strip_morning_routine, slugify_morning_routine, humanize_morning_routine.
  rewrite morning_routine_dir_join.
  cbv beta iota zeta delta [dict_set String.eqb Ascii.eqb Bool.eqb for_each].
  rewrite !(path_join_parts _ "automations.yaml" ["automations.yaml"])
    by (vm_compute; reflexivity).
  rewrite !(path_join_parts _ "scripts.yaml" ["scripts.yaml"]) by (vm_compute; reflexivity).
  rewrite !(path_join_parts _ "README.md" ["README.md"]) by (vm_compute; reflexivity).
  reflexivity.
Qed.

Lemma morning_routine_dir_assoc hass :
  morning_routine_dir hass = (config_dir hass ++ ["packages"]) ++ ["morning_routine"].
Proof. unfold morning_routine_dir. rewrite <- app_assoc. reflexivity. Qed.

(** C7: on a target that is missing or empty, [generate_package] for
    [Morning Routine] with the default flags succeeds, and the directory
    [packages/morning_routine] then holds exactly [automations.yaml],
    [scripts.yaml] and [README.md], each as the file its builder gives: there
    is no [scenes.yaml] and no [blueprints]. *)
Theorem morning_routine_package
    (hass : HomeAssistant) (description : option string) (overwrite : bool) (w : world) :
  vacant (morning_routine_dir hass) (fs w) ->
  exists w' m,
    handle_generate_package hass (morning_routine description overwrite false "automation") w
    = (Ok tt, w')
    /\ (description = None -> overwrite = false ->
        generate_package hass [("name", PStr "Morning Routine")] w = (Ok tt, w'))
    /\ lookup_path (morning_routine_dir hass) (fs w') = Some (Dir m)
    /\ dom m = {[ "automations.yaml"; "scripts.yaml"; "README.md" ]}
    /\ m !! "automations.yaml"
       = Some (File (build_automation_package_yaml "Morning Routine" description true))
    /\ m !! "scripts.yaml"
       = Some (File (build_scripts_package_yaml "Morning Routine" true))
    /\ m !! "README.md"
       = Some (File (build_package_readme "Morning Routine" description true false false))
    /\ m !! "scenes.yaml" = None
    /\ m !! "blueprints" = None.
Proof.
  intros Hvac. rewrite morning_routine_dir_assoc in *.
  assert (forall w',
            handle_generate_package hass
              (morning_routine description overwrite false "automation") w = (Ok tt, w') ->
            description = None -> overwrite = false ->
            generate_package hass [("name", PStr "Morning Routine")] w = (Ok tt, w'))
    as Hservice by (intros w' H -> ->; exact H).
  revert Hservice. rewrite handle_morning_routine. cbv zeta.
  destruct (package_dir_prepared _ _ overwrite w Hvac) as (w2 & Hfoc2 & Hrun).
  rewrite Hrun. clear Hrun.
  rewrite (bind_ok (ret tt) _ w2 tt w2 eq_refl).
  set (c1 := build_automation_package_yaml _ _ _).
  set (c2 := build_scripts_package_yaml _ _).
  set (c3 := build_package_readme _ _ _ _ _).
  clearbody c1 c2 c3.
  destruct (focused_new_file hass _ _ w2 "automations.yaml" c1 overwrite Hfoc2)
    as (w3 & E3 & Hfoc3); [apply lookup_empty|].
  rewrite (bind_ok _ _ _ _ _ E3).
  destruct (focused_new_file hass _ _ w3 "scripts.yaml" c2 overwrite Hfoc3)
    as (w4 & E4 & Hfoc4); [reflexivity|].
  rewrite (bind_ok _ _ _ _ _ E4).
  destruct (focused_new_file hass _ _ w4 "README.md" c3 overwrite Hfoc4)
    as (w5 & E5 & Hfoc5); [reflexivity|].
  rewrite (bind_ok _ _ _ _ _ E5).
  intros Hservice. eexists w5, _. split; [reflexivity|].
  split; [apply Hservice; reflexivity|].
  split; [exact (focused_node _ _ _ Hfoc5)|].
  split; [rewrite !dom_insert_L, dom_empty_L; set_solver|].
  repeat split; reflexivity.
Qed.

Lemma morning_routine_package_witness :
  exists w' m,
    generate_package demo_hass [("name", PStr "Morning Routine")] empty_world = (Ok tt, w')
    /\ lookup_path ["config"; "packages"; "morning_routine"] (fs w') = Some (Dir m)
    /\ dom m = {[ "automations.yaml"; "scripts.yaml"; "README.md" ]}
    /\ m !! "scenes.yaml" = None /\ m !! "blueprints" = None.
Proof.
  destruct (morning_routine_package demo_hass None false empty_world)
    as (w' & m & _ & Hservice & Hdir & Hdom & _ & _ & _ & Hscenes & Hblue).
  - split; vm_compute; reflexivity.
  - exists w', m. split; [apply Hservice; reflexivity|].
    split; [exact Hdir|]. split; [exact Hdom|]. split; assumption.
Defined.

Lemma script_blueprint_join dir :
  path_join (path_join (path_join dir "blueprints") "script") "morning_routine.yaml"
  = dir ++ script_blueprint_path
  /\ path_join (path_join dir "blueprints") "script" = dir ++ ["blueprints"; "script"].
Proof.
  rewrite (path_join_parts _ "blueprints" ["blueprints"]) by (vm_compute; reflexivity).
  rewrite (path_join_parts _ "script" ["script"]) by (vm_compute; reflexivity).
  rewrite (path_join_parts _ "morning_routine.yaml" ["morning_routine.yaml"])
    by (vm_compute; reflexivity).
  unfold script_blueprint_path. rewrite <- !app_assoc. split; reflexivity.
Qed.

(** C8: with [include_blueprint] set and the domain [script], the handler
    writes the blueprint to [blueprints/script/morning_routine.yaml] inside
    the package directory; the file has a [sequence] key, on the line
    [  sequence:], and no [trigger] key. *)
Theorem morning_routine_script_blueprint
    (hass : HomeAssistant) (overwrite : bool) (w : world) :
  vacant (morning_routine_dir hass) (fs w) ->
  exists w' content,
    handle_generate_package hass (morning_routine None overwrite true "script") w
    = (Ok tt, w')
    /\ (overwrite = false ->
        generate_package hass
          [("name", PStr "Morning Routine"); ("include_blueprint", PBool true);
           ("blueprint_domain", PStr "script")] w
        = (Ok tt, w'))
    /\ lookup_path (morning_routine_dir hass ++ script_blueprint_path) (fs w')
       = Some (File content)
    /\ content = build_blueprint_yaml "Morning Routine" None "script"
    /\ In "sequence" (all_keys content)
    /\ In "  sequence:" (text_lines content)
    /\ ~ In "trigger" (all_keys content).
Proof.
  intros Hvac. rewrite morning_routine_dir_assoc in *.
  assert (forall w',
            handle_generate_package hass (morning_routine None overwrite true "script") w
            = (Ok tt, w') ->
            overwrite = false ->
            generate_package hass
              [("name", PStr "Morning Routine"); ("include_blueprint", PBool true);
               ("blueprint_domain", PStr "script")] w
            = (Ok tt, w'))
    as Hservice by (intros w' H ->; exact H).
  revert Hservice. rewrite handle_morning_routine. cbv beta iota zeta.
  destruct (package_dir_prepared _ _ overwrite w Hvac) as (w2 & Hfoc2 & Hrun).
  rewrite Hrun. clear Hrun.
  destruct (script_blueprint_join ((config_dir hass ++ ["packages"]) ++ ["morning_routine"]))
    as [-> ->].
  set (c0 := build_blueprint_yaml _ _ _).
  assert (In "sequence" (all_keys c0) /\ In "  sequence:" (text_lines c0)
          /\ ~ In "trigger" (all_keys c0)) as Hkeys.
  { subst c0. vm_compute. intuition congruence. }
  set (c1 := build_automation_package_yaml _ _ _).
  set (c2 := build_scripts_package_yaml _ _).
  set (c3 := build_package_readme _ _ _ _ _).
  clearbody c0 c1 c2 c3.
  destruct (focused_mkdir _ _
              (Dir {[ "blueprints" := Dir {[ "script" := Dir ∅ ]} ]})
              w2 ["blueprints"; "script"] Hfoc2)
    as (w3 & E3 & Hfoc3); [vm_compute; reflexivity|].
  rewrite (bind_bind_ok _ _ _ _ _ _ E3).
  destruct (focused_async_write hass _ _
              (Dir {[ "blueprints" := Dir {[ "script" := Dir ∅ ]} ]})
              (Dir {[ "blueprints" :=
                        Dir {[ "script" := Dir {[ "morning_routine.yaml" := File c0 ]} ]} ]})
              w3 script_blueprint_path c0 overwrite Hfoc3)
    as (w4 & E4 & Hfoc4);
    [discriminate | left; vm_compute; reflexivity
     | vm_compute; reflexivity | vm_compute; reflexivity |].
  rewrite (bind_ok _ _ _ _ _ E4).
  destruct (focused_new_file hass _ _ w4 "automations.yaml" c1 overwrite Hfoc4)
    as (w5 & E5 & Hfoc5); [vm_compute; reflexivity|].
  rewrite (bind_ok _ _ _ _ _ E5).
  destruct (focused_new_file hass _ _ w5 "scripts.yaml" c2 overwrite Hfoc5)
    as (w6 & E6 & Hfoc6); [vm_compute; reflexivity|].
  rewrite (bind_ok _ _ _ _ _ E6).
  destruct (focused_new_file hass _ _ w6 "README.md" c3 overwrite Hfoc6)
    as (w7 & E7 & Hfoc7); [vm_compute; reflexivity|].
  rewrite (bind_ok _ _ _ _ _ E7).
  intros Hservice. exists w7, c0. split; [reflexivity|].
  split; [apply Hservice; reflexivity|].
  split; [|split; [reflexivity | exact Hkeys]].
  rewrite (focused_lookup _ _ _ script_blueprint_path Hfoc7).
  vm_compute. reflexivity.
Qed.

Lemma morning_routine_script_blueprint_witness :
  exists w' content,
    generate_package demo_hass
      [("name", PStr "Morning Routine"); ("include_blueprint", PBool true);
       ("blueprint_domain", PStr "script")] empty_world
    = (Ok tt, w')
    /\ lookup_path (["config"; "packages"; "morning_routine"] ++ script_blueprint_path)
         (fs w')
       = Some (File content)
    /\ In "sequence" (all_keys content) /\ ~ In "trigger" (all_keys content).
Proof.
  destruct (morning_routine_script_blueprint demo_hass false empty_world)
    as (w' & content & _ & Hservice & Hfile & _ & Hseq & _ & Htrig).
  - split; vm_compute; reflexivity.
  - exists w', content. split; [apply Hservice; reflexivity|].
    split; [exact Hfile|]. split; assumption.
Defined.

(** ** [str.replace] and lines *)

Lemma starts_with_before_nl old l rest :
  all_bytes not_nl old = true ->
  starts_with old (l +:+ NL +:+ rest) = starts_with old l.
Proof.
  revert l. induction old as [|a o IH]; intros l H; [reflexivity|].
  cbn [all_bytes] in H. apply andb_true_iff in H as [Ha Ho].
  destruct l as [|b l].
  - rewrite append_nil. unfold NL. rewrite append_cons. cbn [starts_with].
    replace (Ascii.eqb a (ascii_of_N 10)) with false; [reflexivity|].
    symmetry. apply Ascii.eqb_neq. intros ->. discriminate.
  - rewrite append_cons. cbn [starts_with].
    destruct (Ascii.eqb a b); [apply IH; exact Ho | reflexivity].
Qed.

Lemma starts_with_length old l :
  starts_with old l = true -> (String.length old <= String.length l)%nat.
Proof.
  revert l. induction old as [|a o IH]; intros l H; [apply Nat.le_0_l|].
  destruct l as [|b l]; [discriminate|]. cbn [starts_with] in H.
  destruct (Ascii.eqb a b); [|discriminate].
  cbn [String.length]. apply le_n_S, IH, H.
Qed.

(** No occurrence of a one-line pattern runs over a line break. *)
Lemma replace_from_line a o new l rest k :
  all_bytes not_nl (String a o) = true ->
  all_bytes not_nl l = true ->
  (k <= String.length l)%nat ->
  replace_from k (String a o) new (l +:+ NL +:+ rest)
  = replace_from k (String a o) new l +:+ NL +:+ replace_from 0 (String a o) new rest.
Proof.
  intros Hold. revert k. induction l as [|c l IH]; intros k Hl Hk.
  - assert (k = 0%nat) as -> by (cbn in Hk; lia).
    rewrite append_nil.
    pose proof (starts_with_before_nl (String a o) EmptyString rest Hold) as E.
    rewrite append_nil in E. unfold NL in *. rewrite append_cons, append_nil in *.
    cbn [replace_from]. rewrite E. reflexivity.
  - cbn [all_bytes] in Hl. apply andb_true_iff in Hl as [Hc Hl].
    rewrite append_cons. cbn [replace_from]. destruct k as [|k].
    + pose proof (starts_with_before_nl (String a o) (String c l) rest Hold) as E.
      rewrite append_cons in E. rewrite E.
      destruct (starts_with (String a o) (String c l)) eqn:S.
      * apply starts_with_length in S. cbn [String.length] in S.
        rewrite (IH (String.length o) Hl) by lia.
        rewrite append_assoc. reflexivity.
      * rewrite (IH 0%nat Hl) by lia. reflexivity.
    + cbn [String.length] in Hk. apply IH; [exact Hl | lia].
Qed.

Lemma replace_unlines a o new ls :
  all_bytes not_nl (String a o) = true ->
  Forall line_ok ls ->
  replace (String a o) new (unlines ls) = unlines (map (replace (String a o) new) ls).
Proof.
  intros Hold. induction 1 as [|l ls Hl _ IH]; [reflexivity|].
  cbn [unlines map]. unfold replace in *.
  rewrite (replace_from_line a o new l _ 0 Hold Hl) by lia.
  rewrite IH. reflexivity.
Qed.

Lemma replace_from_ok a o new s k :
  all_bytes not_nl new = true -> all_bytes not_nl s = true ->
  all_bytes not_nl (replace_from k (String a o) new s) = true.
Proof.
  intros Hnew. revert k. induction s as [|c s IH]; intros k Hs; [reflexivity|].
  cbn [all_bytes] in Hs. apply andb_true_iff in Hs as [Hc Hs].
  cbn [replace_from]. destruct k as [|k]; [|apply IH; exact Hs].
  destruct (starts_with (String a o) (String c s)).
  - rewrite all_bytes_app, Hnew. apply IH. exact Hs.
  - cbn [all_bytes]. rewrite Hc. apply IH. exact Hs.
Qed.

Lemma unquote_token_ok l : line_ok l -> line_ok (unquote_token l).
Proof.
  intros H. unfold line_ok, unquote_token, replace.
  apply replace_from_ok; [reflexivity|]. apply replace_from_ok; [reflexivity | exact H].
Qed.

(** The post-processing of the blueprint text works line by line. *)
Lemma build_blueprint_lines name description domain :
  text_lines (build_blueprint_yaml name description domain)
  = map unquote_token (block_lines (PDict (blueprint_dict name description domain)))
    ++ [EmptyString].
Proof.
  unfold build_blueprint_yaml, safe_dump.
  assert (blueprint_dict name description domain <> []) as Hne
    by (unfold blueprint_dict; discriminate).
  destruct (blueprint_dict name description domain) as [|kx rest] eqn:E; [congruence|].
  pose proof (block_lines_ok (PDict (kx :: rest))) as Hok.
  cbv beta iota zeta.
  change ("'" +:+ INPUT_TOKEN +:+ "'") with (String "'" (INPUT_TOKEN +:+ "'")) in *.
  rewrite (replace_unlines "'" (INPUT_TOKEN +:+ "'") INPUT_TOKEN _ eq_refl Hok).
  assert (Forall line_ok
            (map (replace (String "'" (INPUT_TOKEN +:+ "'")) INPUT_TOKEN)
               (block_lines (PDict (kx :: rest))))) as Hok1.
  { apply Forall_map. eapply Forall_impl; [exact Hok|].
    intros l Hl. unfold line_ok, replace. apply replace_from_ok; [reflexivity | exact Hl]. }
  change (DQUOTE +:+ INPUT_TOKEN +:+ DQUOTE)
    with (String (ascii_of_N 34) (INPUT_TOKEN +:+ DQUOTE)).
  rewrite (replace_unlines (ascii_of_N 34) (INPUT_TOKEN +:+ DQUOTE) INPUT_TOKEN _ eq_refl Hok1).
  rewrite text_lines_unlines.
  - rewrite map_map. reflexivity.
  - apply Forall_map. eapply Forall_impl; [exact Hok1|].
    intros l Hl. unfold line_ok, replace. apply replace_from_ok; [reflexivity | exact Hl].
Qed.

(** ** Claims about the blueprint text *)

Lemma blueprint_dict_automation name description :
  blueprint_dict name description "automation"
  = [("blueprint",
      PDict (blueprint_head name description
             ++ [blueprint_trigger; blueprint_action name]))].
Proof. reflexivity. Qed.

Lemma block_lines_dict_app a b :
  block_lines (PDict (a ++ b)) = block_lines (PDict a) ++ block_lines (PDict b).
Proof. cbn [block_lines]. apply flat_map_app. Qed.

Lemma blueprint_trigger_lines :
  block_lines (PDict [blueprint_trigger])
  = ["trigger:"; "- platform: state"]
    ++ ["  entity_id: '!input target_entity'"] ++ ["  to: 'on'"].
Proof. vm_compute. reflexivity. Qed.

Lemma block_lines_nested k entries :
  entries <> [] ->
  block_lines (PDict [(k, PDict entries)])
  = (represent_str k +:+ ":") :: map indent_line (block_lines (PDict entries)).
Proof.
  intros H. destruct entries as [|kx rest]; [congruence|].
  cbn [block_lines flat_map]. rewrite app_nil_r. reflexivity.
Qed.

Lemma blueprint_automation_lines name description :
  exists before after,
    block_lines (PDict (blueprint_dict name description "automation"))
    = before ++ ["    entity_id: '!input target_entity'"] ++ after.
Proof.
  rewrite blueprint_dict_automation.
  rewrite block_lines_nested by (unfold blueprint_head; discriminate).
  change [blueprint_trigger; blueprint_action name]
    with ([blueprint_trigger] ++ [blueprint_action name]).
  rewrite !block_lines_dict_app, blueprint_trigger_lines, !map_app.
  exists ((represent_str "blueprint" +:+ ":")
          :: map indent_line (block_lines (PDict (blueprint_head name description)))
             ++ map indent_line ["trigger:"; "- platform: state"]),
    (map indent_line ["  to: 'on'"]
     ++ map indent_line (block_lines (PDict [blueprint_action name]))).
  change (map indent_line ["  entity_id: '!input target_entity'"])
    with ["    entity_id: '!input target_entity'"].
  rewrite <- !app_assoc. reflexivity.
Qed.

(** C9: in the blueprint of an automation the serializer alone writes the
    input reference quoted, since a plain scalar cannot start with [!]; the
    text that [build_blueprint_yaml] returns has, on that very line, the
    reference without the quotes, the other lines having gone through the
    same two substitutions. *)
Theorem input_token_unquoted (name : string) (description : option string) :
  represent_str INPUT_TOKEN = "'!input target_entity'"
  /\ exists before after,
       text_lines (safe_dump (blueprint_dict name description "automation"))
       = before ++ ["    entity_id: '!input target_entity'"] ++ after
       /\ text_lines (build_blueprint_yaml name description "automation")
          = map unquote_token before
            ++ ["    entity_id: !input target_entity"]
            ++ map unquote_token after.
Proof.
  split; [vm_compute; reflexivity|].
  destruct (blueprint_automation_lines name description) as (before & after & E).
  exists before, (after ++ [EmptyString]). split.
  - unfold safe_dump. rewrite blueprint_dict_automation.
    rewrite <- blueprint_dict_automation.
    rewrite text_lines_unlines by apply block_lines_ok.
    rewrite E, <- !app_assoc. reflexivity.
  - rewrite build_blueprint_lines, E, !map_app, <- !app_assoc. reflexivity.
Qed.

(** * Further properties of the code *)

(** ** Slugs as file names *)

Lemma split_on_plain sep acc s :
  all_bytes (fun c => negb (Ascii.eqb c sep)) s = true ->
  split_on sep acc s = [String.rev acc +:+ s].
Proof.
  revert acc. induction s as [|c s IH]; intros acc H.
  - cbn [split_on]. rewrite append_empty_r. reflexivity.
  - cbn [all_bytes] in H. apply andb_true_iff in H as [Hc Hs].
    cbn [split_on]. apply negb_true_iff in Hc. rewrite Hc.
    rewrite (IH (String c acc) Hs), rev_cons, append_assoc. reflexivity.
Qed.

Lemma path_parts_name s : simple_name s -> path_parts s = [s].
Proof.
  intros (Hs & Hne & Hdot). unfold path_parts.
  rewrite (split_on_plain "/" EmptyString s Hs).
  change (String.rev EmptyString +:+ s) with s.
  rewrite filter_cons_True by (split; assumption). reflexivity.
Qed.

Lemma starts_with_slash s : all_bytes not_slash s = true -> starts_with "/" s = false.
Proof.
  destruct s as [|c s]; [reflexivity|]. cbn [all_bytes starts_with]. intros H.
  apply andb_true_iff in H as [Hc _]. unfold not_slash in Hc.
  apply negb_true_iff in Hc. rewrite Ascii.eqb_sym, Hc. reflexivity.
Qed.

Lemma path_join_name base s : simple_name s -> path_join base s = base ++ [s].
Proof.
  intros H. apply path_join_parts.
  - apply starts_with_slash, H.
  - apply path_parts_name, H.
Qed.

Lemma slug_char_not_slash c : is_slug_char c = true -> not_slash c = true.
Proof.
  intros H. apply slug_char_code in H. unfold not_slash.
  apply negb_true_iff, Ascii.eqb_neq. intros ->. change (code "/") with 47 in H. lia.
Qed.

Lemma word_simple_name w : is_word w -> simple_name w.
Proof.
  intros [Hne Hall]. split; [|split].
  - exact (all_bytes_weaken _ _ _ slug_char_not_slash Hall).
  - exact Hne.
  - intros ->. discriminate.
Qed.

Lemma word_yaml_simple_name w : is_word w -> simple_name (w +:+ ".yaml").
Proof.
  intros [Hne Hall]. split; [|split].
  - rewrite all_bytes_app, (all_bytes_weaken _ _ _ slug_char_not_slash Hall).
    reflexivity.
  - destruct w; [congruence | discriminate].
  - destruct w as [|c [|d w]]; [congruence | discriminate | discriminate].
Qed.

Lemma os_name_simple s : os_name s = true -> simple_name s.
Proof.
  unfold os_name, simple_name. rewrite !andb_true_iff, !negb_true_iff.
  intros [[[[H1 H2] _] H4] _]. split; [|split].
  - refine (all_bytes_weaken _ _ _ _ H4). intros c Hc.
    apply andb_true_iff in Hc as [Hc _]. unfold not_slash.
    apply negb_true_iff in Hc. apply negb_true_iff, Ascii.eqb_neq. intros ->.
    discriminate Hc.
  - intros ->. discriminate H1.
  - intros ->. discriminate H2.
Qed.

Lemma os_path_names p s : os_path p = true -> s ∈ p -> os_name s = true.
Proof.
  unfold os_path. intros H Hs. apply andb_true_iff in H as [H _].
  rewrite forallb_forall in H. apply H, list_elem_of_In, Hs.
Qed.

(** X1: a slug is one path component, whatever the text it is made from, and
    so is the slug with [.yaml] appended: joined to a directory, either names
    an entry of that very directory. *)
Theorem slug_is_path_component (base : path) (value : string) :
  path_join base (slugify value) = base ++ [slugify value]
  /\ path_join base (slugify value +:+ ".yaml") = base ++ [slugify value +:+ ".yaml"]
  /\ parent (path_join base (slugify value +:+ ".yaml")) = base.
Proof.
  pose proof (slugify_is_word value) as Hw.
  rewrite (path_join_name base _ (word_simple_name _ Hw)).
  rewrite (path_join_name base _ (word_yaml_simple_name _ Hw)).
  rewrite parent_snoc. auto.
Qed.

(** ** [humanize] *)

Lemma space_runs_cons b c r :
  space_runs b (String c r)
  = if is_underscore_or_hyphen c
    then (if b then EmptyString else " ") +:+ space_runs true r
    else String c (space_runs false r).
Proof.
  unfold space_runs, is_underscore_or_hyphen.
  cbn [sub_runs underscore_or_hyphen_len].
  destruct (is_byte 95 c || is_byte 45 c); reflexivity.
Qed.

Lemma alnum_code c :
  is_alnum c = true ->
  (97 <= code c /\ code c <= 122) \/ (65 <= code c /\ code c <= 90)
  \/ (48 <= code c /\ code c <= 57).
Proof.
  unfold is_alnum, is_lower_az, is_upper_az, is_digit.
  rewrite !orb_true_iff, !between_spec. tauto.
Qed.

Lemma alnum_no_separator c : is_alnum c = true -> is_underscore_or_hyphen c = false.
Proof.
  intros H. apply alnum_code in H. unfold is_underscore_or_hyphen.
  rewrite !is_byte_false by lia. reflexivity.
Qed.

Lemma alnum_not_space c :
  is_alnum c = true -> code c < 128 /\ is_ascii_space c = false.
Proof.
  intros H. apply alnum_code in H. split; [lia|].
  apply ascii_space_false. lia.
Qed.

Lemma space_runs_word b w t :
  all_bytes is_alnum w = true ->
  space_runs b (w +:+ t)
  = w +:+ space_runs (match w with EmptyString => b | _ => false end) t.
Proof.
  revert b. induction w as [|c w IH]; intros b H.
  - rewrite !append_nil. reflexivity.
  - cbn [all_bytes] in H. apply andb_true_iff in H as [Hc Hw].
    rewrite !append_cons, space_runs_cons, (alnum_no_separator c Hc), (IH false Hw).
    destruct w; reflexivity.
Qed.

Lemma space_runs_gap_more r t :
  all_bytes is_underscore_or_hyphen r = true ->
  space_runs true (r +:+ t) = space_runs true t.
Proof.
  induction r as [|c r IH]; intros H.
  - rewrite append_nil. reflexivity.
  - cbn [all_bytes] in H. apply andb_true_iff in H as [Hc Hr].
    rewrite append_cons, space_runs_cons, Hc, append_nil. exact (IH Hr).
Qed.

Lemma space_runs_gap r t :
  is_gap is_underscore_or_hyphen r ->
  space_runs false (r +:+ t) = " " +:+ space_runs true t.
Proof.
  intros [Hne H]. destruct r as [|c r]; [congruence|].
  cbn [all_bytes] in H. apply andb_true_iff in H as [Hc Hr].
  rewrite append_cons, space_runs_cons, Hc, (space_runs_gap_more r t Hr). reflexivity.
Qed.

Lemma space_runs_weave b w0 rest :
  is_title_word w0 ->
  Forall (fun rw => is_gap is_underscore_or_hyphen (fst rw) /\ is_title_word (snd rw))
    rest ->
  space_runs b (weave w0 rest) = weave w0 (spaced rest).
Proof.
  intros Hw0 Hrest. revert b w0 Hw0.
  induction Hrest as [|[r w] rest [Hr Hw] _ IH]; intros b w0 [Hne Hall];
    cbn [fst snd weave spaced map] in *.
  - rewrite <- (append_empty_r w0) at 1. rewrite (space_runs_word b w0 _ Hall).
    rewrite append_empty_r. destruct w0; reflexivity.
  - rewrite (space_runs_word b w0 _ Hall).
    destruct w0 as [|c w0]; [congruence|].
    rewrite (space_runs_gap r _ Hr).
    rewrite (IH true w Hw). reflexivity.
Qed.

Lemma weave_ends (P : ascii -> bool) w0 rest :
  w0 <> EmptyString -> all_bytes P w0 = true ->
  Forall (fun rw => snd rw <> EmptyString /\ all_bytes P (snd rw) = true) rest ->
  exists c mid s e,
    weave w0 rest = String c mid /\ weave w0 rest = s +:+ String e EmptyString
    /\ P c = true /\ P e = true.
Proof.
  intros Hne Hall Hrest. revert w0 Hne Hall.
  induction Hrest as [|[r w] rest [Hwne Hw] _ IH]; intros w0 Hne Hall;
    cbn [fst snd weave] in *.
  - destruct (snoc_decompose w0 Hne) as (s & e & E).
    destruct w0 as [|c w0]; [congruence|].
    exists c, w0, s, e. repeat split; try assumption.
    + cbn [all_bytes] in Hall. apply andb_true_iff in Hall. tauto.
    + rewrite E in Hall. exact (all_bytes_last _ _ _ Hall).
  - destruct (IH w Hwne Hw) as (c' & mid' & s & e & _ & E & _ & He).
    destruct w0 as [|c w0]; [congruence|].
    exists c, (w0 +:+ r +:+ weave w rest), (String c w0 +:+ r +:+ s), e.
    repeat split.
    + rewrite E, !append_assoc. reflexivity.
    + cbn [all_bytes] in Hall. apply andb_true_iff in Hall. tauto.
    + exact He.
Qed.

Lemma strip_ends_ascii c mid s e :
  String c mid = s +:+ String e EmptyString ->
  code c < 128 -> is_ascii_space c = false ->
  code e < 128 -> is_ascii_space e = false ->
  strip (String c mid) = String c mid.
Proof.
  intros Heq Hc Hc' He He'. unfold strip. rewrite lstrip_id by assumption.
  rewrite Heq. apply rstrip_id; assumption.
Qed.

Lemma title_from_space b w t :
  title_from b (w +:+ " " +:+ t) = title_from b w +:+ " " +:+ title_from false t.
Proof.
  revert b. induction w as [|c w IH]; intros b.
  - rewrite !append_nil. cbn [title_from]. rewrite append_cons, append_nil.
    destruct b; reflexivity.
  - rewrite append_cons. cbn [title_from]. rewrite IH, append_cons. reflexivity.
Qed.

Lemma title_weave w0 rest :
  title (weave w0 (spaced rest)) = weave (title w0) (titled rest).
Proof.
  unfold title. revert w0. induction rest as [|[r w] rest IH]; intros w0;
    cbn [weave spaced titled map fst snd]; [reflexivity|].
  rewrite title_from_space. fold (spaced rest). fold (titled rest).
  rewrite IH. reflexivity.
Qed.

Lemma spaced_words rest :
  Forall (fun rw => is_gap is_underscore_or_hyphen (fst rw) /\ is_title_word (snd rw))
    rest ->
  Forall (fun rw => snd rw <> EmptyString /\ all_bytes is_alnum (snd rw) = true)
    (spaced rest).
Proof.
  induction 1 as [|[r w] rest [_ Hw] _ IH]; constructor; [exact Hw | exact IH].
Qed.

(** X2: [humanize] on words of letters and digits that are joined by runs of
    underscores and hyphens: every run becomes one space and every word is
    put in title case. *)
Theorem humanize_words (w0 : string) (rest : list (string * string)) :
  is_title_word w0 ->
  Forall (fun rw => is_gap is_underscore_or_hyphen (fst rw) /\ is_title_word (snd rw))
    rest ->
  humanize (weave w0 rest) = weave (title w0) (titled rest).
Proof.
  intros Hw0 Hrest. unfold humanize.
  fold (space_runs false (weave w0 rest)).
  rewrite (space_runs_weave false w0 rest Hw0 Hrest).
  destruct Hw0 as [Hne Hall].
  destruct (weave_ends is_alnum w0 (spaced rest) Hne Hall (spaced_words rest Hrest))
    as (c & mid & s & e & Hfirst & Hlast & Hc & He).
  apply alnum_not_space in Hc, He.
  assert (strip (weave w0 (spaced rest)) = weave w0 (spaced rest)) as ->.
  { rewrite Hfirst. rewrite Hfirst in Hlast.
    apply (strip_ends_ascii c mid s e Hlast); tauto. }
  rewrite <- title_weave. rewrite Hfirst. reflexivity.
Qed.

Lemma humanize_words_witness :
  humanize "kitchen_lights" = "Kitchen Lights".
Proof.
  apply (humanize_words "kitchen" [("_", "lights")]).
  - split; [discriminate | reflexivity].
  - repeat constructor; cbn [fst snd]; try discriminate; reflexivity.
Defined.

Lemma space_runs_blank b s :
  all_bytes is_separator_or_space s = true ->
  all_bytes is_ascii_space (space_runs b s) = true.
Proof.
  revert b. induction s as [|c s IH]; intros b H; [reflexivity|].
  cbn [all_bytes] in H. apply andb_true_iff in H as [Hc Hs].
  rewrite space_runs_cons. unfold is_separator_or_space in Hc.
  destruct (is_underscore_or_hyphen c).
  - rewrite all_bytes_app, (IH true Hs). destruct b; reflexivity.
  - cbn [orb] in Hc. cbn [all_bytes]. rewrite Hc, (IH false Hs). reflexivity.
Qed.

(** X3: a text made of underscores, hyphens and ASCII white space only, the
    empty text among them, has the fall-back title [Automation]. *)
Theorem humanize_fallback (value : string) :
  all_bytes is_separator_or_space value = true ->
  humanize value = "Automation".
Proof.
  intros H. unfold humanize. fold (space_runs false value).
  rewrite (strip_ascii_spaces _ (space_runs_blank false value H)). reflexivity.
Qed.

Lemma humanize_fallback_witness : humanize "_- _" = "Automation".
Proof. apply humanize_fallback. reflexivity. Defined.

Lemma space_runs_no_separator b s :
  all_bytes no_separator (space_runs b s) = true.
Proof.
  revert b. induction s as [|c s IH]; intros b; [reflexivity|].
  rewrite space_runs_cons.
  destruct (is_underscore_or_hyphen c) eqn:E.
  - rewrite all_bytes_app, IH. destruct b; reflexivity.
  - cbn [all_bytes]. rewrite IH. unfold no_separator. rewrite E. reflexivity.
Qed.

Lemma case_no_separator c :
  no_separator c = true ->
  no_separator (lower_byte c) = true /\ no_separator (upper_byte c) = true.
Proof.
  destruct c as [[] [] [] [] [] [] [] []]; vm_compute; intros H; split;
    first [reflexivity | exact H].
Qed.

Lemma title_from_no_separator b s :
  all_bytes no_separator s = true -> all_bytes no_separator (title_from b s) = true.
Proof.
  revert b. induction s as [|c s IH]; intros b H; [reflexivity|].
  cbn [all_bytes] in H. apply andb_true_iff in H as [Hc Hs].
  cbn [title_from all_bytes]. rewrite (IH _ Hs).
  destruct (case_no_separator c Hc) as [Hl Hu].
  destruct b; [rewrite Hl | rewrite Hu]; reflexivity.
Qed.

(** X4: whatever the text, its title is not empty and holds no underscore
    and no hyphen. *)
Theorem humanize_no_separators (value : string) :
  humanize value <> EmptyString
  /\ all_bytes no_separator (humanize value) = true.
Proof.
  unfold humanize. fold (space_runs false value).
  pose proof (all_bytes_strip _ _ (space_runs_no_separator false value)) as H.
  destruct (strip (space_runs false value)) as [|c r] eqn:E.
  - split; [discriminate | reflexivity].
  - split; [discriminate|]. apply title_from_no_separator. exact H.
Qed.

(** ** The guarded writer: failures and other files *)

Lemma make_dirs_on_file p n c :
  lookup_path p n = Some (File c) -> make_dirs p n = Raise (FileExistsError "17").
Proof.
  revert n. induction p as [|x p IH]; intros n H.
  - cbn [lookup_path] in H. injection H as ->. reflexivity.
  - apply lookup_path_cons_inv in H as (m & child & -> & Hx & Hp).
    cbn [make_dirs]. rewrite Hx. cbn [from_option id]. rewrite (IH child Hp).
    reflexivity.
Qed.

Lemma lookup_below_file x q c : lookup_path (x :: q) (File c) = None.
Proof. reflexivity. Qed.

(** Creating directories leaves every regular file as it is. *)
Lemma make_dirs_keeps_files p q n n' c :
  make_dirs p n = Ok n' ->
  lookup_path q n = Some (File c) -> lookup_path q n' = Some (File c).
Proof.
  revert q n n'. induction p as [|x p IH]; intros q n n' Hmk Hq.
  - destruct n; cbn [make_dirs] in Hmk; [discriminate|]. injection Hmk as <-. exact Hq.
  - destruct n as [c0|m]; cbn [make_dirs] in Hmk; [discriminate|].
    destruct (make_dirs p (default (Dir ∅) (m !! x))) as [child|e] eqn:E;
      [|discriminate].
    injection Hmk as <-.
    destruct q as [|y q]; [discriminate Hq|].
    cbn [lookup_path] in *.
    destruct (decide (y = x)) as [->|Hne].
    + rewrite lookup_insert_eq.
      destruct (m !! x) as [ch|]; [|discriminate Hq].
      exact (IH q ch child E Hq).
    + rewrite lookup_insert_ne by congruence. exact Hq.
Qed.

(** Writing a file leaves every other regular file as it is. *)
Lemma write_file_keeps_files p q content n n' c :
  write_file p content n = Ok n' -> q <> p ->
  lookup_path q n = Some (File c) -> lookup_path q n' = Some (File c).
Proof.
  revert q n n'. induction p as [|x p IH]; intros q n n' Hwr Hne Hq.
  - destruct n as [c0|m]; cbn [write_file] in Hwr; [|discriminate].
    destruct q as [|y q]; [congruence | discriminate Hq].
  - destruct n as [c0|m]; [discriminate Hwr|].
    destruct q as [|y q]; [discriminate Hq|].
    cbn [lookup_path] in Hq.
    destruct (decide (y = x)) as [->|Hyx].
    + destruct (m !! x) as [ch|] eqn:Hx; [|discriminate Hq].
      destruct p as [|x' p].
      * cbn [write_file] in Hwr. rewrite Hx in Hwr.
        destruct ch as [c1|m1]; [|discriminate Hwr].
        destruct q as [|z q]; [congruence | discriminate Hq].
      * change (write_file (x :: x' :: p) content (Dir m))
          with (match m !! x with
                | Some child =>
                    match write_file (x' :: p) content child with
                    | Ok child' => Ok (Dir (<[x := child']> m))
                    | Raise e => Raise e
                    end
                | None => Raise FileNotFoundError
                end) in Hwr.
        rewrite Hx in Hwr.
        destruct (write_file (x' :: p) content ch) as [ch'|e] eqn:E; [|discriminate].
        injection Hwr as <-. cbn [lookup_path]. rewrite lookup_insert_eq.
        apply (IH q ch ch' E); [congruence | exact Hq].
    + assert (exists child, n' = Dir (<[x := child]> m)) as [child ->].
      { destruct p as [|x' p].
        - cbn [write_file] in Hwr.
          destruct (m !! x) as [[?|?]|]; try discriminate; injection Hwr as <-; eauto.
        - change (write_file (x :: x' :: p) content (Dir m))
            with (match m !! x with
                  | Some child =>
                      match write_file (x' :: p) content child with
                      | Ok child' => Ok (Dir (<[x := child']> m))
                      | Raise e => Raise e
                      end
                  | None => Raise FileNotFoundError
                  end) in Hwr.
          destruct (m !! x) as [ch|]; [|discriminate].
          destruct (write_file (x' :: p) content ch); [|discriminate].
          injection Hwr as <-. eauto. }
      cbn [lookup_path]. rewrite lookup_insert_ne by congruence. exact Hq.
Qed.

(** When the parents of [p] could be made and the write of [p] failed all
    the same, no directory was made. *)
Lemma write_fails_after_mkdir p content n n1 e :
  make_dirs (parent p) n = Ok n1 -> write_file p content n1 = Raise e -> n1 = n.
Proof.
  intros Hmk Hwr. destruct (decide (p = [])) as [->|Hne].
  - cbn [parent removelast] in Hmk. destruct n; cbn [make_dirs] in Hmk; congruence.
  - destruct (list_snoc_inv p Hne) as (d & f & ->). rewrite parent_snoc in Hmk.
    pose proof (make_dirs_is_dir d n n1 Hmk) as Hd.
    destruct (is_dir_at (d ++ [f]) n1) eqn:Hf.
    + unfold is_dir_at in Hf.
      rewrite (make_dirs_lookup d [f] n n1 Hmk) in Hf. cbn [lookup_path] in Hf.
      unfold entries_at in Hf.
      destruct (lookup_path d n) as [[c|m]|] eqn:E;
        try (rewrite lookup_empty in Hf; discriminate Hf).
      rewrite (make_dirs_existing d n m E) in Hmk. congruence.
    + rewrite (write_file_child d f content n1 _ Hd Hf) in Hwr. discriminate.
Qed.

Lemma write_raise_fs p content o w e w' :
  _write p content o w = (Raise e, w') -> fs w' = fs w.
Proof.
  unfold _write, bind, path_exists, raise, record_call. cbn [fs calls].
  destruct (bool_decide (is_Some (lookup_path p (fs w))) && negb o).
  - intros [= _ <-]. reflexivity.
  - unfold path_mkdir, record_call. cbn [fs calls].
    destruct (make_dirs (parent p) (fs w)) as [n1|e1] eqn:Hmk.
    + unfold path_write_text, record_call. cbn [fs calls].
      destruct (write_file p content n1) as [n2|e2] eqn:Hwr.
      * discriminate.
      * intros [= _ <-]. cbn [fs]. exact (write_fails_after_mkdir _ _ _ _ _ Hmk Hwr).
    + intros [= _ <-]. reflexivity.
Qed.

Lemma async_write_raise_fs hass p content o w e w' :
  _async_write_file hass p content o w = (Raise e, w') -> fs w' = fs w.
Proof.
  unfold _async_write_file, except_FileExistsError. intros H.
  destruct (_write p content o w) as [[[]|e1] w1] eqn:E; [discriminate H|].
  apply write_raise_fs in E.
  destruct e1; unfold raise in H; injection H as _ <-; exact E.
Qed.

(** X5: for a path of file names that the operating system takes as they
    are (none empty, [.] or [..], none with a slash or a NUL byte, none
    over 255 bytes, the path within 4095), a guarded write that fails,
    whether refused by the writer, stopped by a regular file above the path
    or by a directory at the path, leaves the file system as it was: no
    directory is made and no file is changed. *)
Theorem failed_write_changes_nothing
    (hass : HomeAssistant) (p : path) (content : string) (overwrite : bool)
    (w w' : world) (e : exn) :
  os_path p = true ->
  _async_write_file hass p content overwrite w = (Raise e, w') ->
  fs w' = fs w.
Proof. intros _. apply async_write_raise_fs. Qed.

Lemma failed_write_changes_nothing_witness :
  fs (snd (_async_write_file demo_hass ["config"] "text" true
             {| fs := Dir {[ "config" := Dir ∅ ]}; calls := [] |}))
  = Dir {[ "config" := Dir ∅ ]}.
Proof.
  apply (failed_write_changes_nothing demo_hass ["config"] "text" true
           {| fs := Dir {[ "config" := Dir ∅ ]}; calls := [] |} _ IsADirectoryError).
  - reflexivity.
  - vm_compute. reflexivity.
Defined.

Lemma async_write_inv hass p c o w w' :
  _async_write_file hass p c o w = (Ok tt, w') ->
  exists n1, make_dirs (parent p) (fs w) = Ok n1 /\ write_file p c n1 = Ok (fs w').
Proof.
  unfold _async_write_file, except_FileExistsError. intros H.
  destruct (_write p c o w) as [[[]|e] w1] eqn:E; [|destruct e; discriminate H].
  injection H as ->. unfold _write in E.
  apply bind_ok_inv in E as (present & w1 & E1 & E).
  apply path_exists_inv in E1 as [_ F1].
  destruct (present && negb o); [discriminate E|].
  apply bind_ok_inv in E as ([] & w2 & E2 & E3).
  apply path_mkdir_ok_inv in E2. apply path_write_text_ok_inv in E3.
  rewrite F1 in E2. eauto.
Qed.

Lemma async_write_keeps_files hass p c o w w' q c' :
  _async_write_file hass p c o w = (Ok tt, w') -> q <> p ->
  lookup_path q (fs w) = Some (File c') -> lookup_path q (fs w') = Some (File c').
Proof.
  intros H Hne Hq. apply async_write_inv in H as (n1 & Hmk & Hwr).
  apply (write_file_keeps_files p q c n1 _ c' Hwr Hne).
  exact (make_dirs_keeps_files _ q _ _ c' Hmk Hq).
Qed.

(** X6: a guarded write that succeeds changes one file only.  For paths of
    file names that the operating system takes as they are (so that two
    paths that differ name two places), every regular file at another path
    keeps its content, and every directory stays one. *)
Theorem write_keeps_other_files
    (hass : HomeAssistant) (p : path) (content : string) (overwrite : bool)
    (w w' : world) :
  os_path p = true ->
  _async_write_file hass p content overwrite w = (Ok tt, w') ->
  (forall q c, os_path q = true -> q <> p ->
     lookup_path q (fs w) = Some (File c) -> lookup_path q (fs w') = Some (File c))
  /\ (forall q, os_path q = true ->
        is_dir_at q (fs w) = true -> is_dir_at q (fs w') = true).
Proof.
  intros _ H. split.
  - intros q c _ Hne Hq. exact (async_write_keeps_files _ _ _ _ _ _ _ _ H Hne Hq).
  - intros q _. exact (proj2 (async_write_ok _ _ _ _ _ _ H) q).
Qed.

Lemma write_keeps_other_files_witness :
  lookup_path ["config"; "b.yaml"]
    (fs (snd (_async_write_file demo_hass ["config"; "a.yaml"] "new" false
                {| fs := Dir {[ "config" := Dir {[ "b.yaml" := File "old" ]} ]};
                   calls := [] |})))
  = Some (File "old").
Proof.
  refine (proj1 (write_keeps_other_files demo_hass ["config"; "a.yaml"] "new" false
                   {| fs := Dir {[ "config" := Dir {[ "b.yaml" := File "old" ]} ]};
                      calls := [] |} _ _ _) _ _ _ _ _).
  - reflexivity.
  - vm_compute. reflexivity.
  - reflexivity.
  - discriminate.
  - vm_compute. reflexivity.
Defined.

Lemma lookup_file_prefix d q n c :
  q <> [] -> lookup_path d n = Some (File c) -> lookup_path (d ++ q) n = None.
Proof.
  intros Hq H. rewrite lookup_path_app, H. destruct q; [congruence | reflexivity].
Qed.

(** X7: when the parent of the path is a regular file, the writer does not
    report it as such: [Path.mkdir] raises a [FileExistsError] whose first
    argument is the error number 17, the writer takes it for its own
    refusal, and the message names [17] where the path should be.  The file
    system is as before. *)
Theorem parent_file_reported_as_17
    (hass : HomeAssistant) (d : path) (f content c : string) (overwrite : bool)
    (w : world) :
  lookup_path d (fs w) = Some (File c) ->
  exists w',
    _async_write_file hass (d ++ [f]) content overwrite w
    = (Raise (HomeAssistantError "Automation Helper refused to overwrite 17"), w')
    /\ fs w' = fs w.
Proof.
  intros H.
  unfold _async_write_file, except_FileExistsError, _write, bind, path_exists, raise,
    record_call. cbn [fs calls].
  rewrite (lookup_file_prefix d [f] _ c) by (congruence || exact H).
  rewrite bool_decide_eq_false_2 by (intros [? ?]; discriminate).
  cbn [andb]. unfold path_mkdir, record_call. cbn [fs calls].
  rewrite parent_snoc, (make_dirs_on_file d _ c H).
  eexists. split; reflexivity.
Qed.

Lemma parent_file_reported_as_17_witness :
  exists w',
    _async_write_file demo_hass (["config"] ++ ["a.yaml"]) "text" false
      {| fs := Dir {[ "config" := File "plain" ]}; calls := [] |}
    = (Raise (HomeAssistantError "Automation Helper refused to overwrite 17"), w')
    /\ fs w' = Dir {[ "config" := File "plain" ]}.
Proof.
  apply (parent_file_reported_as_17 demo_hass ["config"] "a.yaml" "text" "plain" false
           {| fs := Dir {[ "config" := File "plain" ]}; calls := [] |}).
  vm_compute. reflexivity.
Defined.

(** ** [generate_automation]: the file it writes and the files it leaves *)


Lemma handle_generate_steps hass call :
  handle_generate hass call
  = (path_mkdir (config_path hass "automation_helper") ;;
     let* present := path_exists (output_file hass call) in
     if present && negb (data_overwrite call) then
       raise (HomeAssistantError
                ("Automation Helper refused to overwrite existing file: "
                 +:+ path_str (output_file hass call)))
     else
       _async_write_file hass (output_file hass call) (to_yaml (definition_of call))
         (data_overwrite call)).
Proof. reflexivity. Qed.





Lemma lookup_dir_clear d n m : lookup_path d n = Some (Dir m) -> clear_for_dirs d n = true.
Proof.
  revert n. induction d as [|x d IH]; intros n H.
  - cbn [lookup_path] in H. injection H as ->. reflexivity.
  - apply lookup_path_cons_inv in H as (m0 & child & -> & Hx & Hd).
    cbn [clear_for_dirs]. rewrite Hx. exact (IH child Hd).
Qed.





Lemma handle_generate_keeps_files hass call w w' q c :
  handle_generate hass call w = (Ok tt, w') -> q <> output_file hass call ->
  lookup_path q (fs w) = Some (File c) -> lookup_path q (fs w') = Some (File c).
Proof.
  rewrite handle_generate_steps. intros H Hne Hq.
  apply bind_ok_inv in H as ([] & wa & Ea & H).
  apply path_mkdir_ok_inv in Ea.
  apply bind_ok_inv in H as (present & wb & Eb & H).
  apply path_exists_inv in Eb as [_ Fb].
  destruct (present && negb (data_overwrite call)); [discriminate H|].
  apply (async_write_keeps_files _ _ _ _ _ _ q c H Hne).
  rewrite Fb. exact (make_dirs_keeps_files _ q _ _ c Ea Hq).
Qed.

(** X10: a successful [generate_automation] changes no regular file but its
    own, for paths of file names that the operating system takes as they
    are (so that two paths that differ name two places): every regular file
    at another such path keeps its content; so of two successful calls for
    different files, the second leaves the file of the first as the first
    wrote it. *)
Theorem generate_keeps_other_files
    (hass : HomeAssistant) (call : GenerateData) (w w' : world) :
  os_path (output_file hass call) = true ->
  handle_generate hass call w = (Ok tt, w') ->
  (forall q c, os_path q = true -> q <> output_file hass call ->
     lookup_path q (fs w) = Some (File c) -> lookup_path q (fs w') = Some (File c))
  /\ (forall call0 w0,
        os_path (output_file hass call0) = true ->
        handle_generate hass call0 w0 = (Ok tt, w) ->
        output_file hass call0 <> output_file hass call ->
        lookup_path (output_file hass call0) (fs w')
        = Some (File (to_yaml (definition_of call0)))).
Proof.
  intros _ H. split.
  - intros q c _. exact (handle_generate_keeps_files hass call w w' q c H).
  - intros call0 w0 _ H0 Hne.
    apply (handle_generate_keeps_files hass call w w' _ _ H Hne).
    exact (proj1 (handle_generate_ok hass call0 w0 w H0)).
Qed.

Lemma generate_keeps_other_files_witness :
  lookup_path night_mode_path
    (fs (snd (handle_generate demo_hass day_mode_data world_after_night_mode)))
  = Some (File (to_yaml (definition_of night_mode_data))).
Proof.
  refine (proj2 (generate_keeps_other_files demo_hass day_mode_data
                   world_after_night_mode
                   (snd (handle_generate demo_hass day_mode_data world_after_night_mode))
                   _ _)
            night_mode_data empty_world _ _ _).
  - vm_compute. reflexivity.
  - vm_compute. reflexivity.
  - vm_compute. reflexivity.
  - vm_compute. reflexivity.
  - vm_compute. discriminate.
Defined.

(** X11: when the output directory and the file of the call are paths of
    file names that the operating system takes as they are, a
    [generate_automation] that fails changes no regular file; the output
    directory may have been made before the failure, and nothing else. *)
Theorem failed_generate_changes_no_file
    (hass : HomeAssistant) (call : GenerateData) (w w' : world) (e : exn) :
  os_path (config_path hass "automation_helper") = true ->
  os_path (output_file hass call) = true ->
  handle_generate hass call w = (Raise e, w') ->
  (fs w' = fs w
   \/ make_dirs (config_path hass "automation_helper") (fs w) = Ok (fs w'))
  /\ forall q c,
       lookup_path q (fs w) = Some (File c) -> lookup_path q (fs w') = Some (File c).
Proof.
  intros _ _. rewrite handle_generate_steps. intros H.
  assert (fs w' = fs w
          \/ make_dirs (config_path hass "automation_helper") (fs w) = Ok (fs w'))
    as Hfs.
  { revert H. unfold bind at 1, path_mkdir, record_call.
    destruct (make_dirs (config_path hass "automation_helper") (fs w)) as [n1|e1] eqn:Hmk.
    - unfold bind at 1, path_exists, record_call. cbn [fs calls].
      destruct (bool_decide _ && negb (data_overwrite call)).
      + unfold raise. intros [= _ <-]. right. reflexivity.
      + intros H. apply async_write_raise_fs in H. cbn [fs] in H.
        right. rewrite H. reflexivity.
    - intros [= _ <-]. left. reflexivity. }
  split; [exact Hfs|]. intros q c Hq. destruct Hfs as [-> | Hmk]; [exact Hq|].
  exact (make_dirs_keeps_files _ q _ _ c Hmk Hq).
Qed.

Lemma failed_generate_changes_no_file_witness :
  lookup_path night_mode_path
    (fs (snd (handle_generate demo_hass night_mode_data world_after_night_mode)))
  = Some (File (to_yaml (definition_of night_mode_data))).
Proof.
  refine (proj2 (failed_generate_changes_no_file demo_hass night_mode_data
                   world_after_night_mode _
                   (HomeAssistantError
                      ("Automation Helper refused to overwrite existing file: "
                       +:+ path_str night_mode_path)) _ _ _) night_mode_path _ _).
  - vm_compute. reflexivity.
  - vm_compute. reflexivity.
  - vm_compute. reflexivity.
  - vm_compute. reflexivity.
Defined.

(** ** [generate_package] for every name and every choice of flags *)

Lemma package_dir_join hass call :
  path_join (config_path hass "packages") (slugify (strip (pkg_name call)))
  = package_dir hass call.
Proof. apply path_join_name, word_simple_name, slugify_is_word. Qed.

(** The handler on a name that is not blank, step by step. *)
Lemma handle_package_steps hass call :
  strip (pkg_name call) <> EmptyString ->
  handle_generate_package hass call
  = (let dir := package_dir hass call in
     let overwrite := pkg_overwrite call in
     let domain := pkg_blueprint_domain call in
     path_mkdir (packages_root hass) ;;
     let* present := path_exists dir in
     let* occupied :=
       (if present && negb overwrite then path_iterdir_any dir else ret false) in
     if occupied then
       raise (HomeAssistantError
                ("Automation Helper refused to overwrite non-empty package directory: "
                 +:+ path_str dir))
     else
       path_mkdir dir ;;
       (if pkg_include_blueprint call then
          path_mkdir (path_join (path_join dir "blueprints") domain) ;;
          _async_write_file hass
            (path_join (path_join (path_join dir "blueprints") domain)
               (slugify (strip (pkg_name call)) +:+ ".yaml"))
            (build_blueprint_yaml (package_title call) (pkg_description call) domain)
            overwrite
        else ret tt) ;;
       for_each (package_files call) (fun '(relative_path, builder) =>
         _async_write_file hass (path_join dir relative_path) (builder tt) overwrite)).
Proof.
  intros Hname. unfold handle_generate_package. cbv zeta.
  rewrite package_dir_join.
  destruct (strip (pkg_name call)) as [|a r] eqn:E; [congruence|].
  unfold package_files, package_title. rewrite E. reflexivity.
Qed.

Lemma lookup_child_dir d x n sub :
  lookup_path (d ++ [x]) n = Some sub -> exists m, lookup_path d n = Some (Dir m).
Proof.
  rewrite lookup_path_app. destruct (lookup_path d n) as [[c|m]|]; try discriminate.
  eauto.
Qed.

(** X12: a package whose directory exists and is not empty is refused when
    [overwrite] is not set, whatever the flags: the error names the
    directory, the file system is as before, and the only calls made on it
    are the [mkdir] of the packages root and the two tests of the
    directory, no write among them. *)
Theorem nonempty_package_refused
    (hass : HomeAssistant) (call : PackageData) (w : world) (m : gmap string node) :
  strip (pkg_name call) <> EmptyString ->
  pkg_overwrite call = false ->
  lookup_path (package_dir hass call) (fs w) = Some (Dir m) ->
  m <> ∅ ->
  exists w',
    handle_generate_package hass call w
    = (Raise (HomeAssistantError
                ("Automation Helper refused to overwrite non-empty package directory: "
                 +:+ path_str (package_dir hass call))), w')
    /\ fs w' = fs w
    /\ calls w'
       = calls w ++ [CallMkdir (packages_root hass);
                     CallExists (package_dir hass call);
                     CallIterdir (package_dir hass call)].
Proof.
  intros Hname Hov Hdir Hm. rewrite (handle_package_steps hass call Hname). cbv zeta.
  rewrite Hov.
  destruct (lookup_child_dir (packages_root hass) _ _ _ Hdir) as [m0 Hroot].
  unfold bind at 1, path_mkdir. rewrite (make_dirs_existing _ _ _ Hroot).
  unfold bind at 1, path_exists, record_call. cbn [fs calls].
  rewrite bool_decide_eq_true_2 by (rewrite Hdir; eauto). cbn [andb negb].
  unfold bind, path_iterdir_any, raise, record_call. cbn [fs calls].
  rewrite Hdir. rewrite bool_decide_eq_true_2 by exact Hm.
  eexists. split; [reflexivity|]. cbn [fs calls]. split; [reflexivity|].
  rewrite <- !app_assoc. reflexivity.
Qed.

Lemma nonempty_package_refused_witness :
  exists w',
    handle_generate_package demo_hass (morning_routine None false false "automation")
      occupied_world
    = (Raise (HomeAssistantError
                ("Automation Helper refused to overwrite non-empty package directory: "
                 +:+ path_str (package_dir demo_hass
                                 (morning_routine None false false "automation")))), w')
    /\ fs w' = fs occupied_world
    /\ calls w'
       = calls occupied_world
         ++ [CallMkdir (packages_root demo_hass);
             CallExists (package_dir demo_hass
                           (morning_routine None false false "automation"));
             CallIterdir (package_dir demo_hass
                            (morning_routine None false false "automation"))].
Proof.
  apply (nonempty_package_refused demo_hass
           (morning_routine None false false "automation") occupied_world
           {[ "notes.txt" := File "mine" ]}).
  - vm_compute. discriminate.
  - reflexivity.
  - vm_compute. reflexivity.
  - vm_compute. discriminate.
Defined.

Lemma make_dirs_two a b :
  make_dirs [a; b] (Dir ∅) = Ok (Dir {[ a := Dir {[ b := Dir ∅ ]} ]}).
Proof.
  cbn [make_dirs]. rewrite !lookup_empty. cbn [from_option id make_dirs].
  rewrite lookup_empty. cbn [from_option id make_dirs].
  rewrite !insert_empty. reflexivity.
Qed.

Lemma write_file_third a b f c :
  write_file [a; b; f] c (Dir {[ a := Dir {[ b := Dir ∅ ]} ]})
  = Ok (Dir {[ a := Dir {[ b := Dir {[ f := File c ]} ]} ]}).
Proof.
  change (write_file [a; b; f] c (Dir {[ a := Dir {[ b := Dir ∅ ]} ]}))
    with (match ({[ a := Dir {[ b := Dir ∅ ]} ]} : gmap string node) !! a with
          | Some child =>
              match write_file [b; f] c child with
              | Ok child' => Ok (Dir (<[a := child']> {[ a := Dir {[ b := Dir ∅ ]} ]}))
              | Raise e => Raise e
              end
          | None => Raise FileNotFoundError
          end).
  rewrite lookup_singleton_eq.
  change (write_file [b; f] c (Dir {[ b := Dir ∅ ]}))
    with (match ({[ b := Dir ∅ ]} : gmap string node) !! b with
          | Some child =>
              match write_file [f] c child with
              | Ok child' => Ok (Dir (<[b := child']> {[ b := Dir ∅ ]}))
              | Raise e => Raise e
              end
          | None => Raise FileNotFoundError
          end).
  rewrite lookup_singleton_eq. cbn [write_file]. rewrite lookup_empty.
  rewrite insert_empty, !insert_singleton_eq. reflexivity.
Qed.

(** The blueprint of a package, written into its empty directory. *)
Lemma blueprint_written hass d dom f c o w :
  focused d (Dir ∅) w -> simple_name dom -> simple_name f ->
  exists w',
    (path_mkdir (path_join (path_join d "blueprints") dom) ;;
     _async_write_file hass (path_join (path_join (path_join d "blueprints") dom) f) c o) w
    = (Ok tt, w')
    /\ focused d (Dir {[ "blueprints" := Dir {[ dom := Dir {[ f := File c ]} ]} ]}) w'.
Proof.
  intros Hfoc Hdom Hf.
  rewrite (path_join_parts d "blueprints" ["blueprints"]) by (vm_compute; reflexivity).
  rewrite (path_join_name _ dom Hdom), (path_join_name _ f Hf).
  rewrite <- !app_assoc. cbn [app].
  destruct (focused_mkdir d _ _ w ["blueprints"; dom] Hfoc (make_dirs_two _ _))
    as (w1 & E1 & Hfoc1).
  rewrite (bind_ok _ _ _ _ _ E1).
  apply (focused_async_write hass d _ (Dir {[ "blueprints" := Dir {[ dom := Dir ∅ ]} ]})
           _ w1 ["blueprints"; dom; f] c o Hfoc1).
  - discriminate.
  - left. cbn [lookup_path]. rewrite !lookup_singleton_eq, lookup_empty. reflexivity.
  - cbn [parent removelast]. apply (make_dirs_existing _ _ ∅).
    cbn [lookup_path]. rewrite !lookup_singleton_eq. reflexivity.
  - apply write_file_third.
Qed.

(** New files written one after the other into the directory in focus. *)
Lemma for_each_new_files hass d o files m w :
  focused d (Dir m) w ->
  NoDup (map fst files) ->
  Forall (fun fb => simple_name (fst fb) /\ m !! fst fb = None) files ->
  exists w',
    for_each files (fun '(relative_path, builder) =>
      _async_write_file hass (path_join d relative_path) (builder tt) o) w
    = (Ok tt, w')
    /\ focused d (Dir (add_files files m)) w'.
Proof.
  revert m w. induction files as [|[f b] files IH]; intros m w Hfoc Hnd Hall.
  - exists w. split; [reflexivity | exact Hfoc].
  - apply NoDup_cons in Hnd as [Hf Hnd].
    apply Forall_cons in Hall as [[Hname Hnew] Hall]. cbn [fst snd] in *.
    cbn [for_each add_files]. rewrite (path_join_name d f Hname).
    destruct (focused_new_file hass d m w f (b tt) o Hfoc Hnew) as (w1 & E1 & Hfoc1).
    rewrite (bind_ok _ _ _ _ _ E1).
    apply (IH _ w1 Hfoc1 Hnd).
    apply Forall_forall. intros [g bg] Hg. cbn [fst snd].
    rewrite Forall_forall in Hall. destruct (Hall _ Hg) as [Hgn Hgm].
    split; [exact Hgn|]. cbn [fst] in Hgm.
    rewrite lookup_insert_ne; [exact Hgm|].
    intros ->. apply Hf. exact (list_elem_of_fmap_2 fst _ _ Hg).
Qed.

Lemma file_name_simple a s :
  all_bytes not_slash (String a s) = true -> String a s <> "." ->
  simple_name (String a s).
Proof. intros H1 H2. split; [exact H1|]. split; [discriminate | exact H2]. Qed.

Lemma package_files_fresh call (X : node) :
  NoDup (map fst (package_files call))
  /\ Forall (fun fb => simple_name (fst fb)
                       /\ (∅ : gmap string node) !! fst fb = None
                       /\ ({[ "blueprints" := X ]} : gmap string node) !! fst fb = None)
       (package_files call).
Proof.
  unfold package_files.
  destruct (pkg_include_scripts call), (pkg_include_scenes call),
    (pkg_include_readme call);
    cbv beta iota zeta delta [dict_set String.eqb Ascii.eqb Bool.eqb map fst];
    (split;
     [ repeat (apply NoDup_cons; split;
               [ rewrite ?not_elem_of_cons; repeat split;
                 first [discriminate | apply not_elem_of_nil] |]);
       apply NoDup_nil; exact I
     | repeat (apply Forall_cons; split;
               [ cbn [fst]; split;
                 [ apply file_name_simple; [reflexivity | discriminate]
                 | split; [apply lookup_empty
                          | apply lookup_singleton_ne; discriminate] ]
               | ]);
       apply Forall_nil; exact I ]).
Qed.

Lemma package_files_entries call :
  add_files (package_files call)
    (if pkg_include_blueprint call then
       {[ "blueprints" :=
            Dir {[ pkg_blueprint_domain call :=
                     Dir {[ slugify (strip (pkg_name call)) +:+ ".yaml" :=
                              File (build_blueprint_yaml (package_title call)
                                      (pkg_description call)
                                      (pkg_blueprint_domain call)) ]} ]} ]}
     else ∅)
  = package_entries call.
Proof.
  unfold package_files, package_entries.
  destruct (pkg_include_scripts call), (pkg_include_scenes call),
    (pkg_include_readme call);
    cbv beta iota zeta delta [dict_set String.eqb Ascii.eqb Bool.eqb add_files];
    reflexivity.
Qed.

Lemma package_written hass call w :
  strip (pkg_name call) <> EmptyString ->
  simple_name (pkg_blueprint_domain call) ->
  vacant (package_dir hass call) (fs w) ->
  exists w',
    handle_generate_package hass call w = (Ok tt, w')
    /\ focused (package_dir hass call) (Dir (package_entries call)) w'.
Proof.
  intros Hname Hdom Hvac. rewrite (handle_package_steps hass call Hname). cbv zeta.
  unfold package_dir in *.
  destruct (package_dir_prepared _ _ (pkg_overwrite call) w Hvac) as (w2 & Hfoc2 & Hrun).
  rewrite Hrun. clear Hrun.
  rewrite <- package_files_entries.
  destruct (pkg_include_blueprint call).
  - destruct (blueprint_written hass _ (pkg_blueprint_domain call)
                (slugify (strip (pkg_name call)) +:+ ".yaml")
                (build_blueprint_yaml (package_title call) (pkg_description call)
                   (pkg_blueprint_domain call))
                (pkg_overwrite call) w2 Hfoc2 Hdom
                (word_yaml_simple_name _ (slugify_is_word _)))
      as (w3 & E3 & Hfoc3).
    rewrite (bind_ok _ _ _ _ _ E3).
    destruct (package_files_fresh call
                (Dir {[ pkg_blueprint_domain call :=
                          Dir {[ slugify (strip (pkg_name call)) +:+ ".yaml" :=
                                   File (build_blueprint_yaml (package_title call)
                                           (pkg_description call)
                                           (pkg_blueprint_domain call)) ]} ]}))
      as [Hnd Hall].
    apply (for_each_new_files hass _ _ _ _ w3 Hfoc3 Hnd).
    eapply Forall_impl; [exact Hall|]. cbn beta. tauto.
  - rewrite (bind_ok (ret tt) _ w2 tt w2 eq_refl).
    destruct (package_files_fresh call (Dir ∅)) as [Hnd Hall].
    apply (for_each_new_files hass _ _ _ _ w2 Hfoc2 Hnd).
    eapply Forall_impl; [exact Hall|]. cbn beta. tauto.
Qed.

Lemma package_entries_flags call :
  let m := package_entries call in
  let title := package_title call in
  m !! "automations.yaml"
  = Some (File (build_automation_package_yaml title (pkg_description call)
                  (pkg_include_example call)))
  /\ m !! "scripts.yaml"
     = (if pkg_include_scripts call
        then Some (File (build_scripts_package_yaml title (pkg_include_example call)))
        else None)
  /\ m !! "scenes.yaml"
     = (if pkg_include_scenes call
        then Some (File (build_scenes_package_yaml title (pkg_include_example call)))
        else None)
  /\ m !! "README.md"
     = (if pkg_include_readme call
        then Some (File (build_package_readme title (pkg_description call)
                           (pkg_include_scripts call) (pkg_include_scenes call)
                           (pkg_include_blueprint call)))
        else None)
  /\ (if pkg_include_blueprint call
      then lookup_path (blueprint_file call) (Dir m)
           = Some (File (build_blueprint_yaml title (pkg_description call)
                           (pkg_blueprint_domain call)))
      else m !! "blueprints" = None)
  /\ dom m ⊆ package_names.
Proof.
  cbv zeta. unfold package_entries, blueprint_file, package_names. cbv zeta.
  cbn [lookup_path].
  destruct (pkg_include_scripts call), (pkg_include_scenes call),
    (pkg_include_readme call), (pkg_include_blueprint call);
    (repeat split; [map_lookup; reflexivity .. |]);
    rewrite ?dom_insert_L, ?dom_singleton_L, ?dom_empty_L;
    apply elem_of_subseteq; intros x;
    rewrite ?elem_of_union, ?elem_of_singleton, ?elem_of_empty; tauto.
Qed.

(** X13: [generate_package] for any name that is not blank and any choice of
    flags, on a target directory that is missing or empty, when the path of
    the blueprint below it, the longest that the call can write, is one of
    file names that the operating system takes as they are (so the domain
    is a name other than [..], and the slug with its suffix has at most 255
    bytes).  The call succeeds; the directory [packages/<slug of the name>] then holds
    [automations.yaml] always, and [scripts.yaml], [scenes.yaml],
    [README.md] and the blueprint
    [blueprints/<domain>/<slug>.yaml] exactly when their flags are set, each
    with the text of its builder for the title of the name; it holds
    nothing else. *)
Theorem package_follows_flags (hass : HomeAssistant) (call : PackageData) (w : world) :
  strip (pkg_name call) <> EmptyString ->
  os_path (package_dir hass call ++ blueprint_file call) = true ->
  vacant (package_dir hass call) (fs w) ->
  exists w' m,
    handle_generate_package hass call w = (Ok tt, w')
    /\ lookup_path (package_dir hass call) (fs w') = Some (Dir m)
    /\ m !! "automations.yaml"
       = Some (File (build_automation_package_yaml (package_title call)
                       (pkg_description call) (pkg_include_example call)))
    /\ m !! "scripts.yaml"
       = (if pkg_include_scripts call
          then Some (File (build_scripts_package_yaml (package_title call)
                             (pkg_include_example call)))
          else None)
    /\ m !! "scenes.yaml"
       = (if pkg_include_scenes call
          then Some (File (build_scenes_package_yaml (package_title call)
                             (pkg_include_example call)))
          else None)
    /\ m !! "README.md"
       = (if pkg_include_readme call
          then Some (File (build_package_readme (package_title call)
                             (pkg_description call) (pkg_include_scripts call)
                             (pkg_include_scenes call) (pkg_include_blueprint call)))
          else None)
    /\ (if pkg_include_blueprint call
        then lookup_path (package_dir hass call ++ blueprint_file call) (fs w')
             = Some (File (build_blueprint_yaml (package_title call)
                             (pkg_description call) (pkg_blueprint_domain call)))
        else m !! "blueprints" = None)
    /\ dom m ⊆ package_names.
Proof.
  intros Hname Hos Hvac.
  assert (simple_name (pkg_blueprint_domain call)) as Hdom.
  { apply os_name_simple, (os_path_names _ _ Hos).
    unfold blueprint_file. rewrite elem_of_app, !elem_of_cons. auto. }
  destruct (package_written hass call w Hname Hdom Hvac) as (w' & E & Hfoc).
  destruct (package_entries_flags call) as (H1 & H2 & H3 & H4 & H5 & H6).
  exists w', (package_entries call).
  split; [exact E|]. split; [exact (focused_node _ _ _ Hfoc)|].
  split; [exact H1|]. split; [exact H2|]. split; [exact H3|]. split; [exact H4|].
  split; [|exact H6].
  destruct (pkg_include_blueprint call); [|exact H5].
  rewrite (focused_lookup _ _ _ (blueprint_file call) Hfoc). exact H5.
Qed.

Lemma package_follows_flags_witness :
  exists w',
    handle_generate_package demo_hass (full_package "Evening_lights " "script") empty_world
    = (Ok tt, w')
    /\ lookup_path ["config"; "packages"; "evening_lights"; "blueprints"; "script";
                    "evening_lights.yaml"] (fs w')
       = Some (File (build_blueprint_yaml "Evening Lights" None "script")).
Proof.
  destruct (package_follows_flags demo_hass (full_package "Evening_lights " "script")
              empty_world)
    as (w' & m & E & _ & _ & _ & _ & _ & Hbp & _).
  - vm_compute. discriminate.
  - vm_compute. reflexivity.
  - split; [vm_compute; reflexivity|]. vm_compute. reflexivity.
  - exists w'. split; [exact E | exact Hbp].
Defined.

(** X14: an empty description counts as no description, in the automations
    file, in the README, in the blueprint, and so in everything that
    [generate_package] does. *)
Theorem empty_description_like_none
    (hass : HomeAssistant) (call : PackageData) (name domain : string)
    (example scripts scenes blueprint : bool) :
  build_automation_package_yaml name (Some EmptyString) example
  = build_automation_package_yaml name None example
  /\ build_package_readme name (Some EmptyString) scripts scenes blueprint
     = build_package_readme name None scripts scenes blueprint
  /\ build_blueprint_yaml name (Some EmptyString) domain
     = build_blueprint_yaml name None domain
  /\ handle_generate_package hass (with_pkg_description (Some EmptyString) call)
     = handle_generate_package hass (with_pkg_description None call).
Proof. repeat split; reflexivity. Qed.

(** ** The README and the files without an example *)

Lemma join_unlines l ls : join NL (l :: ls) +:+ NL = unlines (l :: ls).
Proof.
  revert l. induction ls as [|l' ls IH]; intros l.
  - cbn [join unlines]. rewrite append_empty_r. reflexivity.
  - change (join NL (l :: l' :: ls)) with (l +:+ NL +:+ join NL (l' :: ls)).
    rewrite !append_assoc, IH. reflexivity.
Qed.

Lemma readme_lines_spec name description scripts scenes blueprint :
  line_ok name -> line_ok (readme_description description) ->
  readme_lines name description scripts scenes blueprint
  = ["# " +:+ name +:+ " package"; EmptyString; readme_description description;
     EmptyString; "## Contents"; EmptyString; "- `automations.yaml`"]
    ++ (if scripts then ["- `scripts.yaml`"] else [])
    ++ (if scenes then ["- `scenes.yaml`"] else [])
    ++ (if blueprint then ["- `blueprints/` automation or script blueprint"] else [])
    ++ [EmptyString; "## Getting started"; EmptyString;
        "1. Adjust the example entries to match your devices.";
        "2. Load the package by enabling `packages:` in `configuration.yaml`.";
        "3. Restart Home Assistant and verify the automations appear as expected.";
        EmptyString].
Proof.
  intros Hname Hdesc. unfold readme_lines, build_package_readme.
  assert (forall lines : list string,
            match description with
            | Some (String c r) => lines ++ [String c r]
            | _ => lines ++ ["Describe the goal of this automation package."]
            end = lines ++ [readme_description description]) as ->
    by (intros lines; destruct description as [[|c r]|]; reflexivity).
  assert (line_ok ("# " +:+ name +:+ " package")) as Htitle.
  { unfold line_ok in *. rewrite !all_bytes_app, Hname. reflexivity. }
  destruct scripts, scenes, blueprint; cbn [app];
    rewrite join_unlines, text_lines_unlines;
    solve [ reflexivity
          | repeat (apply Forall_cons; split; [first [assumption | reflexivity]|]);
            apply Forall_nil; exact I ].
Qed.

Lemma title_line_no_item name (s : string) : "# " +:+ name +:+ " package" <> String "-" s.
Proof. rewrite !append_cons. discriminate. Qed.

Lemma description_no_item d (s : string) :
  starts_with "- " d = false -> d <> String "-" (String " " s).
Proof. intros H ->. discriminate H. Qed.

(** X15: the README of a package, for a name and a description of one line
    each, the description not being a list item itself.  Its first line is
    the title of the package and its third the description, or the
    placeholder when there is none; the list of contents always names
    [automations.yaml], and names [scripts.yaml], [scenes.yaml] and the
    blueprints exactly when their flags are set. *)
Theorem readme_lists_generated_files
    (name : string) (description : option string) (scripts scenes blueprint : bool) :
  line_ok name ->
  line_ok (readme_description description) ->
  starts_with "- " (readme_description description) = false ->
  let lines := readme_lines name description scripts scenes blueprint in
  (exists rest,
     lines = ("# " +:+ name +:+ " package") :: EmptyString
             :: readme_description description :: rest)
  /\ In "- `automations.yaml`" lines
  /\ (In "- `scripts.yaml`" lines <-> scripts = true)
  /\ (In "- `scenes.yaml`" lines <-> scenes = true)
  /\ (In "- `blueprints/` automation or script blueprint" lines <-> blueprint = true).
Proof.
  intros Hname Hdesc Hitem lines. subst lines.
  rewrite (readme_lines_spec name description scripts scenes blueprint Hname Hdesc).
  pose proof (title_line_no_item name) as Ht.
  pose proof (fun s => description_no_item _ s Hitem) as Hd.
  split; [eexists; reflexivity|].
  destruct scripts, scenes, blueprint; cbn [app In];
    (split; [repeat first [left; reflexivity | right]|]);
    repeat split; intros H;
    first
      [ reflexivity
      | discriminate H
      | solve [repeat first [left; reflexivity | right]]
      | repeat (destruct H as [H|H];
                [first [discriminate H | exfalso; exact (Ht _ H)
                       | exfalso; exact (Hd _ H)]|]);
        destruct H ].
Qed.

Lemma readme_lists_generated_files_witness :
  In "- `scripts.yaml`" (readme_lines "Morning Routine" None true false false)
  <-> true = true.
Proof.
  refine (proj1 (proj2 (proj2 (readme_lists_generated_files "Morning Routine" None
                                 true false false _ _ _)))).
  - reflexivity.
  - reflexivity.
  - reflexivity.
Defined.

(** X16: without the example each YAML file of a package is its comment
    line, which names the package, and one key with an empty collection:
    an empty list for automations and scenes, an empty mapping for
    scripts. *)
Theorem files_without_example (name : string) (description : option string) :
  build_automation_package_yaml name description false
  = ("# Automations for the " +:+ name +:+ " package" +:+ NL) +:+ "automation: []" +:+ NL
  /\ build_scripts_package_yaml name false
     = ("# Scripts for the " +:+ name +:+ " package" +:+ NL) +:+ "script: {}" +:+ NL
  /\ build_scenes_package_yaml name false
     = ("# Scenes for the " +:+ name +:+ " package" +:+ NL) +:+ "scene: []" +:+ NL.
Proof.
  unfold build_automation_package_yaml, build_scripts_package_yaml,
    build_scenes_package_yaml. cbv zeta.
  assert (safe_dump [("automation", PList [])] = "automation: []" +:+ NL) as ->
    by (vm_compute; reflexivity).
  assert (safe_dump [("script", PDict [])] = "script: {}" +:+ NL) as ->
    by (vm_compute; reflexivity).
  assert (safe_dump [("scene", PList [])] = "scene: []" +:+ NL) as ->
    by (vm_compute; reflexivity).
  auto.
Qed.

(** ** The schemas: defaults and the blueprint domain *)

Lemma package_schema_inv data d :
  PACKAGE_SERVICE_SCHEMA data = Ok d ->
  required "name" cv_string data = Ok (pkg_name d)
  /\ optional "description" cv_string data = Ok (pkg_description d)
  /\ optional_default "overwrite" (PBool false) cv_boolean data = Ok (pkg_overwrite d)
  /\ optional_default "include_example" (PBool true) cv_boolean data
     = Ok (pkg_include_example d)
  /\ optional_default "include_scripts" (PBool true) cv_boolean data
     = Ok (pkg_include_scripts d)
  /\ optional_default "include_scenes" (PBool false) cv_boolean data
     = Ok (pkg_include_scenes d)
  /\ optional_default "include_readme" (PBool true) cv_boolean data
     = Ok (pkg_include_readme d)
  /\ optional_default "blueprint_domain" (PStr "automation")
       (vol_In ["automation"; "script"]) data
     = Ok (pkg_blueprint_domain d)
  /\ optional_default "include_blueprint" (PBool false) cv_boolean data
     = Ok (pkg_include_blueprint d).
Proof.
  unfold PACKAGE_SERVICE_SCHEMA.
  repeat match goal with
         | |- context [result_bind ?r _] =>
             destruct r; cbn [result_bind]; [|discriminate]
         end.
  intros [= <-]. repeat split; reflexivity.
Qed.

Lemma service_schema_inv SS data d :
  SERVICE_SCHEMA SS data = Ok d ->
  required "alias" cv_string data = Ok (data_alias d)
  /\ optional "description" cv_string data = Ok (data_description d)
  /\ optional_default "mode" (PStr "single") cv_string data = Ok (data_mode d)
  /\ optional "filename" cv_string data = Ok (data_filename d)
  /\ optional_default "overwrite" (PBool false) cv_boolean data = Ok (data_overwrite d)
  /\ required "trigger" (script_list SS) data = Ok (data_trigger d)
  /\ optional "condition" (script_list SS) data = Ok (data_condition d)
  /\ required "action" (script_list SS) data = Ok (data_action d).
Proof.
  unfold SERVICE_SCHEMA.
  repeat match goal with
         | |- context [result_bind ?r _] =>
             destruct r; cbn [result_bind]; [|discriminate]
         end.
  intros [= <-]. repeat split; reflexivity.
Qed.

Lemma optional_default_absent {A} key d (validator : pyval -> result A) data a :
  optional_default key d validator data = Ok a ->
  dict_get key data = None -> validator d = Ok a.
Proof. unfold optional_default. intros H Hk. rewrite Hk in H. exact H. Qed.

Lemma optional_absent {A} key (validator : pyval -> result A) data a :
  optional key validator data = Ok a -> dict_get key data = None -> a = None.
Proof. unfold optional. intros H Hk. rewrite Hk in H. congruence. Qed.

Lemma vol_In_domain v s :
  vol_In ["automation"; "script"] v = Ok s ->
  v = PStr s /\ (s = "automation" \/ s = "script").
Proof.
  destruct v as [| | |s0| |]; try discriminate. unfold vol_In, mem_string.
  cbn [existsb]. rewrite orb_false_r.
  destruct (String.eqb s0 "automation") eqn:E1; cbn [orb].
  - intros [= <-]. apply String.eqb_eq in E1. auto.
  - destruct (String.eqb s0 "script") eqn:E2; [|discriminate].
    intros [= <-]. apply String.eqb_eq in E2. auto.
Qed.

Lemma validated_domain data d :
  PACKAGE_SERVICE_SCHEMA data = Ok d ->
  pkg_blueprint_domain d = "automation" \/ pkg_blueprint_domain d = "script".
Proof.
  intros H. apply package_schema_inv in H as (_ & _ & _ & _ & _ & _ & _ & H & _).
  unfold optional_default in H. apply vol_In_domain in H. tauto.
Qed.

Lemma domain_simple s : s = "automation" \/ s = "script" -> simple_name s.
Proof.
  intros [-> | ->]; (split; [reflexivity|]; split; discriminate).
Qed.

(** X17: what [PACKAGE_SERVICE_SCHEMA] makes of the keys that a call leaves
    out: [overwrite], [include_scenes] and [include_blueprint] are off,
    [include_example], [include_scripts] and [include_readme] are on, the
    blueprint domain is [automation] and there is no description.  Given or
    not, the blueprint domain of validated data is [automation] or
    [script]. *)
Theorem package_schema_defaults (data : pydict) (d : PackageData) :
  PACKAGE_SERVICE_SCHEMA data = Ok d ->
  (pkg_blueprint_domain d = "automation" \/ pkg_blueprint_domain d = "script")
  /\ (dict_get "description" data = None -> pkg_description d = None)
  /\ (dict_get "overwrite" data = None -> pkg_overwrite d = false)
  /\ (dict_get "include_example" data = None -> pkg_include_example d = true)
  /\ (dict_get "include_scripts" data = None -> pkg_include_scripts d = true)
  /\ (dict_get "include_scenes" data = None -> pkg_include_scenes d = false)
  /\ (dict_get "include_readme" data = None -> pkg_include_readme d = true)
  /\ (dict_get "blueprint_domain" data = None -> pkg_blueprint_domain d = "automation")
  /\ (dict_get "include_blueprint" data = None -> pkg_include_blueprint d = false).
Proof.
  intros H. split; [exact (validated_domain data d H)|].
  apply package_schema_inv in H as (_ & H1 & H2 & H3 & H4 & H5 & H6 & H7 & H8).
  split; [exact (optional_absent _ _ _ _ H1)|].
  repeat split; intros Hk;
    match goal with
    | H : optional_default ?k _ _ _ = Ok ?x |- ?x = _ =>
        pose proof (optional_default_absent _ _ _ _ _ H Hk) as E;
        cbn in E; congruence
    end.
Qed.

Lemma package_schema_defaults_witness :
  pkg_include_scenes
    {| pkg_name := "Morning Routine"; pkg_description := None; pkg_overwrite := false;
       pkg_include_example := true; pkg_include_scripts := true;
       pkg_include_scenes := false; pkg_include_readme := true;
       pkg_blueprint_domain := "automation"; pkg_include_blueprint := false |}
  = false.
Proof.
  refine (proj1 (proj2 (proj2 (proj2 (proj2 (proj2
            (package_schema_defaults [("name", PStr "Morning Routine")] _ _)))))) _).
  - vm_compute. reflexivity.
  - reflexivity.
Defined.

(** X18: what [SERVICE_SCHEMA] makes of the keys that a call leaves out,
    whatever the validator of the steps: the mode is [single], [overwrite]
    is off, and there is no description, no file name and no condition. *)
Theorem service_schema_defaults
    (SCRIPT_SCHEMA : pyval -> result pyval) (data : pydict) (d : GenerateData) :
  SERVICE_SCHEMA SCRIPT_SCHEMA data = Ok d ->
  (dict_get "mode" data = None -> data_mode d = "single")
  /\ (dict_get "overwrite" data = None -> data_overwrite d = false)
  /\ (dict_get "description" data = None -> data_description d = None)
  /\ (dict_get "filename" data = None -> data_filename d = None)
  /\ (dict_get "condition" data = None -> data_condition d = None).
Proof.
  intros H. apply service_schema_inv in H as (_ & H1 & H2 & H3 & H4 & _ & H5 & _).
  split; [|split; [|split; [|split]]]; intros Hk.
  - pose proof (optional_default_absent _ _ _ _ _ H2 Hk) as E. cbn in E. congruence.
  - pose proof (optional_default_absent _ _ _ _ _ H4 Hk) as E. cbn in E. congruence.
  - exact (optional_absent _ _ _ _ H1 Hk).
  - exact (optional_absent _ _ _ _ H3 Hk).
  - exact (optional_absent _ _ _ _ H5 Hk).
Qed.

Lemma service_schema_defaults_witness : data_mode night_mode_data = "single".
Proof.
  refine (proj1 (service_schema_defaults reject_every_step night_mode_call
                   night_mode_data _) _).
  - vm_compute. reflexivity.
  - reflexivity.
Defined.

(** X19: a blueprint domain other than [automation] and [script] is turned
    down by validation: [generate_package] raises and the world is
    untouched, with no call made on the file system. *)
Theorem other_domain_rejected
    (hass : HomeAssistant) (data : pydict) (v : pyval) (w : world) :
  dict_get "blueprint_domain" data = Some v ->
  v <> PStr "automation" -> v <> PStr "script" ->
  exists e, generate_package hass data w = (Raise e, w).
Proof.
  intros Hk Ha Hs. unfold generate_package.
  destruct (PACKAGE_SERVICE_SCHEMA data) as [d|e] eqn:E.
  - exfalso.
    apply package_schema_inv in E as (_ & _ & _ & _ & _ & _ & _ & H & _).
    unfold optional_default in H. rewrite Hk in H. cbn [from_option id] in H.
    apply vol_In_domain in H as [-> [E1 | E1]]; rewrite E1 in *; congruence.
  - exists e. exact (call_service_invalid _ _ _ _ _ E).
Qed.

Lemma other_domain_rejected_witness :
  exists e,
    generate_package demo_hass
      [("name", PStr "Morning Routine"); ("blueprint_domain", PStr "scene")] empty_world
    = (Raise e, empty_world).
Proof.
  apply (other_domain_rejected demo_hass _ (PStr "scene") empty_world).
  - reflexivity.
  - discriminate.
  - discriminate.
Defined.

(** X20: [generate_package] called as a service.  For data that pass the
    schema with a name that is not blank, a target directory that is
    missing or empty, and a blueprint path below it of file names that the
    operating system takes as they are (so the slug with its suffix has at
    most 255 bytes), the call succeeds and the package directory holds the
    files of the validated flags: the blueprint domain needs no condition
    of its own, the schema having let through [automation] and [script]
    only. *)
Theorem valid_package_call_succeeds
    (hass : HomeAssistant) (data : pydict) (d : PackageData) (w : world) :
  PACKAGE_SERVICE_SCHEMA data = Ok d ->
  strip (pkg_name d) <> EmptyString ->
  os_path (package_dir hass d ++ blueprint_file d) = true ->
  vacant (package_dir hass d) (fs w) ->
  exists w',
    generate_package hass data w = (Ok tt, w')
    /\ lookup_path (package_dir hass d) (fs w') = Some (Dir (package_entries d)).
Proof.
  intros Hd Hname _ Hvac. unfold generate_package.
  rewrite (call_service_valid _ _ _ _ Hd).
  destruct (package_written hass d w Hname
              (domain_simple _ (validated_domain data d Hd)) Hvac)
    as (w' & E & Hfoc).
  exists w'. split; [exact E | exact (focused_node _ _ _ Hfoc)].
Qed.

Lemma valid_package_call_succeeds_witness :
  exists w',
    generate_package demo_hass
      [("name", PStr "Evening_lights "); ("include_scenes", PBool true);
       ("include_blueprint", PStr "yes"); ("blueprint_domain", PStr "script")]
      empty_world
    = (Ok tt, w')
    /\ lookup_path (package_dir demo_hass (full_package "Evening_lights " "script"))
         (fs w')
       = Some (Dir (package_entries (full_package "Evening_lights " "script"))).
Proof.
  apply (valid_package_call_succeeds demo_hass _ (full_package "Evening_lights " "script")
           empty_world).
  - vm_compute. reflexivity.
  - vm_compute. discriminate.
  - vm_compute. reflexivity.
  - split; [vm_compute; reflexivity|]. vm_compute. reflexivity.
Defined.

(** ** Set-up and unloading: the registry of services *)

Lemma has_service_true (domain name : string) (services : registry) :
  has_service domain name services = true <-> is_Some (services !! (domain, name)).
Proof. unfold has_service. apply bool_decide_eq_true. Qed.

Lemma has_service_false (domain name : string) (services : registry) :
  has_service domain name services = false <-> services !! (domain, name) = None.
Proof.
  unfold has_service. rewrite bool_decide_eq_false, eq_None_not_Some. reflexivity.
Qed.

Lemma has_service_register (domain name : string) (s : service) (services : registry)
    (k : string * string) :
  has_service (fst k) (snd k) (async_register domain name s services)
  = bool_decide (k = (domain, name)) || has_service (fst k) (snd k) services.
Proof.
  destruct k as [d n]. cbn [fst snd]. unfold has_service, async_register.
  destruct (decide ((d, n) = (domain, name))) as [E|E].
  - injection E as -> ->. rewrite lookup_insert_eq.
    rewrite (bool_decide_eq_true_2 (is_Some (Some s))) by eauto.
    rewrite bool_decide_eq_true_2 by reflexivity. reflexivity.
  - rewrite lookup_insert_ne by congruence.
    rewrite (bool_decide_eq_false_2 ((d, n) = (domain, name))) by exact E. reflexivity.
Qed.

Lemma register_service_registered (SS : pyval -> result pyval) (hass : HomeAssistant)
    (services : registry) :
  has_service DOMAIN SERVICE_GENERATE_AUTOMATION (_async_register_service SS hass services)
  = true.
Proof.
  unfold _async_register_service.
  destruct (has_service DOMAIN SERVICE_GENERATE_AUTOMATION services) eqn:E; [exact E|].
  cbv zeta.
  rewrite (has_service_register _ _ _ _ (DOMAIN, SERVICE_GENERATE_AUTOMATION)).
  rewrite (has_service_register _ _ _ _ (DOMAIN, SERVICE_GENERATE_AUTOMATION)).
  reflexivity.
Qed.

Lemma register_service_idempotent (SS : pyval -> result pyval) (hass : HomeAssistant)
    (services : registry) :
  _async_register_service SS hass (_async_register_service SS hass services)
  = _async_register_service SS hass services.
Proof.
  unfold _async_register_service at 1.
  rewrite register_service_registered. reflexivity.
Qed.

(** X21: setting the integration up, by [async_setup] or by
    [async_setup_entry] (they do the same).  Afterwards
    [generate_automation] is registered.  When it was not before, both
    services are registered with the schema and handler of this module;
    when it was, nothing is registered and the registry is as it was, so
    that [generate_package] is there afterwards only if it already was.  No
    other service is touched, and setting up a second time changes
    nothing. *)
Theorem setup_registers_once
    (SCRIPT_SCHEMA : pyval -> result pyval) (hass : HomeAssistant)
    (config : pydict) (entry : ConfigEntry) (services : registry) :
  let services' := snd (async_setup SCRIPT_SCHEMA hass config services) in
  async_setup_entry SCRIPT_SCHEMA hass entry services = (true, services')
  /\ has_service DOMAIN SERVICE_GENERATE_AUTOMATION services' = true
  /\ has_service DOMAIN SERVICE_GENERATE_PACKAGE services'
     = has_service DOMAIN SERVICE_GENERATE_PACKAGE services
       || negb (has_service DOMAIN SERVICE_GENERATE_AUTOMATION services)
  /\ (has_service DOMAIN SERVICE_GENERATE_AUTOMATION services = false ->
      services' !! (DOMAIN, SERVICE_GENERATE_AUTOMATION)
      = Some (generate_automation SCRIPT_SCHEMA hass)
      /\ services' !! (DOMAIN, SERVICE_GENERATE_PACKAGE) = Some (generate_package hass))
  /\ (has_service DOMAIN SERVICE_GENERATE_AUTOMATION services = true ->
      services' = services)
  /\ (forall k,
        k <> (DOMAIN, SERVICE_GENERATE_AUTOMATION) ->
        k <> (DOMAIN, SERVICE_GENERATE_PACKAGE) ->
        services' !! k = services !! k)
  /\ async_setup SCRIPT_SCHEMA hass config services' = (true, services').
Proof.
  cbv zeta. unfold async_setup, async_setup_entry. cbn [snd].
  split; [reflexivity|]. split; [apply register_service_registered|].
  split; [|split; [|split; [|split]]].
  - unfold _async_register_service.
    destruct (has_service DOMAIN SERVICE_GENERATE_AUTOMATION services) eqn:E.
    + rewrite orb_false_r. reflexivity.
    + cbv zeta.
      rewrite (has_service_register _ _ _ _ (DOMAIN, SERVICE_GENERATE_PACKAGE)).
      rewrite orb_true_r. reflexivity.
  - intros E. unfold _async_register_service. rewrite E. cbv zeta.
    unfold async_register. split.
    + rewrite lookup_insert_ne by discriminate. apply lookup_insert_eq.
    + apply lookup_insert_eq.
  - intros E. unfold _async_register_service. rewrite E. reflexivity.
  - intros k Hk1 Hk2. unfold _async_register_service.
    destruct (has_service DOMAIN SERVICE_GENERATE_AUTOMATION services); [reflexivity|].
    cbv zeta. unfold async_register.
    rewrite !lookup_insert_ne by congruence. reflexivity.
  - rewrite register_service_idempotent. reflexivity.
Qed.

Lemma unload_lookup (hass : HomeAssistant) (entry : ConfigEntry) (services : registry)
    (k : string * string) :
  snd (async_unload_entry hass entry services) !! k
  = if bool_decide (k = (DOMAIN, SERVICE_GENERATE_AUTOMATION)
                    \/ k = (DOMAIN, SERVICE_GENERATE_PACKAGE))
    then None else services !! k.
Proof.
  unfold async_unload_entry, async_remove. cbv zeta. cbn [snd].
  set (s1 := if has_service DOMAIN SERVICE_GENERATE_AUTOMATION services
             then delete (DOMAIN, SERVICE_GENERATE_AUTOMATION) services else services).
  assert (forall j, s1 !! j
                    = if bool_decide (j = (DOMAIN, SERVICE_GENERATE_AUTOMATION))
                      then None else services !! j) as H1.
  { intros j. subst s1.
    destruct (has_service DOMAIN SERVICE_GENERATE_AUTOMATION services) eqn:E.
    - destruct (decide (j = (DOMAIN, SERVICE_GENERATE_AUTOMATION))) as [->|Hj].
      + rewrite lookup_delete_eq, bool_decide_eq_true_2 by reflexivity. reflexivity.
      + rewrite lookup_delete_ne by congruence.
        rewrite bool_decide_eq_false_2 by exact Hj. reflexivity.
    - apply has_service_false in E.
      destruct (decide (j = (DOMAIN, SERVICE_GENERATE_AUTOMATION))) as [->|Hj].
      + rewrite bool_decide_eq_true_2 by reflexivity. exact E.
      + rewrite bool_decide_eq_false_2 by exact Hj. reflexivity. }
  assert ((if has_service DOMAIN SERVICE_GENERATE_PACKAGE s1
           then delete (DOMAIN, SERVICE_GENERATE_PACKAGE) s1 else s1) !! k
          = if bool_decide (k = (DOMAIN, SERVICE_GENERATE_PACKAGE))
            then None else s1 !! k) as ->.
  { destruct (has_service DOMAIN SERVICE_GENERATE_PACKAGE s1) eqn:E.
    - destruct (decide (k = (DOMAIN, SERVICE_GENERATE_PACKAGE))) as [->|Hk].
      + rewrite lookup_delete_eq, bool_decide_eq_true_2 by reflexivity. reflexivity.
      + rewrite lookup_delete_ne by congruence.
        rewrite bool_decide_eq_false_2 by exact Hk. reflexivity.
    - apply has_service_false in E.
      destruct (decide (k = (DOMAIN, SERVICE_GENERATE_PACKAGE))) as [->|Hk].
      + rewrite bool_decide_eq_true_2 by reflexivity. exact E.
      + rewrite bool_decide_eq_false_2 by exact Hk. reflexivity. }
  rewrite H1.
  destruct (decide (k = (DOMAIN, SERVICE_GENERATE_PACKAGE))) as [->|Hp].
  - rewrite !bool_decide_eq_true_2 by auto. reflexivity.
  - rewrite (bool_decide_eq_false_2 (k = (DOMAIN, SERVICE_GENERATE_PACKAGE))) by exact Hp.
    destruct (decide (k = (DOMAIN, SERVICE_GENERATE_AUTOMATION))) as [->|Ha].
    + rewrite !bool_decide_eq_true_2 by auto. reflexivity.
    + rewrite !bool_decide_eq_false_2 by tauto. reflexivity.
Qed.

(** X22: unloading the entry removes both services of the integration,
    whichever of them are registered, and leaves every other service in
    place; unloading a second time changes nothing. *)
Theorem unload_removes_services
    (hass : HomeAssistant) (entry : ConfigEntry) (services : registry) :
  let services' := snd (async_unload_entry hass entry services) in
  fst (async_unload_entry hass entry services) = true
  /\ has_service DOMAIN SERVICE_GENERATE_AUTOMATION services' = false
  /\ has_service DOMAIN SERVICE_GENERATE_PACKAGE services' = false
  /\ (forall k,
        k <> (DOMAIN, SERVICE_GENERATE_AUTOMATION) ->
        k <> (DOMAIN, SERVICE_GENERATE_PACKAGE) ->
        services' !! k = services !! k)
  /\ async_unload_entry hass entry services' = (true, services').
Proof.
  cbv zeta.
  assert (has_service DOMAIN SERVICE_GENERATE_AUTOMATION
            (snd (async_unload_entry hass entry services)) = false) as Ha.
  { apply has_service_false. rewrite unload_lookup.
    rewrite bool_decide_eq_true_2 by auto. reflexivity. }
  assert (has_service DOMAIN SERVICE_GENERATE_PACKAGE
            (snd (async_unload_entry hass entry services)) = false) as Hp.
  { apply has_service_false. rewrite unload_lookup.
    rewrite bool_decide_eq_true_2 by auto. reflexivity. }
  split; [reflexivity|]. split; [exact Ha|]. split; [exact Hp|]. split.
  - intros k Hk1 Hk2. rewrite unload_lookup.
    rewrite bool_decide_eq_false_2 by tauto. reflexivity.
  - unfold async_unload_entry at 1. cbv zeta. rewrite Ha, Hp. reflexivity.
Qed.

(** X23: unloading undoes the set-up.  On a registry that holds neither
    service, setting up and then unloading gives the registry back as it
    was; and on any registry, a set-up that follows an unloading registers
    both services anew. *)
Theorem setup_unload_round_trip
    (SCRIPT_SCHEMA : pyval -> result pyval) (hass : HomeAssistant)
    (entry : ConfigEntry) (services : registry) :
  (has_service DOMAIN SERVICE_GENERATE_AUTOMATION services = false ->
   has_service DOMAIN SERVICE_GENERATE_PACKAGE services = false ->
   snd (async_unload_entry hass entry
          (snd (async_setup_entry SCRIPT_SCHEMA hass entry services)))
   = services)
  /\ (let services' :=
        snd (async_setup_entry SCRIPT_SCHEMA hass entry
               (snd (async_unload_entry hass entry services))) in
      services' !! (DOMAIN, SERVICE_GENERATE_AUTOMATION)
      = Some (generate_automation SCRIPT_SCHEMA hass)
      /\ services' !! (DOMAIN, SERVICE_GENERATE_PACKAGE)
         = Some (generate_package hass)).
Proof.
  split.
  - intros Ha Hp. apply map_eq. intros k. rewrite unload_lookup.
    unfold async_setup_entry, _async_register_service. cbn [snd]. rewrite Ha.
    cbv zeta. unfold async_register.
    apply has_service_false in Ha, Hp.
    destruct (decide (k = (DOMAIN, SERVICE_GENERATE_AUTOMATION))) as [->|Hka].
    + rewrite bool_decide_eq_true_2 by auto. symmetry. exact Ha.
    + destruct (decide (k = (DOMAIN, SERVICE_GENERATE_PACKAGE))) as [->|Hkp].
      * rewrite bool_decide_eq_true_2 by auto. symmetry. exact Hp.
      * rewrite bool_decide_eq_false_2 by tauto.
        rewrite !lookup_insert_ne by congruence. reflexivity.
  - cbv zeta. unfold async_setup_entry, _async_register_service. cbn [snd].
    assert (has_service DOMAIN SERVICE_GENERATE_AUTOMATION
              (snd (async_unload_entry hass entry services)) = false) as ->.
    { apply has_service_false. rewrite unload_lookup.
      rewrite bool_decide_eq_true_2 by auto. reflexivity. }
    cbv zeta. unfold async_register. split.
    + rewrite lookup_insert_ne by discriminate. apply lookup_insert_eq.
    + apply lookup_insert_eq.
Qed.

(** ** Without [overwrite] nothing that exists is changed *)

Lemma grows_refl w : grows w w.
Proof. split; auto. Qed.

Lemma grows_same_fs w w' : fs w' = fs w -> grows w w'.
Proof. intros E. unfold grows. rewrite E. split; auto. Qed.

Lemma grows_trans w1 w2 w3 : grows w1 w2 -> grows w2 w3 -> grows w1 w3.
Proof. intros [F1 D1] [F2 D2]. split; auto. Qed.

Lemma growing_ret {A} (a : A) : growing (ret a).
Proof. intros w r w' [= _ <-]. apply grows_refl. Qed.

Lemma growing_raise {A} e : growing (@raise A e).
Proof. intros w r w' [= _ <-]. apply grows_refl. Qed.

Lemma growing_bind {A B} (m : M A) (k : A -> M B) :
  growing m -> (forall a, growing (k a)) -> growing (bind m k).
Proof.
  intros Hm Hk w r w'. unfold bind.
  destruct (m w) as [[a|e] w1] eqn:E.
  - intros H. exact (grows_trans _ _ _ (Hm _ _ _ E) (Hk a _ _ _ H)).
  - intros [= _ <-]. exact (Hm _ _ _ E).
Qed.

Lemma growing_exists p : growing (path_exists p).
Proof. intros w r w' [= _ <-]. apply grows_same_fs. reflexivity. Qed.

Lemma growing_iterdir p : growing (path_iterdir_any p).
Proof. intros w r w' [= _ <-]. apply grows_same_fs. reflexivity. Qed.

Lemma growing_mkdir p : growing (path_mkdir p).
Proof.
  intros w r w'. unfold path_mkdir.
  destruct (make_dirs p (fs w)) as [n|e] eqn:E; intros [= _ <-].
  - split; cbn [fs].
    + intros q c. exact (make_dirs_keeps_files p q _ _ c E).
    + intros q. exact (make_dirs_keeps_dirs p q _ _ E).
  - apply grows_same_fs. reflexivity.
Qed.

(** The guarded writer without [overwrite]. *)
Lemma growing_new_file hass p c : growing (_async_write_file hass p c false).
Proof.
  intros w r w' H. destruct r as [[]|e].
  - split.
    + intros q c' Hq. destruct (decide (q = p)) as [->|Hne].
      * rewrite (async_write_refused hass p c w) in H by eauto. discriminate H.
      * exact (async_write_keeps_files _ _ _ _ _ _ _ _ H Hne Hq).
    + exact (proj2 (async_write_ok _ _ _ _ _ _ H)).
  - apply grows_same_fs. exact (async_write_raise_fs _ _ _ _ _ _ _ H).
Qed.

Lemma growing_for_each {A} (l : list A) (body : A -> M unit) :
  (forall x, growing (body x)) -> growing (for_each l body).
Proof.
  intros H. induction l as [|x l IH]; cbn [for_each].
  - apply growing_ret.
  - apply growing_bind; [apply H | intros _; exact IH].
Qed.

Lemma handle_generate_growing hass call :
  data_overwrite call = false -> growing (handle_generate hass call).
Proof.
  intros Hov. rewrite handle_generate_steps, Hov.
  apply growing_bind; [apply growing_mkdir | intros _].
  apply growing_bind; [apply growing_exists | intros present].
  destruct (present && negb false); [apply growing_raise | apply growing_new_file].
Qed.

Lemma handle_package_growing hass call :
  pkg_overwrite call = false -> growing (handle_generate_package hass call).
Proof.
  intros Hov.
  destruct (decide (strip (pkg_name call) = EmptyString)) as [E|E].
  - intros w r w' H. rewrite (blank_name_refused hass call w E) in H.
    injection H as _ <-. apply grows_refl.
  - rewrite (handle_package_steps hass call E). cbv zeta. rewrite Hov.
    apply growing_bind; [apply growing_mkdir | intros _].
    apply growing_bind; [apply growing_exists | intros present].
    apply growing_bind.
    { destruct (present && negb false); [apply growing_iterdir | apply growing_ret]. }
    intros occupied. destruct occupied; [apply growing_raise|].
    apply growing_bind; [apply growing_mkdir | intros _].
    apply growing_bind.
    { destruct (pkg_include_blueprint call); [|apply growing_ret].
      apply growing_bind; [apply growing_mkdir | intros _]. apply growing_new_file. }
    intros _. apply growing_for_each. intros [relative_path builder].
    apply growing_new_file.
Qed.

(** X24: [generate_automation] without [overwrite] changes nothing that
    exists, when the output directory and the file of the call are paths of
    file names that the operating system takes as they are (a file name
    with [..] in it is not).  Whether the call succeeds or fails, every
    regular file that was there holds the content it held, and every
    directory is still a directory. *)
Theorem generate_without_overwrite_only_adds
    (hass : HomeAssistant) (call : GenerateData) (w w' : world) (r : result unit) :
  os_path (config_path hass "automation_helper") = true ->
  os_path (output_file hass call) = true ->
  data_overwrite call = false ->
  handle_generate hass call w = (r, w') ->
  (forall q c,
     lookup_path q (fs w) = Some (File c) -> lookup_path q (fs w') = Some (File c))
  /\ (forall q, is_dir_at q (fs w) = true -> is_dir_at q (fs w') = true).
Proof. intros _ _ Hov H. exact (handle_generate_growing hass call Hov w r w' H). Qed.

Lemma generate_without_overwrite_only_adds_witness :
  lookup_path night_mode_path
    (fs (snd (handle_generate demo_hass day_mode_data world_after_night_mode)))
  = Some (File (to_yaml (definition_of night_mode_data))).
Proof.
  refine (proj1 (generate_without_overwrite_only_adds demo_hass day_mode_data
                   world_after_night_mode
                   (snd (handle_generate demo_hass day_mode_data world_after_night_mode))
                   (Ok tt) _ _ _ _) night_mode_path _ _).
  - vm_compute. reflexivity.
  - vm_compute. reflexivity.
  - reflexivity.
  - vm_compute. reflexivity.
  - vm_compute. reflexivity.
Defined.

(** X25: [generate_package] without [overwrite] changes nothing that
    exists, for every name and every choice of flags.  Whether the call
    succeeds, is refused, or fails half way, every regular file that was
    there holds the content it held, and every directory is still a
    directory. *)
Theorem package_without_overwrite_only_adds
    (hass : HomeAssistant) (call : PackageData) (w w' : world) (r : result unit) :
  pkg_overwrite call = false ->
  handle_generate_package hass call w = (r, w') ->
  (forall q c,
     lookup_path q (fs w) = Some (File c) -> lookup_path q (fs w') = Some (File c))
  /\ (forall q, is_dir_at q (fs w) = true -> is_dir_at q (fs w') = true).
Proof. intros Hov H. exact (handle_package_growing hass call Hov w r w' H). Qed.

Lemma package_without_overwrite_only_adds_witness :
  lookup_path ["config"; "packages"; "morning_routine"; "notes.txt"]
    (fs (snd (handle_generate_package demo_hass
                (morning_routine None false false "automation") occupied_world)))
  = Some (File "mine").
Proof.
  refine (proj1 (package_without_overwrite_only_adds demo_hass
                   (morning_routine None false false "automation") occupied_world
                   (snd (handle_generate_package demo_hass
                           (morning_routine None false false "automation")
                           occupied_world))
                   (fst (handle_generate_package demo_hass
                           (morning_routine None false false "automation")
                           occupied_world)) _ _)
            ["config"; "packages"; "morning_routine"; "notes.txt"] _ _).
  - reflexivity.
  - vm_compute. reflexivity.
  - vm_compute. reflexivity.
Defined.

(** ** A package that fails half way *)

(** The guarded writer with [overwrite] on a path that is a directory. *)
Lemma async_write_on_dir hass d f c w :
  is_dir_at (d ++ [f]) (fs w) = true ->
  exists w',
    _async_write_file hass (d ++ [f]) c true w = (Raise IsADirectoryError, w')
    /\ fs w' = fs w.
Proof.
  intros Hdir.
  assert (exists m, lookup_path d (fs w) = Some (Dir m)) as [m Hd].
  { unfold is_dir_at in Hdir.
    destruct (lookup_path (d ++ [f]) (fs w)) as [sub|] eqn:E; [|discriminate].
    exact (lookup_child_dir d f _ _ E). }
  unfold _async_write_file, except_FileExistsError, _write, bind, path_exists,
    record_call. cbn [fs calls negb]. rewrite andb_false_r.
  unfold path_mkdir, record_call. cbn [fs calls].
  rewrite parent_snoc, (make_dirs_existing d _ m Hd).
  unfold path_write_text, record_call. cbn [fs calls].
  rewrite (write_file_directory _ c _ Hdir).
  eexists. split; reflexivity.
Qed.

Lemma package_files_scripts call :
  pkg_include_scripts call = true ->
  exists rest,
    package_files call
    = ("automations.yaml",
       fun _ => build_automation_package_yaml (package_title call) (pkg_description call)
                  (pkg_include_example call))
      :: ("scripts.yaml",
          fun _ => build_scripts_package_yaml (package_title call)
                     (pkg_include_example call))
      :: rest.
Proof.
  intros H. unfold package_files. rewrite H.
  destruct (pkg_include_scenes call), (pkg_include_readme call);
    cbv beta iota zeta delta [dict_set String.eqb Ascii.eqb Bool.eqb];
    eexists; reflexivity.
Qed.

(** X26: there is no rolling back.  A package with [overwrite] and
    [scripts.yaml] asked for, and no blueprint, whose directory holds a
    directory of the name [scripts.yaml]: the call fails with
    [IsADirectoryError] at that file, and [automations.yaml], written just
    before, stays in the package directory with the text of its
    builder. *)
Theorem failed_package_keeps_written_files
    (hass : HomeAssistant) (call : PackageData) (w : world) :
  strip (pkg_name call) <> EmptyString ->
  pkg_overwrite call = true ->
  pkg_include_blueprint call = false ->
  pkg_include_scripts call = true ->
  is_dir_at (package_dir hass call ++ ["scripts.yaml"]) (fs w) = true ->
  is_dir_at (package_dir hass call ++ ["automations.yaml"]) (fs w) = false ->
  exists w',
    handle_generate_package hass call w = (Raise IsADirectoryError, w')
    /\ lookup_path (package_dir hass call ++ ["automations.yaml"]) (fs w')
       = Some (File (build_automation_package_yaml (package_title call)
                       (pkg_description call) (pkg_include_example call))).
Proof.
  intros Hname Hov Hbp Hscripts Hdir Hfree.
  rewrite (handle_package_steps hass call Hname). cbv zeta. rewrite Hov, Hbp.
  destruct (package_files_scripts call Hscripts) as [rest ->].
  set (dir := package_dir hass call) in *.
  assert (exists m, lookup_path dir (fs w) = Some (Dir m)) as [m Hd].
  { unfold is_dir_at in Hdir.
    destruct (lookup_path (dir ++ ["scripts.yaml"]) (fs w)) as [sub|] eqn:E;
      [|discriminate].
    exact (lookup_child_dir dir _ _ _ E). }
  assert (exists m0, lookup_path (packages_root hass) (fs w) = Some (Dir m0))
    as [m0 Hroot] by exact (lookup_child_dir (packages_root hass) _ _ _ Hd).
  unfold bind at 1, path_mkdir. rewrite (make_dirs_existing _ _ _ Hroot).
  unfold bind at 1, path_exists, record_call. cbn [fs calls negb].
  rewrite andb_false_r.
  unfold bind at 1, ret.
  unfold bind at 1, path_mkdir. cbn [fs calls]. rewrite (make_dirs_existing _ _ _ Hd).
  unfold bind at 1, ret.
  set (w3 := {| fs := fs w; calls := _ |}).
  cbn [for_each].
  rewrite !(path_join_parts dir "automations.yaml" ["automations.yaml"])
    by (vm_compute; reflexivity).
  rewrite !(path_join_parts dir "scripts.yaml" ["scripts.yaml"])
    by (vm_compute; reflexivity).
  destruct (guarded_write_succeeds hass (dir ++ ["automations.yaml"])
              (build_automation_package_yaml (package_title call) (pkg_description call)
                 (pkg_include_example call)) true w3)
    as (w4 & E4 & Hfile & _).
  { right. reflexivity. }
  { unfold admits_write. rewrite parent_snoc. cbn [fs w3].
    rewrite (lookup_dir_clear dir _ m Hd), Hfree. reflexivity. }
  rewrite (bind_ok _ _ _ _ _ E4).
  destruct (async_write_on_dir hass dir "scripts.yaml"
              (build_scripts_package_yaml (package_title call) (pkg_include_example call))
              w4)
    as (w5 & E5 & Hfs).
  { apply (proj2 (async_write_ok _ _ _ _ _ _ E4)). exact Hdir. }
  rewrite (bind_raise _ _ _ _ _ E5).
  exists w5. split; [reflexivity|]. rewrite Hfs. exact Hfile.
Qed.

Lemma failed_package_keeps_written_files_witness :
  exists w',
    handle_generate_package demo_hass (morning_routine None true false "automation")
      {| fs := Dir {[ "config" :=
                        Dir {[ "packages" :=
                                 Dir {[ "morning_routine" :=
                                          Dir {[ "scripts.yaml" := Dir ∅ ]} ]} ]} ]};
         calls := [] |}
    = (Raise IsADirectoryError, w')
    /\ lookup_path (package_dir demo_hass (morning_routine None true false "automation")
                    ++ ["automations.yaml"]) (fs w')
       = Some (File (build_automation_package_yaml
                       (package_title (morning_routine None true false "automation"))
                       None true)).
Proof.
  apply (failed_package_keeps_written_files demo_hass
           (morning_routine None true false "automation")
           {| fs := Dir {[ "config" :=
                             Dir {[ "packages" :=
                                      Dir {[ "morning_routine" :=
                                               Dir {[ "scripts.yaml" := Dir ∅ ]} ]} ]} ]};
              calls := [] |}).
  - vm_compute. discriminate.
  - reflexivity.
  - reflexivity.
  - reflexivity.
  - vm_compute. reflexivity.
  - vm_compute. reflexivity.
Defined.

(** ** The calls of a successful [generate_automation] *)

(** X27: the file system calls of a successful [generate_automation], in
    their order: the output directory is made, the file is tested for by
    the handler and once more by the writer, the parent of the file is made,
    and the YAML of the definition is written to the file; there is no
    other call. *)
Theorem generate_success_trace
    (hass : HomeAssistant) (call : GenerateData) (w w' : world) :
  handle_generate hass call w = (Ok tt, w') ->
  calls w'
  = calls w
    ++ [CallMkdir (config_path hass "automation_helper");
        CallExists (output_file hass call);
        CallExists (output_file hass call);
        CallMkdir (parent (output_file hass call));
        CallWriteText (output_file hass call) (to_yaml (definition_of call))].
Proof.
  rewrite handle_generate_steps.
  unfold bind at 1, path_mkdir, record_call.
  destruct (make_dirs (config_path hass "automation_helper") (fs w)) as [n1|e1];
    [|discriminate].
  unfold bind at 1, path_exists, record_call. cbn [fs calls].
  destruct (bool_decide (is_Some (lookup_path (output_file hass call) n1))
            && negb (data_overwrite call)); [discriminate|].
  unfold _async_write_file, except_FileExistsError, _write.
  unfold bind at 1, path_exists, record_call. cbn [fs calls].
  destruct (bool_decide (is_Some (lookup_path (output_file hass call) n1))
            && negb (data_overwrite call)).
  { unfold raise. discriminate. }
  unfold bind, path_mkdir, record_call. cbn [fs calls].
  destruct (make_dirs (parent (output_file hass call)) n1) as [n2|e2].
  - unfold path_write_text, record_call. cbn [fs calls].
    destruct (write_file (output_file hass call) (to_yaml (definition_of call)) n2)
      as [n3|e3].
    + intros [= <-]. cbn [calls]. rewrite <- !app_assoc. reflexivity.
    + destruct e3; discriminate.
  - destruct e2; discriminate.
Qed.

Lemma generate_success_trace_witness :
  calls world_after_night_mode
  = calls empty_world
    ++ [CallMkdir (config_path demo_hass "automation_helper");
        CallExists (output_file demo_hass night_mode_data);
        CallExists (output_file demo_hass night_mode_data);
        CallMkdir (parent (output_file demo_hass night_mode_data));
        CallWriteText (output_file demo_hass night_mode_data)
          (to_yaml (definition_of night_mode_data))].
Proof.
  apply (generate_success_trace demo_hass night_mode_data empty_world
           world_after_night_mode).
  vm_compute. reflexivity.
Defined.

(** ** The YAML files of a package, line by line *)

Lemma header_assoc (a b c : string) : a +:+ b +:+ c +:+ NL = (a +:+ b +:+ c) +:+ NL.
Proof. rewrite !append_assoc. reflexivity. Qed.

Lemma header_line_ok (a name c : string) :
  line_ok a -> line_ok name -> line_ok c -> line_ok (a +:+ name +:+ c).
Proof.
  unfold line_ok. intros Ha Hn Hc. rewrite !all_bytes_app, Ha, Hn, Hc. reflexivity.
Qed.

Lemma alnum_or_space_not_nl c : is_alnum_or_space c = true -> not_nl c = true.
Proof.
  intros Hc. unfold not_nl. destruct (is_byte 10 c) eqn:E; [|reflexivity].
  unfold is_byte in E. apply N.eqb_eq in E.
  unfold is_alnum_or_space, is_alnum, is_lower_az, is_upper_az, is_digit, between,
    is_byte in Hc.
  rewrite E in Hc. discriminate Hc.
Qed.

Lemma plain_text_line limit s : plain_text limit s = true -> line_ok s.
Proof.
  unfold plain_text, line_ok. rewrite !andb_true_iff. intros [[[H _] _] _].
  exact (all_bytes_weaken _ _ _ alnum_or_space_not_nl H).
Qed.

Lemma lines_with_header h v :
  line_ok h ->
  text_lines ((h +:+ NL) +:+ unlines (block_lines v)) = h :: block_lines v ++ [EmptyString].
Proof.
  intros Hh. rewrite append_assoc.
  change (h +:+ NL +:+ unlines (block_lines v)) with (unlines (h :: block_lines v)).
  apply text_lines_unlines. apply Forall_cons. split; [exact Hh | apply block_lines_ok].
Qed.

(** X28: [automations.yaml] with the example, line by line, for a name of
    ASCII letters, digits and spaces that starts and ends with a letter or
    a digit and has at most 40 bytes, and a description that is missing,
    empty, or such a text of at most 60 bytes (texts that the serializer
    writes plain or in single quotes, on lines within 80 columns): the
    comment that names the package, then the list [automation] with one
    entry, which has a state trigger on [binary_sensor.example], an empty
    list of conditions, one [logbook.log] action and the mode [single]. *)
Theorem automations_file_lines (name : string) (description : option string) :
  plain_text 40 name = true ->
  plain_description 60 description = true ->
  text_lines (build_automation_package_yaml name description true)
  = ["# Automations for the " +:+ name +:+ " package";
     "automation:";
     "- alias: " +:+ represent_str (name +:+ " – example");
     "  description: " +:+ represent_str (automation_description description);
     "  trigger:";
     "  - platform: state";
     "    entity_id: binary_sensor.example";
     "    to: 'on'";
     "  condition: []";
     "  action:";
     "  - service: logbook.log";
     "    data:";
     "      name: " +:+ represent_str name;
     "      message: Replace this with useful actions.";
     "  mode: single";
     EmptyString].
Proof.
  intros Hname _. apply plain_text_line in Hname.
  unfold build_automation_package_yaml, safe_dump. cbv zeta iota.
  fold (automation_description description).
  rewrite header_assoc, lines_with_header
    by (apply header_line_ok; [reflexivity | exact Hname | reflexivity]).
  cbv [block_lines flat_map entry_lines item_lines inline is_sequence dash_lines map
       indent_line fst snd app].
  ground_scalars. reflexivity.
Qed.

Lemma automations_file_lines_witness :
  nth 2 (text_lines (build_automation_package_yaml "Morning Routine" None true))
    EmptyString
  = "- alias: Morning Routine – example".
Proof.
  rewrite (automations_file_lines "Morning Routine" None).
  - vm_compute. reflexivity.
  - vm_compute. reflexivity.
  - reflexivity.
Defined.

(** X29: [scripts.yaml] with the example, line by line, for a name of
    ASCII letters, digits and spaces that starts and ends with a letter or
    a digit and has at most 40 bytes (a text that the serializer writes
    plain or in single quotes, on lines within 80 columns): the comment
    that names the package, then the mapping [script] with one script, whose key is the
    slug of the name followed by [helper] and whose sequence is one
    [logbook.log] step. *)
Theorem scripts_file_lines (name : string) :
  plain_text 40 name = true ->
  text_lines (build_scripts_package_yaml name true)
  = ["# Scripts for the " +:+ name +:+ " package";
     "script:";
     "  " +:+ represent_str (slugify (name +:+ " helper")) +:+ ":";
     "    alias: " +:+ represent_str (name +:+ " helper");
     "    sequence:";
     "    - service: logbook.log";
     "      data:";
     "        name: " +:+ represent_str name;
     "        message: Replace this script with your real sequence.";
     EmptyString].
Proof.
  intros Hname. apply plain_text_line in Hname.
  unfold build_scripts_package_yaml, safe_dump.
  cbv beta zeta iota delta [dict_set].
  rewrite header_assoc, lines_with_header
    by (apply header_line_ok; [reflexivity | exact Hname | reflexivity]).
  cbv [block_lines flat_map entry_lines item_lines inline is_sequence dash_lines map
       indent_line fst snd app].
  ground_scalars. reflexivity.
Qed.

Lemma scripts_file_lines_witness :
  nth 2 (text_lines (build_scripts_package_yaml "Morning Routine" true)) EmptyString
  = "  morning_routine_helper:".
Proof.
  rewrite (scripts_file_lines "Morning Routine").
  - vm_compute. reflexivity.
  - vm_compute. reflexivity.
Defined.

(** X30: [scenes.yaml] with the example, line by line, for a name of
    ASCII letters, digits and spaces that starts and ends with a letter or
    a digit and has at most 40 bytes (a text that the serializer writes
    plain or in single quotes, on lines within 80 columns): the comment
    that names the package, then the list [scene] with one scene, which sets
    [light.example] on at brightness 200. *)
Theorem scenes_file_lines (name : string) :
  plain_text 40 name = true ->
  text_lines (build_scenes_package_yaml name true)
  = ["# Scenes for the " +:+ name +:+ " package";
     "scene:";
     "- name: " +:+ represent_str (name +:+ " scene");
     "  icon: mdi:palette";
     "  entities:";
     "    light.example:";
     "      state: 'on'";
     "      brightness: 200";
     EmptyString].
Proof.
  intros Hname. apply plain_text_line in Hname.
  unfold build_scenes_package_yaml, safe_dump. cbv zeta iota.
  rewrite header_assoc, lines_with_header
    by (apply header_line_ok; [reflexivity | exact Hname | reflexivity]).
  cbv [block_lines flat_map entry_lines item_lines inline is_sequence dash_lines map
       indent_line fst snd app].
  ground_scalars. reflexivity.
Qed.

Lemma scenes_file_lines_witness :
  nth 2 (text_lines (build_scenes_package_yaml "Morning Routine" true)) EmptyString
  = "- name: Morning Routine scene".
Proof.
  rewrite (scenes_file_lines "Morning Routine").
  - vm_compute. reflexivity.
  - vm_compute. reflexivity.
Defined.
